(** * HLK-LD2450 presence sensor driver (xsns_124_ld2450.ino)

    Shallow embedding of the driver's frame assembler, target decoder, zone
    classifier, presence query and configuration store, followed by the
    properties of the driver's specification that were checked against it.

    Conventions of the embedding:
    - every C integer is a [Z]; each store into a narrower C type is written
      with the matching wrap-around ([uint8], [uint16], [uint32], [int16]);
    - C arrays are lists; every indexed access is bounds checked and an access
      outside the array makes the whole operation return [None] (in C this is
      undefined behaviour), so a result [Some _] also says that every access
      stayed inside its array;
    - the driver's global variables are the fields of one [state] record that
      is passed through every function;
    - the serial port, [millis ()], [LocalTime ()] and [TasmotaGlobal.uptime]
      are inputs: [LD2450ReceiveData] takes the list of the bytes that the
      port delivers during the call, each with the clock readings of its loop
      iteration;
    - pointer casts ([uint32_t*], [uint16_t*], [int16_t*] over byte arrays)
      are read little-endian, as on the ESP8266 and ESP32 targets;
    - [(uint16_t) sqrt (pow (x, 2) + pow (y, 2))] is the integer square root:
      the sum is below 2^31, where the double computation is exact enough for
      the truncation to give exactly [Z.sqrt]. *)

From Stdlib Require Import Ascii String DecimalString.
From stdpp Require Import base numbers list option.

Open Scope Z_scope.

(** ** Machine integers *)

Definition uint8 (z : Z) : Z := z mod 256.
Definition uint16 (z : Z) : Z := z mod 65536.
Definition uint32 (z : Z) : Z := z mod 4294967296.
Definition int16 (z : Z) : Z := (z + 32768) mod 65536 - 32768.

Definition UINT32_MAX : Z := 4294967295.

(** ** Constants of the driver *)

Definition LD2450_START_DELAY : Z := 10.
Definition LD2450_DEFAULT_TIMEOUT : Z := 5.
Definition LD2450_DIST_MAX : Z := 6000.
Definition LD2450_TARGET_MAX : Z := 3.
Definition LD2450_MSG_SIZE_MAX : Z := 32.

(** ** Bounds-checked arrays *)

Definition array_load {A} (a : list A) (i : Z) : option A :=
  if 0 <=? i then a !! Z.to_nat i else None.

Definition array_store {A} (a : list A) (i : Z) (v : A) : option (list A) :=
  if (0 <=? i) && (i <? Z.of_nat (length a))
  then Some (<[Z.to_nat i := v]> a) else None.

(** Little-endian reads through a cast pointer. *)
Definition le16 (b0 b1 : Z) : Z := Z.lor b0 (Z.shiftl b1 8).
Definition le32 (b0 b1 b2 b3 : Z) : Z :=
  Z.lor (Z.lor b0 (Z.shiftl b1 8)) (Z.lor (Z.shiftl b2 16) (Z.shiftl b3 24)).

(** [*(int16_t* )(a + off)] *)
Definition load_int16 (a : list Z) (off : Z) : option Z :=
  b0 ← array_load a off;
  b1 ← array_load a (off + 1);
  Some (int16 (le16 b0 b1)).

(** ** Data *)

Module Received.
Record t := mk {
  timestamp : Z;                (* uint32_t, last received character *)
  idx_body  : Z;                (* uint8_t *)
  arr_body  : list Z;           (* uint8_t [LD2450_MSG_SIZE_MAX] *)
  arr_last  : Z * Z * Z * Z     (* uint8_t [4] *)
}.
End Received.

Module Config.
Record t := mk {
  timeout : Z;                  (* uint8_t *)
  x1 : Z;                       (* int16_t *)
  x2 : Z;
  y1 : Z;
  y2 : Z
}.
End Config.

Module Status.
Record t := mk {
  pserial   : bool;             (* false: nullptr *)
  enabled   : bool;
  counter   : Z;                (* uint8_t *)
  timestamp : Z                 (* uint32_t, last detection *)
}.
End Status.

Module Target.
Record t := mk {
  x     : Z;                    (* int16_t *)
  y     : Z;                    (* int16_t *)
  speed : Z;                    (* int16_t *)
  dist  : Z;                    (* uint16_t *)
  zone  : bool
}.
End Target.

(** The five bytes [Settings->free_ea6[25..29]]. *)
Module Flash.
Record t := mk {
  ea6_25 : Z;
  ea6_26 : Z;
  ea6_27 : Z;
  ea6_28 : Z;
  ea6_29 : Z
}.
End Flash.

Record state := mkState {
  ld2450_received : Received.t;
  ld2450_config   : Config.t;
  ld2450_status   : Status.t;
  ld2450_target   : list Target.t;      (* [LD2450_TARGET_MAX] *)
  Settings        : Flash.t;
  log             : list (list Z)       (* messages given to AddLog, latest first *)
}.

Definition set_received (r : Received.t) (s : state) : state :=
  mkState r (ld2450_config s) (ld2450_status s) (ld2450_target s) (Settings s) (log s).
Definition set_config (c : Config.t) (s : state) : state :=
  mkState (ld2450_received s) c (ld2450_status s) (ld2450_target s) (Settings s) (log s).
Definition set_status (st : Status.t) (s : state) : state :=
  mkState (ld2450_received s) (ld2450_config s) st (ld2450_target s) (Settings s) (log s).
Definition set_target (t : list Target.t) (s : state) : state :=
  mkState (ld2450_received s) (ld2450_config s) (ld2450_status s) t (Settings s) (log s).
Definition set_Settings (f : Flash.t) (s : state) : state :=
  mkState (ld2450_received s) (ld2450_config s) (ld2450_status s) (ld2450_target s) f (log s).
Definition AddLog (m : list Z) (s : state) : state :=
  mkState (ld2450_received s) (ld2450_config s) (ld2450_status s) (ld2450_target s)
          (Settings s) (m :: log s).

(** The static initialisers of the globals, with flash content [f]. *)
Definition initial_state (f : Flash.t) : state :=
  mkState
    (Received.mk UINT32_MAX 0 (replicate 32 0) (0, 0, 0, 0))
    (Config.mk LD2450_DEFAULT_TIMEOUT (- LD2450_DIST_MAX) LD2450_DIST_MAX 0 LD2450_DIST_MAX)
    (Status.mk false false 0 0)
    (replicate 3 (Target.mk 0 0 0 0 false))
    f [].

(** Readings taken during one iteration of the receive loop. *)
Record clock := mkClock {
  uptime    : Z;       (* TasmotaGlobal.uptime, uint32_t seconds *)
  millis    : Z;       (* millis (), uint32_t *)
  LocalTime : Z        (* LocalTime (), uint32_t seconds *)
}.

(** ** Configuration store *)

(** [LD2450LoadConfig]: read the five flash bytes, then check them. *)
Definition LD2450LoadConfig (s : state) : state :=
  let f := Settings s in
  (* read parameters *)
  let timeout := uint8 (Flash.ea6_25 f) in
  let x1 := int16 ((int16 (Flash.ea6_26 f) - 128) * 100) in
  let x2 := int16 ((int16 (Flash.ea6_27 f) - 128) * 100) in
  let y1 := int16 ((int16 (Flash.ea6_28 f) - 128) * 100) in
  let y2 := int16 ((int16 (Flash.ea6_29 f) - 128) * 100) in
  (* check parameters *)
  let timeout := if timeout =? 0 then LD2450_DEFAULT_TIMEOUT else timeout in
  let x1 := if x1 <? - LD2450_DIST_MAX then - LD2450_DIST_MAX else x1 in
  let x2 := if LD2450_DIST_MAX <? x2 then LD2450_DIST_MAX else x2 in
  let y1 := if y1 <? 0 then 0 else y1 in
  let y2 := if LD2450_DIST_MAX <? y2 then LD2450_DIST_MAX else y2 in
  let x2 := if x2 <=? x1 then LD2450_DIST_MAX else x2 in
  let y2 := if y2 <=? y1 then LD2450_DIST_MAX else y2 in
  set_config (Config.mk timeout x1 x2 y1 y2) s.

(** [LD2450SaveConfig]; C division truncates toward zero ([Z.quot]). *)
Definition LD2450SaveConfig (s : state) : state :=
  let c := ld2450_config s in
  set_Settings
    (Flash.mk (uint8 (Config.timeout c))
              (uint8 (Config.x1 c ÷ 100 + 128))
              (uint8 (Config.x2 c ÷ 100 + 128))
              (uint8 (Config.y1 c ÷ 100 + 128))
              (uint8 (Config.y2 c ÷ 100 + 128)))
    s.

(** ** Commands

    [payload] is [XdrvMailbox.payload] and [data] is the string
    [XdrvMailbox.data]. The answer sent back to the console is not
    modelled. *)

Definition char_code (c : ascii) : Z := Z.of_N (N_of_ascii c).

Definition isdigit (c : ascii) : bool := (48 <=? char_code c) && (char_code c <=? 57).

Definition isspace (c : ascii) : bool :=
  (char_code c =? 32) || ((9 <=? char_code c) && (char_code c <=? 13)).

Definition INT_MAX : Z := 2147483647.
Definition INT_MIN : Z := -2147483648.

(** The digits at the start of a string, as a number. *)
Fixpoint digits_value (acc : Z) (str : list ascii) : Z :=
  match str with
  | c :: rest => if isdigit c then digits_value (acc * 10 + (char_code c - 48)) rest else acc
  | [] => acc
  end.

Fixpoint skip_space (str : list ascii) : list ascii :=
  match str with
  | c :: rest => if isspace c then skip_space rest else str
  | [] => []
  end.

(** [atoi], which is [(int) strtol (str, NULL, 10)]: white space, a sign,
    digits; out of range values are brought to [INT_MIN] or [INT_MAX]. *)
Definition atoi (str : list ascii) : Z :=
  match skip_space str with
  | c :: rest =>
      if char_code c =? 45 then Z.max INT_MIN (- digits_value 0 rest)
      else if char_code c =? 43 then Z.min INT_MAX (digits_value 0 rest)
      else Z.min INT_MAX (digits_value 0 (c :: rest))
  | [] => 0
  end.

(** The tokens that successive calls of [strtok (_, delim)] return: the
    runs of characters other than [delim], none of them empty. [tok] holds
    the current run, latest character first. *)
Fixpoint strtok (delim : ascii) (tok : list ascii) (str : list ascii) : list (list ascii) :=
  match str with
  | [] => match tok with [] => [] | _ => [reverse tok] end
  | c :: rest =>
      if char_code c =? char_code delim
      then match tok with
           | [] => strtok delim [] rest
           | _ => reverse tok :: strtok delim [] rest
           end
      else strtok delim (c :: tok) rest
  end.

(** [strlcpy (str_answer, XdrvMailbox.data, 24)] *)
Definition strlcpy (data : string) (size : nat) : list ascii :=
  take (size - 1) (list_ascii_of_string data).

Definition CmndLD2450Timeout (payload : Z) (s : state) : state :=
  if 0 <? payload then
    let c := ld2450_config s in
    let s := set_config (Config.mk (uint8 payload) (Config.x1 c) (Config.x2 c)
                                   (Config.y1 c) (Config.y2 c)) s in
    LD2450SaveConfig s
  else s.

Definition CmndLD2450Reset (s : state) : state :=
  let c := ld2450_config s in
  (* set default and save config *)
  let s := set_config (Config.mk (Config.timeout c) (- LD2450_DIST_MAX) LD2450_DIST_MAX
                                 0 LD2450_DIST_MAX) s in
  LD2450SaveConfig s.

(** The [switch (count)] of [CmndLD2450Dist], for a token of value [v]. *)
Definition dist_token (count : Z) (v : Z) (c : Config.t) : Config.t :=
  if count =? 0
  then Config.mk (Config.timeout c) (Config.x1 c) (Config.x2 c) (int16 v) (Config.y2 c)
  else if count =? 1
  then Config.mk (Config.timeout c) (Config.x1 c) (Config.x2 c) (Config.y1 c) (int16 v)
  else c.

(** The [switch (count)] of [CmndLD2450Zone], for a token of value [v]. *)
Definition zone_token (count : Z) (v : Z) (c : Config.t) : Config.t :=
  if count =? 0
  then Config.mk (Config.timeout c) (int16 v) (Config.x2 c) (Config.y1 c) (Config.y2 c)
  else if count =? 1
  then Config.mk (Config.timeout c) (Config.x1 c) (int16 v) (Config.y1 c) (Config.y2 c)
  else if count =? 2
  then Config.mk (Config.timeout c) (Config.x1 c) (Config.x2 c) (int16 v) (Config.y2 c)
  else if count =? 3
  then Config.mk (Config.timeout c) (Config.x1 c) (Config.x2 c) (Config.y1 c) (int16 v)
  else c.

(** [while (pstr_token != nullptr) { if (strlen (pstr_token) > 0) switch ...;
    pstr_token = strtok (nullptr, ","); count ++; }] with [uint8_t count]. *)
Fixpoint token_loop (set_point : Z → Z → Config.t → Config.t)
         (count : Z) (tokens : list (list ascii)) (c : Config.t) : Config.t :=
  match tokens with
  | [] => c
  | pstr_token :: rest =>
      let c := if (0 <? length pstr_token)%nat
               then set_point count (atoi pstr_token) c else c in
      token_loop set_point (uint8 (count + 1)) rest c
  end.

Definition CmndLD2450Dist (data : string) (s : state) : state :=
  let str_answer := strlcpy data 24 in
  if (0 <? length str_answer)%nat then
    (* loop thru values *)
    let c := token_loop dist_token 0 (strtok ","%char [] str_answer) (ld2450_config s) in
    (* force x values *)
    let c := Config.mk (Config.timeout c) (- LD2450_DIST_MAX) LD2450_DIST_MAX
                       (Config.y1 c) (Config.y2 c) in
    (* save and validate zone *)
    LD2450LoadConfig (LD2450SaveConfig (set_config c s))
  else s.

Definition CmndLD2450Zone (data : string) (s : state) : state :=
  let str_answer := strlcpy data 24 in
  if (0 <? length str_answer)%nat then
    (* loop thru values *)
    let c := token_loop zone_token 0 (strtok ","%char [] str_answer) (ld2450_config s) in
    (* save and validate zone *)
    LD2450LoadConfig (LD2450SaveConfig (set_config c s))
  else s.

(** ** Presence query *)

(** [LD2450GetDetectionStatus (delay)], with [now] the value of
    [LocalTime ()]; the sum is computed in [uint32_t]. *)
Definition LD2450GetDetectionStatus (delay : Z) (now : Z) (s : state) : bool :=
  let timeout := uint32 delay in
  (* if timestamp not defined, no detection *)
  if Status.timestamp (ld2450_status s) =? 0 then false
  else
    (* if no timeout given, use default one *)
    let timeout :=
      if (timeout =? 0) || (timeout =? UINT32_MAX)
      then Config.timeout (ld2450_config s) else timeout in
    (* return timeout status *)
    now <? uint32 (Status.timestamp (ld2450_status s) + timeout).

(** ** Receive path *)

(** [for (index = first; index < last; index ++) body]. *)
Fixpoint for_loop {S} (indexes : list Z) (body : Z → S → option S) (s : S) : option S :=
  match indexes with
  | [] => Some s
  | index :: rest => s' ← body index s; for_loop rest body s'
  end.

(** [LD2450LogMessage]: the bytes [arr_body[0 .. idx_body - 1]] are printed
    and logged; the log keeps the bytes, not their hexadecimal text. *)
Definition LD2450LogMessage (s : state) : option state :=
  let r := ld2450_received s in
  str_log ← mapM (array_load (Received.arr_body r)) (seqZ 0 (Received.idx_body r));
  Some (AddLog str_log s).

(** [v = *pint16; if (v < 0) v = 0 - v - 32768;] on an [int16_t] field. *)
Definition read_coordinate (body : list Z) (off : Z) : option Z :=
  v ← load_int16 body off;
  Some (if v <? 0 then int16 (0 - v - 32768) else v).

(** The zone flag of lines 446-448. *)
Definition in_zone (c : Config.t) (x y dist : Z) : bool :=
  let zone := 0 <? dist in
  let zone := zone && ((Config.x1 c <=? x) && (x <=? Config.x2 c)) in
  let zone := zone && ((Config.y1 c <=? y) && (y <=? Config.y2 c)) in
  zone.

(** The fields computed for target [index] in the loop over the targets. *)
Definition read_target (c : Config.t) (body : list Z) (index : Z) : option Target.t :=
  (* set target coordonnates *)
  let start := 4 + index * 8 in
  (* x (negative if left side, positive if right side) *)
  x ← read_coordinate body start;
  (* y *)
  y ← read_coordinate body (start + 2);
  let y := int16 (0 - y) in
  (* speed *)
  speed ← read_coordinate body (start + 4);
  (* calculate distance *)
  let dist := uint16 (Z.sqrt (x * x + y * y)) in
  (* calculate if active *)
  Some (Target.mk x y speed dist (in_zone c x y dist)).

(** Body of the loop over the targets. *)
Definition decode_target (index : Z) (s : state) : option state :=
  t ← read_target (ld2450_config s) (Received.arr_body (ld2450_received s)) index;
  targets ← array_store (ld2450_target s) index t;
  (* set detection status according to activity *)
  let st := ld2450_status s in
  let st := if Target.zone t
            then Status.mk (Status.pserial st) (Status.enabled st)
                           (uint8 (Status.counter st + 1)) (Status.timestamp st)
            else st in
  Some (set_status st (set_target targets s)).

(** The branch taken when a complete message is in the buffer. *)
Definition decode_message (clk : clock) (s : state) : option state :=
  (* init target counter *)
  let st := ld2450_status s in
  let s := set_status (Status.mk (Status.pserial st) (Status.enabled st) 0
                                 (Status.timestamp st)) s in
  (* log received message *)
  s ← LD2450LogMessage s;
  (* loop thru targets *)
  s ← for_loop (seqZ 0 LD2450_TARGET_MAX) decode_target s;
  (* if at least one target detected, update detection timestamp *)
  let st := ld2450_status s in
  let s := if 0 <? Status.counter st
           then set_status (Status.mk (Status.pserial st) (Status.enabled st)
                                      (Status.counter st) (uint32 (LocalTime clk))) s
           else s in
  (* init reception *)
  let r := ld2450_received s in
  Some (set_received (Received.mk (Received.timestamp r) 0 (Received.arr_body r)
                                  (Received.arr_last r)) s).

(** [memcpy (arr_body, arr_last, 4)] *)
Definition copy_header (last : Z * Z * Z * Z) (body : list Z) : option (list Z) :=
  let '(l0, l1, l2, l3) := last in
  body ← array_store body 0 l0;
  body ← array_store body 1 l1;
  body ← array_store body 2 l2;
  array_store body 3 l3.

(** [if (idx_body < LD2450_MSG_SIZE_MAX) arr_body[idx_body++] = recv_data;] *)
Definition append_body (recv_data : Z) (r : Received.t) : option Received.t :=
  if Received.idx_body r <? LD2450_MSG_SIZE_MAX
  then body ← array_store (Received.arr_body r) (Received.idx_body r) recv_data;
       Some (Received.mk (Received.timestamp r) (uint8 (Received.idx_body r + 1))
                         body (Received.arr_last r))
  else Some r.

(** One turn of the receive loop of [LD2450ReceiveData], for the character
    [data] returned by [pserial->read ()]. *)
Definition LD2450ReceiveByte (clk : clock) (data : Z) (s : state) : option state :=
  (* receive character *)
  let recv_data := uint8 data in
  if LD2450_START_DELAY <? uptime clk then
    (* append character to received message body *)
    r ← append_body recv_data (ld2450_received s);
    (* update last received characters *)
    let '(_, l1, l2, l3) := Received.arr_last r in
    let last := (l1, l2, l3, recv_data) in
    (* update reception timestamp *)
    let r := Received.mk (uint32 (millis clk)) (Received.idx_body r)
                         (Received.arr_body r) last in
    (* get header and footer *)
    let pheader := le32 l1 l2 l3 recv_data in
    let pfooter := le16 l3 recv_data in
    (* look for header and footer *)
    if pheader =? 0x0003ffaa then
      body ← copy_header last (Received.arr_body r);
      Some (set_received (Received.mk (Received.timestamp r) 4 body last) s)
    (* else if data message received *)
    else if (Received.idx_body r =? 30) && (pfooter =? 0xcc55) then
      decode_message clk (set_received r s)
    else Some (set_received r s)
  else Some s.

(** The receive loop: [input] holds the characters that the serial port has
    available during the call, each with the clock readings of its turn of
    the loop; the loop ends when nothing is available any more. *)
Fixpoint receive_loop (input : list (clock * Z)) (s : state) : option state :=
  match input with
  | [] => Some s
  | (clk, data) :: rest => s' ← LD2450ReceiveByte clk data s; receive_loop rest s'
  end.

Definition LD2450ReceiveData (input : list (clock * Z)) (s : state) : option state :=
  (* check sensor presence *)
  if negb (Status.pserial (ld2450_status s)) then Some s
  else receive_loop input s.

(** [LD2450Init]: reset the targets, load the configuration. *)
Definition LD2450Init (s : state) : option state :=
  s ← for_loop (seqZ 0 LD2450_TARGET_MAX)
        (λ index s, targets ← array_store (ld2450_target s) index (Target.mk 0 0 0 0 false);
                    Some (set_target targets s)) s;
  Some (LD2450LoadConfig s).

(** * Vocabulary of the properties *)

(** ** Well-formed states

    What the C types guarantee: the sizes of the arrays, bytes within
    [0, 255], and a message length within the capacity of the buffer. *)

Definition is_byte (b : Z) : bool := (0 <=? b) && (b <? 256).

Definition wf_state (s : state) : bool :=
  let r := ld2450_received s in
  let '(l0, l1, l2, l3) := Received.arr_last r in
  (Z.of_nat (length (Received.arr_body r)) =? LD2450_MSG_SIZE_MAX)
  && forallb is_byte (Received.arr_body r)
  && (is_byte l0 && is_byte l1 && is_byte l2 && is_byte l3)
  && ((0 <=? Received.idx_body r) && (Received.idx_body r <=? LD2450_MSG_SIZE_MAX))
  && (Z.of_nat (length (ld2450_target s)) =? LD2450_TARGET_MAX).

(** ** The frame assembler

    The header magic, in transmission order. *)
Definition HEADER : Z * Z * Z * Z := (0xAA, 0xFF, 0x03, 0x00).

(** The sliding window after a character. *)
Definition push (last : Z * Z * Z * Z) (d : Z) : Z * Z * Z * Z :=
  let '(_, l1, l2, l3) := last in (l1, l2, l3, uint8 d).

(** Length and content of the message buffer after the append of line 389. *)
Definition appended_idx (r : Received.t) : Z :=
  if Received.idx_body r <? LD2450_MSG_SIZE_MAX
  then Received.idx_body r + 1 else Received.idx_body r.

Definition appended_body (r : Received.t) (d : Z) : list Z :=
  if Received.idx_body r <? LD2450_MSG_SIZE_MAX
  then <[Z.to_nat (Received.idx_body r) := uint8 d]> (Received.arr_body r)
  else Received.arr_body r.

(** The message buffer proper: the first [idx_body] bytes of [arr_body]. *)
Definition message (r : Received.t) : list Z :=
  take (Z.to_nat (Received.idx_body r)) (Received.arr_body r).

(** The tests of lines 405 and 412 on a window of bytes. *)
Definition header_seen (w : Z * Z * Z * Z) : bool :=
  let '(l0, l1, l2, l3) := w in
  (l0 =? 0xAA) && (l1 =? 0xFF) && (l2 =? 0x03) && (l3 =? 0x00).

Definition footer_seen (w : Z * Z * Z * Z) : bool :=
  let '(_, _, l2, l3) := w in (l2 =? 0x55) && (l3 =? 0xCC).

(** ** The decoder

    Number of targets flagged as inside the zone. *)
Definition active_targets (targets : list Target.t) : Z :=
  Z.of_nat (length (filter (λ t, Target.zone t = true) targets)).

(** Two bytes read as a little-endian, two's-complement 16-bit number. *)
Definition signed_le16 (lo hi : Z) : Z :=
  let u := lo + 256 * hi in if u <? 32768 then u else u - 65536.

(** The recovery rule of the specification, on unbounded integers. *)
Definition spec_recover (raw : Z) : Z :=
  if raw <? 0 then - raw - 32768 else raw.

(** ** Sample inputs

    The clock readings of a running system, and a state with 29 bytes of a
    message in the buffer and [0x55] last in the window. *)
Definition example_clock : clock := mkClock 100 5000 1700000000.

Definition example_state : state :=
  mkState
    (Received.mk 4999 29
       [0xAA; 0xFF; 0x03; 0x00;
        0x32; 0x00; 0x1E; 0x80; 0x10; 0x00; 0x68; 0x01;
        0x0E; 0x83; 0xB1; 0x86; 0x10; 0x80; 0x40; 0x01;
        0x00; 0x00; 0x00; 0x00; 0x00; 0x00; 0x00; 0x00;
        0x55; 0x00; 0x00; 0x00]
       (0x00, 0x00, 0x00, 0x55))
    (Config.mk 5 (-6000) 6000 0 6000)
    (Status.mk true true 0 0)
    [Target.mk 0 0 0 0 false; Target.mk 0 0 0 0 false; Target.mk 0 0 0 0 false]
    (Flash.mk 5 68 188 128 188)
    [].

(** The same state with the buffer full: 32 bytes accumulated. *)
Definition example_full_state : state :=
  set_received
    (Received.mk 4999 32 (Received.arr_body (ld2450_received example_state))
                 (0x00, 0x00, 0x00, 0x55))
    example_state.



(** ** Proof automation

    Case analysis on every test of the goal. *)
Ltac case_ifs :=
  repeat match goal with
         | |- context [if ?b then _ else _] => destruct b eqn:?
         | H : context [if ?b then _ else _] |- _ => destruct b eqn:?
         end.

(** ** Presence, commands, over-long messages

    The timeout that a query uses: the requested one, or the configured
    one when the request is 0 or [UINT32_MAX]. *)
Definition requested_timeout (delay : Z) (s : state) : Z :=
  if (uint32 delay =? 0) || (uint32 delay =? UINT32_MAX)
  then Config.timeout (ld2450_config s) else uint32 delay.

(** A run of the receive loop in which every decoded frame has no target
    inside the zone. *)
Fixpoint quiet_run (input : list (clock * Z)) (s : state) : Prop :=
  match input with
  | [] => True
  | (clk, d) :: rest =>
      match LD2450ReceiveByte clk d s with
      | Some s' =>
          (log s' ≠ log s → active_targets (ld2450_target s') = 0) ∧ quiet_run rest s'
      | None => False
      end
  end.

(** The in-memory configuration is the one that a load of the flash bytes
    gives. *)
Definition config_effective (s : state) : Prop :=
  ld2450_config (LD2450LoadConfig s) = ld2450_config s.

(** The header magic never shows in the window while [input] is received;
    the window moves only once the startup delay is over. *)
Fixpoint header_free (w : Z * Z * Z * Z) (input : list (clock * Z)) : Prop :=
  match input with
  | [] => True
  | (clk, d) :: rest =>
      if LD2450_START_DELAY <? uptime clk
      then header_seen (push w d) = false ∧ header_free (push w d) rest
      else header_free w rest
  end.

(** * Further parts of the driver, and the TCP server *)

(** ** Vocabulary of the further properties *)

(** A turn of the receive loop taken after the startup delay. *)
Definition gate_open (turn : clock * Z) : Prop := LD2450_START_DELAY < uptime turn.1.

(** The characters of an input, as the bytes that the loop works on. *)
Definition bytes_of (input : list (clock * Z)) : list Z := (λ turn, uint8 turn.2) <$> input.

(** Sign and magnitude: the low 15 bits are the magnitude, the top bit of
    the high byte tells a negative value. *)
Definition sign_magnitude (lo hi : Z) : Z :=
  if hi <? 128 then lo + 256 * hi else - (lo + 256 * (hi - 128)).

(** What every decoded target record satisfies. *)
Definition target_decoded (t : Target.t) : Prop :=
  -32767 ≤ Target.x t ≤ 32767
  ∧ -32767 ≤ Target.y t ≤ 32767
  ∧ -32767 ≤ Target.speed t ≤ 32767
  ∧ 0 ≤ Target.dist t ≤ 46339
  ∧ Target.dist t * Target.dist t ≤ Target.x t * Target.x t + Target.y t * Target.y t
    < (Target.dist t + 1) * (Target.dist t + 1)
  ∧ (Target.dist t = 0 ↔ Target.x t = 0 ∧ Target.y t = 0)
  ∧ (Target.zone t = true → 0 < Target.dist t).

(** What [LD2450LoadConfig] guarantees on the configuration. *)
Definition config_loaded (c : Config.t) : Prop :=
  1 ≤ Config.timeout c ≤ 255
  ∧ -6000 ≤ Config.x1 c ≤ 12700 ∧ -5900 ≤ Config.x2 c ≤ 6000
  ∧ 0 ≤ Config.y1 c ≤ 12700 ∧ 100 ≤ Config.y2 c ≤ 6000
  ∧ (Config.x2 c = 6000 ∨ Config.x1 c < Config.x2 c)
  ∧ (Config.y2 c = 6000 ∨ Config.y1 c < Config.y2 c)
  ∧ (100 | Config.x1 c) ∧ (100 | Config.x2 c) ∧ (100 | Config.y1 c) ∧ (100 | Config.y2 c).

(** The flash bytes are bytes. *)
Definition flash_bytes (f : Flash.t) : Prop :=
  0 ≤ Flash.ea6_25 f < 256 ∧ 0 ≤ Flash.ea6_26 f < 256 ∧ 0 ≤ Flash.ea6_27 f < 256
  ∧ 0 ≤ Flash.ea6_28 f < 256 ∧ 0 ≤ Flash.ea6_29 f < 256.

(** A bound in millimetres, rounded toward zero to a multiple of 100. *)
Definition round100 (v : Z) : Z := 100 * (v ÷ 100).

(** A complete frame, received after the startup delay. *)
Definition sample_frame_input : list (clock * Z) :=
  (λ b, (example_clock, b)) <$>
    [0xAA; 0xFF; 0x03; 0x00;
     0x32; 0x00; 0x1E; 0x80; 0x10; 0x00; 0x68; 0x01;
     0x0E; 0x83; 0xB1; 0x86; 0x10; 0x80; 0x40; 0x01;
     0x00; 0x00; 0x00; 0x00; 0x00; 0x00; 0x00; 0x00;
     0x55; 0xCC].

(** * Presentation (xsns_124_ld2450.ino)

    The pages are kept as the values that the driver computes for them;
    the markup around these values is not modelled. *)

Definition UINT8_MAX : Z := 255.
Definition int32 (z : Z) : Z := (z + 2147483648) mod 4294967296 - 2147483648.

Definition LD2450_COLOR_OUTRANGE : string := "#555"%string.
Definition LD2450_COLOR_PRESENT : string := "#1fa3ec"%string.

(** ** The sensor line of the main page *)

(** The cells that [LD2450WebSensor] sends, each a [div] with its width in
    percent: a text, an empty separation, or the disc of a target with its
    colour and number. *)
Inductive web_cell :=
  | WebText (width : Z) (text : string)
  | WebSpace (width : Z)
  | WebTarget (width : Z) (color : string) (number : Z).

Definition cell_width (c : web_cell) : Z :=
  match c with
  | WebText w _ => w
  | WebSpace w => w
  | WebTarget w _ _ => w
  end.

(** calculate target position *)
Definition web_position (dist : Z) : Z :=
  (* check if target should be displayed *)
  if dist =? 0 then UINT8_MAX
  else uint8 (28 - 3 + uint8 (uint32 (uint32 dist * 72) ÷ LD2450_DIST_MAX)).

Definition web_positions (targets : list Target.t) : option (list Z) :=
  for_loop (seqZ 0 LD2450_TARGET_MAX)
    (λ index arr_pos,
       t ← array_load targets index;
       array_store arr_pos index (web_position (Target.dist t)))
    (replicate 3 0).

(** adjust lower target position with 5% steps; the state of the loop is
    [arr_pos] and [position]. *)
Definition web_adjust_lower (arr_pos : list Z) : option (list Z) :=
  position ← array_load arr_pos 0;
  r ← for_loop (seqZ 1 (LD2450_TARGET_MAX - 1))
        (λ index '(arr_pos, position),
           p ← array_load arr_pos index;
           '(arr_pos, position) ←
             (if position =? UINT8_MAX then Some (arr_pos, p)
              else if (p <? 100 - 10) && (p <? position + 5)
                   then arr_pos ← array_store arr_pos index (uint8 (position + 5));
                        Some (arr_pos, position)
                   else Some (arr_pos, position));
           p ← array_load arr_pos index;
           Some (arr_pos, if negb (p =? UINT8_MAX) then p else position))
        (arr_pos, position);
  Some r.1.

(** adjust higher target position with 5% steps, from the last target to
    the first. *)
Definition web_adjust_upper (arr_pos : list Z) : option (list Z) :=
  r ← for_loop (reverse (seqZ 1 LD2450_TARGET_MAX))
        (λ counter '(arr_pos, position),
           let index := counter - 1 in
           p ← array_load arr_pos index;
           if negb (p =? UINT8_MAX) then
             arr_pos ← (if 95 <? p then array_store arr_pos index 95 else Some arr_pos);
             p ← array_load arr_pos index;
             arr_pos ← (if (position - 5 <? p) && (28 + 10 <? p)
                        then array_store arr_pos index (uint8 (position - 5))
                        else Some arr_pos);
             p ← array_load arr_pos index;
             Some (arr_pos, p)
           else Some (arr_pos, position))
        (arr_pos, UINT8_MAX);
  Some r.1.

(** loop to display targets; the state of the loop is the cells sent so
    far and [position]. *)
Definition web_display (targets : list Target.t) (arr_pos : list Z) : option (list web_cell) :=
  '(cells, position) ←
    for_loop (seqZ 0 LD2450_TARGET_MAX)
      (λ index '(cells, position),
         p ← array_load arr_pos index;
         if negb (p =? UINT8_MAX) then
           (* if needed, set separation zone *)
           let cells := if position <? p then cells ++ [WebSpace (p - position)] else cells in
           (* check if target is in detection zone *)
           t ← array_load targets index;
           let str_color := if Target.zone t then LD2450_COLOR_PRESENT
                            else LD2450_COLOR_OUTRANGE in
           let cells := cells ++ [WebTarget 5 str_color (index + 1)] in
           (* update minimum position *)
           Some (cells, uint8 (p + 5))
         else Some (cells, position))
      ([], 25);
  Some (if position <? 100 then cells ++ [WebSpace (100 - position)] else cells).

(** [LD2450WebSensor]: the line of the scale, then the line of the targets;
    nothing when the driver is not enabled. *)
Definition LD2450WebSensor (s : state) : option (list (list web_cell)) :=
  (* check if enabled *)
  if negb (Status.enabled (ld2450_status s)) then Some []
  else
    (* scale *)
    let scale := [WebText 28 "LD2450"%string; WebText 6 "0m"%string]
                 ++ ((λ index, WebText 12 (String (ascii_of_N (Z.to_N (48 + index))) "m"%string))
                       <$> seqZ 1 5)
                 ++ [WebText 6 "6m"%string] in
    (* targets *)
    arr_pos ← web_positions (ld2450_target s);
    arr_pos ← web_adjust_lower arr_pos;
    arr_pos ← web_adjust_upper arr_pos;
    cells ← web_display (ld2450_target s) arr_pos;
    Some [scale; WebText 25 "&nbsp;&nbsp;Presence"%string :: cells].

(** ** The radar page *)

(** A coordinate in millimetres on the radar, in [int32_t] arithmetic. *)
Definition radar_coordinate (v offset : Z) : Z :=
  int32 (int32 (int32 v * 400) ÷ LD2450_DIST_MAX + offset).

Record radar_target := mkRadarTarget {
  radar_class : string;
  radar_cx : Z;
  radar_cy : Z;
  radar_ty : Z
}.

(** [LD2450GraphRadarUpdate]: the four corners of the path of the zone, in
    the order of the path, then one line per target. *)
Definition LD2450GraphRadarUpdate (s : state)
  : option (list (Z * Z) * list radar_target) :=
  let c := ld2450_config s in
  (* radar zone *)
  let x1 := radar_coordinate (Config.x1 c) 400 in
  let x2 := radar_coordinate (Config.x2 c) 400 in
  let y1 := radar_coordinate (Config.y1 c) 50 in
  let y2 := radar_coordinate (Config.y2 c) 50 in
  (* loop thru targets *)
  rows ← mapM (λ index,
                 t ← array_load (ld2450_target s) index;
                 (* calculate target type *)
                 let str_class := if Target.dist t =? 0 then "abs"%string
                                  else if Target.zone t then "act"%string
                                  else "ina"%string in
                 (* calculate coordonates *)
                 let x1 := radar_coordinate (Target.x t) 400 in
                 let y1 := radar_coordinate (Target.y t) 50 in
                 Some (mkRadarTarget str_class x1 y1 (int32 (y1 + 5))))
              (seqZ 0 LD2450_TARGET_MAX);
  Some ([(x1, y1); (x2, y1); (x2, y2); (x1, y2)], rows).

(** ** Vocabulary of the presentation *)

Definition row_width (cells : list web_cell) : Z := foldr (λ c w, cell_width c + w) 0 cells.

Definition target_color (t : Target.t) : string :=
  if Target.zone t then LD2450_COLOR_PRESENT else LD2450_COLOR_OUTRANGE.

(** The discs of a line, in order: number and colour. *)
Definition shown_targets (cells : list web_cell) : list (Z * string) :=
  omap (λ c, match c with WebTarget _ color n => Some (n, color) | _ => None end) cells.

(** The targets that have a distance, numbered from 1, with the colour of
    their zone flag. *)
Definition present_targets (targets : list Target.t) : list (Z * string) :=
  omap id (imap (λ i t, if Target.dist t =? 0 then None
                        else Some (Z.of_nat i + 1, target_color t)) targets).

(** ** The JSON section *)

(** [%d] and [%u] of [printf], for a value within the range of its type. *)
Definition sprintf_d (z : Z) : string := NilZero.string_of_int (Z.to_int z).

(** The character [0x22]. *)
Definition quote : string := String (ascii_of_nat 34) EmptyString.

(** [",\"ld2450\":{\"detect\":%u,"] *)
Definition json_start (counter : Z) : string :=
  ("," ++ quote ++ "ld2450" ++ quote ++ ":{" ++ quote ++ "detect" ++ quote ++ ":"
   ++ sprintf_d counter ++ ",")%string.

(** [",\"target%u\":{\"x\":%d,\"y\":%d,\"dist\":%u,\"speed\":%d}"] *)
Definition json_target (index : Z) (t : Target.t) : string :=
  ("," ++ quote ++ "target" ++ sprintf_d index ++ quote ++ ":{"
   ++ quote ++ "x" ++ quote ++ ":" ++ sprintf_d (Target.x t) ++ ","
   ++ quote ++ "y" ++ quote ++ ":" ++ sprintf_d (Target.y t) ++ ","
   ++ quote ++ "dist" ++ quote ++ ":" ++ sprintf_d (Target.dist t) ++ ","
   ++ quote ++ "speed" ++ quote ++ ":" ++ sprintf_d (Target.speed t) ++ "}")%string.

(** [LD2450ShowJSON]: the text appended to the response. *)
Definition LD2450ShowJSON (append : bool) (s : state) : option string :=
  (* check sensor presence *)
  if negb (Status.pserial (ld2450_status s)) then Some EmptyString
  else if append then
    (* start of ld2450 section *)
    let response := json_start (Status.counter (ld2450_status s)) in
    (* loop thru targets *)
    response ← for_loop (seqZ 0 LD2450_TARGET_MAX)
                 (λ index response,
                    t ← array_load (ld2450_target s) index;
                    Some (if 0 <? Target.dist t
                          then (response ++ json_target index t)%string
                          else response))
                 response;
    (* end of ld2450 section *)
    Some (response ++ "}")%string
  else Some EmptyString.

(** * Interface (xsns_124_ld2450.ino)

    The driver as built with [USE_WEBSERVER] and [USE_LD2450_RADAR]. The
    lines of information that the help command and the initialisation give
    to the log are not kept. *)

Definition CmndLD2450Help (s : state) : state := s.

(** The driver with the one other setting that it writes,
    [Settings->baudrate]. *)
Record device := mkDevice {
  driver   : state;
  baudrate : Z
}.

(** [LD2450InitDevice]: [rx_used] and [tx_used] are [PinUsed] of the two
    pins, [begin_ok] is what [begin] of the serial port answers. The
    result is the enabled flag. *)
Definition LD2450InitDevice (rx_used tx_used begin_ok : bool) (d : device) : bool * device :=
  let st := ld2450_status (driver d) in
  let d :=
    (* if not done, init sensor state *)
    if negb (Status.pserial st) && rx_used && tx_used then
      mkDevice
        (set_status (Status.mk true begin_ok (Status.counter st) (Status.timestamp st))
                    (driver d))
        853
    else d in
  (Status.enabled (ld2450_status (driver d)), d).

(** The functions of the command table [HLKLD2450Command], in the order of
    [kHLKLD2450Commands]: help, tout, reset, dist, zone. *)
Definition HLKLD2450Command : list (Z → string → state → state) :=
  [ λ _ _, CmndLD2450Help;
    λ payload _, CmndLD2450Timeout payload;
    λ _ _, CmndLD2450Reset;
    λ _ data, CmndLD2450Dist data;
    λ _ data, CmndLD2450Zone data ].

(** [DecodeCommand]: [found] is the index of the command of the mailbox in
    the list of the names, if it is one of them; its function is called and
    the command is handled. *)
Definition DecodeCommand (found : option nat) (payload : Z) (data : string) (s : state)
  : bool * state :=
  match found ≫= (λ index, HLKLD2450Command !! index) with
  | Some command => (true, command payload data s)
  | None => (false, s)
  end.

Inductive tasmota_function :=
  | FUNC_INIT
  | FUNC_COMMAND
  | FUNC_JSON_APPEND
  | FUNC_LOOP
  | FUNC_WEB_SENSOR
  | FUNC_WEB_ADD_MAIN_BUTTON
  | FUNC_WEB_ADD_HANDLER
  | FUNC_OTHER.

(** What a call of the driver sends or registers. *)
Inductive sent :=
  | SentNothing
  | SentJSON (text : string)
  | SentSensor (rows : list (list web_cell))
  | SentButton
  | SentHandlers.

(** What a call of the driver is given: the command of the mailbox and the
    characters waiting on the serial port. *)
Record mailbox := mkMailbox {
  found   : option nat;
  payload : Z;
  data    : string;
  serial  : list (clock * Z)
}.

(** [Xsns124] *)
Definition Xsns124 (function : tasmota_function) (m : mailbox) (s : state)
  : option (bool * sent * state) :=
  let enabled := Status.enabled (ld2450_status s) in
  (* swtich according to context *)
  match function with
  | FUNC_INIT => s ← LD2450Init s; Some (false, SentNothing, s)
  | FUNC_COMMAND =>
      let '(result, s) := DecodeCommand (found m) (payload m) (data m) s in
      Some (result, SentNothing, s)
  | FUNC_JSON_APPEND =>
      if enabled then text ← LD2450ShowJSON true s; Some (false, SentJSON text, s)
      else Some (false, SentNothing, s)
  | FUNC_LOOP =>
      if enabled then s ← LD2450ReceiveData (serial m) s; Some (false, SentNothing, s)
      else Some (false, SentNothing, s)
  | FUNC_WEB_SENSOR =>
      if enabled then rows ← LD2450WebSensor s; Some (false, SentSensor rows, s)
      else Some (false, SentNothing, s)
  | FUNC_WEB_ADD_MAIN_BUTTON =>
      Some (false, if enabled then SentButton else SentNothing, s)
  | FUNC_WEB_ADD_HANDLER =>
      Some (false, if enabled then SentHandlers else SentNothing, s)
  | FUNC_OTHER => Some (false, SentNothing, s)
  end.

(** The calls that the firmware and other drivers make. *)
Inductive call :=
  | CallInitDevice (rx_used tx_used begin_ok : bool)
  | CallXsns124 (function : tasmota_function) (m : mailbox).

Definition do_call (c : call) (d : device) : option device :=
  match c with
  | CallInitDevice rx_used tx_used begin_ok =>
      Some (LD2450InitDevice rx_used tx_used begin_ok d).2
  | CallXsns124 function m =>
      r ← Xsns124 function m (driver d); Some (mkDevice r.2 (baudrate d))
  end.

Fixpoint do_calls (calls : list call) (d : device) : option device :=
  match calls with
  | [] => Some d
  | c :: rest => d ← do_call c d; do_calls rest d
  end.

(** ** Vocabulary of the interface *)

(** What holds of the driver between the calls. *)
Definition driver_consistent (s : state) : Prop :=
  wf_state s = true
  ∧ Forall target_decoded (ld2450_target s)
  ∧ 0 ≤ Status.counter (ld2450_status s) ≤ 3
  ∧ 0 ≤ Config.timeout (ld2450_config s) ≤ 255
  ∧ -6000 ≤ Config.x1 (ld2450_config s) ≤ 12700
  ∧ -5900 ≤ Config.x2 (ld2450_config s) ≤ 6000
  ∧ 0 ≤ Config.y1 (ld2450_config s) ≤ 12700
  ∧ 100 ≤ Config.y2 (ld2450_config s) ≤ 6000
  ∧ flash_bytes (Settings s)
  ∧ (Status.enabled (ld2450_status s) = true → Status.pserial (ld2450_status s) = true).

(** * TCP server (xdrv_97_tcp_server.ino)

    The server relays characters to at most two TCP clients. A client is
    modelled by its connection flag (what [operator bool] answers) and the
    chunks written to it so far, in order; the listening socket by its port.
    The connection that [server->hasClient ()] announces, if any, is an
    input of [manage_client]. *)

Definition TCP_CLIENT_MAX : Z := 2.
Definition TCP_DATA_MAX : Z := 64.

Module WiFiClient.
Record t := mk {
  connected : bool;
  written   : list (list Z)
}.

(** [client.stop ()] *)
Definition stop (c : t) : t := mk false (written c).

(** [client.write (buffer, size)] *)
Definition write (chunk : list Z) (c : t) : t := mk (connected c) (written c ++ [chunk]).
End WiFiClient.

Module TCPServer.
Record t := mk {
  server       : option Z;               (* WiFiServer*, with its port *)
  client       : list WiFiClient.t;      (* [TCP_CLIENT_MAX] *)
  client_next  : Z;                      (* uint8_t *)
  buffer       : list Z;                 (* char [TCP_DATA_MAX] *)
  buffer_index : Z                       (* uint8_t *)
}.

Definition set_client (c : list WiFiClient.t) (srv : t) : t :=
  mk (server srv) c (client_next srv) (buffer srv) (buffer_index srv).

(** [TCPServer::TCPServer ()]; the content of the buffer is not initialised. *)
Definition new (buffer : list Z) : t :=
  mk None (replicate 2 (WiFiClient.mk false [])) 0 buffer 0.

(** [TCPServer::stop ()] *)
Definition stop (srv : t) : option (bool * t) :=
  match server srv with
  | Some _ =>
      (* kill server, stop all clients *)
      srv ← for_loop (seqZ 0 TCP_CLIENT_MAX)
              (λ index srv,
                 c ← array_load (client srv) index;
                 clients ← array_store (client srv) index (WiFiClient.stop c);
                 Some (set_client clients srv))
              (mk None (client srv) (client_next srv) (buffer srv) (buffer_index srv));
      Some (true, srv)
  | None => Some (false, srv)
  end.

(** [TCPServer::start (port)]; [WiFiServer] takes the port as [uint16_t]. *)
Definition start (port : Z) (srv : t) : option (bool * t) :=
  if 0 <? port then
    (* if server already started, stop it *)
    srv ← match server srv with
          | Some _ => r ← stop srv; Some (snd r)
          | None => Some srv
          end;
    (* create and start server, reset buffer index *)
    Some (true, mk (Some (uint16 port)) (client srv) (client_next srv) (buffer srv) 0)
  else Some (false, srv).

(** [TCPServer::send (to_send)] *)
Definition send (to_send : Z) (srv : t) : option t :=
  match server srv with
  | Some _ =>
      (* append caracter to buffer *)
      buf ← array_store (buffer srv) (buffer_index srv) to_send;
      let srv := mk (server srv) (client srv) (client_next srv) buf
                    (uint8 (buffer_index srv + 1)) in
      (* if end of line or buffer size reached *)
      if (buffer_index srv =? TCP_DATA_MAX) || (to_send =? 13) then
        (* send data to connected clients *)
        srv ← for_loop (seqZ 0 TCP_CLIENT_MAX)
                (λ index srv,
                   c ← array_load (client srv) index;
                   if WiFiClient.connected c then
                     chunk ← mapM (array_load (buffer srv)) (seqZ 0 (buffer_index srv));
                     clients ← array_store (client srv) index (WiFiClient.write chunk c);
                     Some (set_client clients srv)
                   else Some srv)
                srv;
        (* reset buffer index *)
        Some (mk (server srv) (client srv) (client_next srv) (buffer srv) 0)
      else Some srv
  | None => Some srv
  end.

(** The loop that looks for an empty slot: the index at which it breaks, or
    [TCP_CLIENT_MAX] when it runs to its end. *)
Fixpoint find_slot (indexes : list Z) (clients : list WiFiClient.t) : option Z :=
  match indexes with
  | [] => Some TCP_CLIENT_MAX
  | index :: rest =>
      c ← array_load clients index;
      if negb (WiFiClient.connected c) then Some index else find_slot rest clients
  end.

(** [TCPServer::manage_client ()]; [incoming] is the connection that
    [server->available ()] returns when [server->hasClient ()] holds. The
    result also tells the client that was stopped to make room, if any. *)
Definition manage_client (incoming : option WiFiClient.t) (srv : t)
  : option (option WiFiClient.t * t) :=
  match server srv, incoming with
  | Some _, Some new_client =>
      (* find an empty slot *)
      index ← find_slot (seqZ 0 TCP_CLIENT_MAX) (client srv);
      if index <? TCP_CLIENT_MAX then
        clients ← array_store (client srv) index new_client;
        Some (None, set_client clients srv)
      else
        (* if no empty slot, kill oldest one *)
        let index := Z.rem (client_next srv) TCP_CLIENT_MAX in
        let srv := mk (server srv) (client srv) (uint8 (client_next srv + 1))
                      (buffer srv) (buffer_index srv) in
        old ← array_load (client srv) index;
        clients ← array_store (client srv) index new_client;
        Some (Some (WiFiClient.stop old), set_client clients srv)
  | _, _ => Some (None, srv)
  end.

(** [CmndTCPStart] and [CmndTCPStop]: the result tells whether the answer
    is "Done" or "Failed". *)
Definition CmndTCPStart (data_len payload : Z) (srv : t) : option (bool * t) :=
  if (0 <? data_len) && (0 <? payload) then start payload srv else Some (false, srv).

Definition CmndTCPStop (srv : t) : option (bool * t) := stop srv.
End TCPServer.

(** ** Vocabulary of the TCP server *)

(** The characters waiting in the buffer. *)
Definition pending (srv : TCPServer.t) : list Z :=
  take (Z.to_nat (TCPServer.buffer_index srv)) (TCPServer.buffer srv).

(** The sizes of the arrays, an index inside the buffer, and no carriage
    return waiting in the buffer. *)
Definition wf_server (srv : TCPServer.t) : Prop :=
  length (TCPServer.buffer srv) = 64%nat
  ∧ length (TCPServer.client srv) = 2%nat
  ∧ 0 ≤ TCPServer.buffer_index srv < 64
  ∧ 0 ≤ TCPServer.client_next srv < 256
  ∧ 13 ∉ pending srv.

(** A sequence of calls of [send]. *)
Fixpoint send_all (chars : list Z) (srv : TCPServer.t) : option TCPServer.t :=
  match chars with
  | [] => Some srv
  | c :: rest => srv ← TCPServer.send c srv; send_all rest srv
  end.

(** A chunk as [send] writes them: at most 64 characters, the last one a
    carriage return unless the chunk is a full buffer, and no carriage
    return before the last character. *)
Definition chunk_shape (chunk : list Z) : Prop :=
  ∃ body c, chunk = body ++ [c] ∧ (13 ∉ body)
            ∧ (length chunk ≤ 64)%nat ∧ (c = 13 ∨ length chunk = 64%nat).

(** Sample server: listening on port 8888, one client connected in slot 0,
    three characters waiting in the buffer. *)
Definition example_server : TCPServer.t :=
  TCPServer.mk (Some 8888)
    [WiFiClient.mk true [[0x41; 13]]; WiFiClient.mk false []]
    0 ([0x41; 0x42; 0x43] ++ replicate 61 0) 3.

(** The same with both slots taken. *)
Definition example_full_server : TCPServer.t :=
  TCPServer.mk (Some 8888)
    [WiFiClient.mk true [[0x41; 13]]; WiFiClient.mk true []]
    255 ([0x41; 0x42; 0x43] ++ replicate 61 0) 3.

(** * Properties *)

(** ** Machine arithmetic, arrays, well-formed states *)

Section Arithmetic.

Lemma is_byte_true b : is_byte b = true ↔ 0 ≤ b < 256.
Proof. unfold is_byte. lia. Qed.

Lemma uint8_byte z : 0 ≤ uint8 z < 256.
Proof. unfold uint8. apply Z.mod_pos_bound. lia. Qed.

Lemma uint8_id z : 0 ≤ z < 256 → uint8 z = z.
Proof. unfold uint8. intros. apply Z.mod_small. lia. Qed.

Lemma int16_id z : -32768 ≤ z < 32768 → int16 z = z.
Proof. unfold int16. intros. rewrite Z.mod_small; lia. Qed.

Lemma int16_range z : -32768 ≤ int16 z < 32768.
Proof. unfold int16. pose proof (Z.mod_pos_bound (z + 32768) 65536). lia. Qed.

Lemma byte_shift_disjoint b c k :
  0 ≤ b < 2 ^ k → 0 ≤ k → Z.land b (Z.shiftl c k) = 0.
Proof.
  intros Hb Hk. apply Z.bits_inj'. intros n Hn.
  rewrite Z.land_spec, Z.bits_0.
  destruct (Z.lt_ge_cases n k) as [Hlt | Hge].
  - rewrite (Z.shiftl_spec_low c k n Hlt). apply andb_false_r.
  - assert (Z.testbit b n = false) as ->; [|reflexivity].
    destruct (Z.eq_dec b 0) as [-> | Hnz]; [apply Z.bits_0|].
    apply Z.bits_above_log2; [lia|].
    apply Z.log2_lt_pow2; [lia|]. 
    apply Z.lt_le_trans with (2 ^ k); [lia|].
    apply Z.pow_le_mono_r; lia.
Qed.

Lemma le16_add b0 b1 : 0 ≤ b0 < 256 → le16 b0 b1 = b0 + 256 * b1.
Proof.
  intros H0. unfold le16.
  rewrite <- Z.add_nocarry_lor by (apply (byte_shift_disjoint b0 b1 8); lia).
  rewrite Z.shiftl_mul_pow2 by lia. lia.
Qed.

Lemma le32_add b0 b1 b2 b3 :
  0 ≤ b0 < 256 → 0 ≤ b1 < 256 → 0 ≤ b2 < 256 →
  le32 b0 b1 b2 b3 = b0 + 256 * b1 + 65536 * b2 + 16777216 * b3.
Proof.
  intros H0 H1 H2. unfold le32.
  fold (le16 b0 b1). rewrite (le16_add b0 b1 H0).
  replace (Z.shiftl b3 24) with (Z.shiftl (Z.shiftl b3 8) 16)
    by (rewrite Z.shiftl_shiftl by lia; reflexivity).
  rewrite <- Z.shiftl_lor. fold (le16 b2 b3). rewrite (le16_add b2 b3 H2).
  rewrite <- Z.add_nocarry_lor
    by (apply (byte_shift_disjoint (b0 + 256 * b1) _ 16); lia).
  rewrite Z.shiftl_mul_pow2 by lia. lia.
Qed.

End Arithmetic.

Section Arrays.
Context {A : Type}.
Implicit Types (a : list A) (i : Z) (v : A).

Lemma array_store_ok a i v :
  0 ≤ i < Z.of_nat (length a) →
  array_store a i v = Some (<[Z.to_nat i := v]> a).
Proof.
  intros H. unfold array_store.
  destruct (0 <=? i) eqn:E1; [|lia].
  destruct (i <? Z.of_nat (length a)) eqn:E2; [reflexivity|lia].
Qed.

Lemma array_store_inv a i v a' :
  array_store a i v = Some a' →
  0 ≤ i < Z.of_nat (length a) ∧ a' = <[Z.to_nat i := v]> a.
Proof.
  unfold array_store.
  destruct (0 <=? i) eqn:E1; [|discriminate].
  destruct (i <? Z.of_nat (length a)) eqn:E2; [|discriminate].
  simpl. intros [= <-]. split; [lia|reflexivity].
Qed.

Lemma array_load_ok a i v :
  0 ≤ i → a !! Z.to_nat i = Some v → array_load a i = Some v.
Proof.
  intros H Hl. unfold array_load. destruct (0 <=? i) eqn:E; [exact Hl|lia].
Qed.

Lemma array_load_inv a i v :
  array_load a i = Some v → 0 ≤ i < Z.of_nat (length a) ∧ a !! Z.to_nat i = Some v.
Proof.
  unfold array_load. destruct (0 <=? i) eqn:E; [|discriminate].
  intros Hl. split; [|exact Hl].
  apply lookup_lt_Some in Hl. lia.
Qed.

End Arrays.

Section WellFormed.

Lemma wf_state_spec s :
  wf_state s = true ↔
  let r := ld2450_received s in
  length (Received.arr_body r) = 32%nat
  ∧ Forall (λ b, 0 ≤ b < 256) (Received.arr_body r)
  ∧ (let '(l0, l1, l2, l3) := Received.arr_last r in
     0 ≤ l0 < 256 ∧ 0 ≤ l1 < 256 ∧ 0 ≤ l2 < 256 ∧ 0 ≤ l3 < 256)
  ∧ 0 ≤ Received.idx_body r ≤ 32
  ∧ length (ld2450_target s) = 3%nat.
Proof.
  unfold wf_state, LD2450_MSG_SIZE_MAX, LD2450_TARGET_MAX. cbv zeta.
  destruct (Received.arr_last (ld2450_received s)) as [[[l0 l1] l2] l3].
  rewrite !andb_true_iff, forallb_forall, Forall_forall, !is_byte_true.
  setoid_rewrite is_byte_true. setoid_rewrite <- list_elem_of_In.
  rewrite !Z.eqb_eq, !Z.leb_le. 
  intuition lia.
Qed.

Lemma initial_state_wf f : wf_state (initial_state f) = true.
Proof. reflexivity. Qed.

Lemma wf_set_received r s :
  wf_state s = true →
  length (Received.arr_body r) = 32%nat →
  Forall (λ b, 0 ≤ b < 256) (Received.arr_body r) →
  (let '(l0, l1, l2, l3) := Received.arr_last r in
     0 ≤ l0 < 256 ∧ 0 ≤ l1 < 256 ∧ 0 ≤ l2 < 256 ∧ 0 ≤ l3 < 256) →
  0 ≤ Received.idx_body r ≤ 32 →
  wf_state (set_received r s) = true.
Proof.
  intros Hwf H1 H2 H3 H4. apply wf_state_spec in Hwf. apply wf_state_spec.
  simpl in *. tauto.
Qed.

End WellFormed.

(** ** The frame assembler, turn by turn *)

Section Assembler.

Local Arguments copy_header : simpl never.
Local Arguments decode_message : simpl never.

Lemma header_seen_spec w : header_seen w = true ↔ w = HEADER.
Proof.
  destruct w as [[[l0 l1] l2] l3]. unfold header_seen, HEADER.
  rewrite !andb_true_iff, !Z.eqb_eq. split.
  - intros [[[-> ->] ->] ->]. reflexivity.
  - intros [= -> -> -> ->]. auto.
Qed.

Lemma header_footer_exclusive w : header_seen w = true → footer_seen w = false.
Proof.
  intros ->%header_seen_spec. reflexivity.
Qed.

Lemma pheader_test l1 l2 l3 d :
  0 ≤ l1 < 256 → 0 ≤ l2 < 256 → 0 ≤ l3 < 256 → 0 ≤ d < 256 →
  (le32 l1 l2 l3 d =? 0x0003ffaa) = header_seen (l1, l2, l3, d).
Proof.
  intros H1 H2 H3 H4. rewrite le32_add by assumption. unfold header_seen.
  apply eq_true_iff_eq. rewrite !andb_true_iff, !Z.eqb_eq. lia.
Qed.

Lemma pfooter_test l3 d :
  0 ≤ l3 < 256 → 0 ≤ d < 256 →
  (le16 l3 d =? 0xcc55) = (l3 =? 0x55) && (d =? 0xCC).
Proof.
  intros H3 H4. rewrite le16_add by assumption.
  apply eq_true_iff_eq. rewrite !andb_true_iff, !Z.eqb_eq. lia.
Qed.

Lemma appended_idx_range r :
  0 ≤ Received.idx_body r ≤ 32 → 0 ≤ appended_idx r ≤ 32.
Proof.
  unfold appended_idx, LD2450_MSG_SIZE_MAX.
  destruct (Received.idx_body r <? 32) eqn:E; lia.
Qed.

Lemma appended_body_length r d :
  length (appended_body r d) = length (Received.arr_body r).
Proof.
  unfold appended_body. destruct (_ <? _); [apply length_insert|reflexivity].
Qed.

Lemma appended_body_bytes r d :
  Forall (λ b, 0 ≤ b < 256) (Received.arr_body r) →
  Forall (λ b, 0 ≤ b < 256) (appended_body r d).
Proof.
  intros H. unfold appended_body. destruct (_ <? _); [|exact H].
  apply Forall_insert; [exact H|apply uint8_byte].
Qed.

Lemma append_body_ok d r :
  length (Received.arr_body r) = 32%nat →
  0 ≤ Received.idx_body r ≤ 32 →
  append_body (uint8 d) r =
  Some (Received.mk (Received.timestamp r) (appended_idx r) (appended_body r d)
                    (Received.arr_last r)).
Proof.
  intros Hlen Hidx. unfold append_body, appended_idx, appended_body, LD2450_MSG_SIZE_MAX.
  destruct (Received.idx_body r <? 32) eqn:E.
  - rewrite array_store_ok by lia. simpl.
    rewrite uint8_id by lia. reflexivity.
  - destruct r; reflexivity.
Qed.

Lemma copy_header_ok l0 l1 l2 l3 (body : list Z) :
  (4 ≤ length body)%nat →
  copy_header (l0, l1, l2, l3) body = Some (l0 :: l1 :: l2 :: l3 :: drop 4 body).
Proof.
  intros H. do 4 (destruct body as [|? body]; [simpl in H; lia|]).
  unfold copy_header.
  rewrite array_store_ok by (simpl; lia). simpl.
  rewrite array_store_ok by (simpl; lia). simpl.
  rewrite array_store_ok by (simpl; lia). simpl.
  rewrite array_store_ok by (simpl; lia). reflexivity.
Qed.

(** The turn of the loop once the startup delay is over. *)
Lemma LD2450ReceiveByte_unfold clk d s :
  wf_state s = true →
  LD2450_START_DELAY < uptime clk →
  let r := ld2450_received s in
  let w := push (Received.arr_last r) d in
  let r' := Received.mk (uint32 (millis clk)) (appended_idx r) (appended_body r d) w in
  LD2450ReceiveByte clk d s =
  if header_seen w
  then Some (set_received
               (Received.mk (uint32 (millis clk)) 4
                            (0xAA :: 0xFF :: 0x03 :: 0x00 :: drop 4 (appended_body r d))
                            HEADER) s)
  else if (appended_idx r =? 30) && footer_seen w
       then decode_message clk (set_received r' s)
       else Some (set_received r' s).
Proof.
  intros Hwf Hup. apply wf_state_spec in Hwf. cbv zeta in Hwf.
  destruct Hwf as (Hlen & Hbytes & Hlast & Hidx & Htgt).
  unfold LD2450ReceiveByte.
  destruct (LD2450_START_DELAY <? uptime clk) eqn:E; [|lia].
  rewrite (append_body_ok d _ Hlen Hidx). simpl.
  destruct (Received.arr_last (ld2450_received s)) as [[[l0 l1] l2] l3].
  pose proof (uint8_byte d) as Hd.
  rewrite pheader_test, pfooter_test by tauto.
  unfold push.
  destruct (header_seen (l1, l2, l3, uint8 d)) eqn:Eh.
  - rewrite copy_header_ok by (rewrite appended_body_length; lia). simpl.
    apply header_seen_spec in Eh. injection Eh as -> -> -> ->. reflexivity.
  - reflexivity.
Qed.

(** The turn of the loop during the startup delay. *)
Lemma LD2450ReceiveByte_startup clk d s :
  uptime clk ≤ LD2450_START_DELAY → LD2450ReceiveByte clk d s = Some s.
Proof.
  intros H. unfold LD2450ReceiveByte.
  destruct (LD2450_START_DELAY <? uptime clk) eqn:E; [lia|reflexivity].
Qed.

End Assembler.

(** ** The target decoder *)

Section Decoder.

Lemma load_int16_ok (body : list Z) off :
  0 ≤ off → off + 1 < Z.of_nat (length body) →
  ∃ b0 b1, body !! Z.to_nat off = Some b0 ∧ body !! Z.to_nat (off + 1) = Some b1
           ∧ load_int16 body off = Some (int16 (le16 b0 b1)).
Proof.
  intros H0 H1.
  destruct (lookup_lt_is_Some_2 body (Z.to_nat off)) as [b0 Hb0]; [lia|].
  destruct (lookup_lt_is_Some_2 body (Z.to_nat (off + 1))) as [b1 Hb1]; [lia|].
  exists b0, b1. repeat split; try assumption.
  unfold load_int16.
  rewrite (array_load_ok body off b0), (array_load_ok body (off + 1) b1) by (assumption || lia).
  reflexivity.
Qed.

Lemma read_coordinate_ok (body : list Z) off :
  0 ≤ off → off + 1 < Z.of_nat (length body) →
  ∃ b0 b1, body !! Z.to_nat off = Some b0 ∧ body !! Z.to_nat (off + 1) = Some b1
           ∧ read_coordinate body off =
             Some (let v := int16 (le16 b0 b1) in
                   if v <? 0 then int16 (0 - v - 32768) else v).
Proof.
  intros H0 H1. destruct (load_int16_ok body off H0 H1) as (b0 & b1 & Hb0 & Hb1 & Hl).
  exists b0, b1. repeat split; try assumption.
  unfold read_coordinate. rewrite Hl. reflexivity.
Qed.

Lemma read_target_total c (body : list Z) index :
  length body = 32%nat → 0 ≤ index < LD2450_TARGET_MAX →
  is_Some (read_target c body index).
Proof.
  unfold LD2450_TARGET_MAX. intros Hlen Hi. unfold read_target.
  destruct (read_coordinate_ok body (4 + index * 8)) as (? & ? & _ & _ & ->); [lia..|].
  destruct (read_coordinate_ok body (4 + index * 8 + 2)) as (? & ? & _ & _ & ->); [lia..|].
  destruct (read_coordinate_ok body (4 + index * 8 + 4)) as (? & ? & _ & _ & ->); [lia..|].
  simpl. eauto.
Qed.

Lemma LD2450LogMessage_ok s :
  length (Received.arr_body (ld2450_received s)) = 32%nat →
  Received.idx_body (ld2450_received s) = 30 →
  LD2450LogMessage s = Some (AddLog (message (ld2450_received s)) s).
Proof.
  intros Hlen Hidx. unfold LD2450LogMessage, message. rewrite Hidx.
  destruct (Received.arr_body (ld2450_received s)) as [|? body]; [discriminate|].
  do 31 (destruct body as [|? body]; [discriminate|]).
  destruct body; [|discriminate]. reflexivity.
Qed.

Lemma decode_target_ok index s t :
  read_target (ld2450_config s) (Received.arr_body (ld2450_received s)) index = Some t →
  0 ≤ index < Z.of_nat (length (ld2450_target s)) →
  decode_target index s =
  Some (set_status
          (let st := ld2450_status s in
           Status.mk (Status.pserial st) (Status.enabled st)
                     (if Target.zone t then uint8 (Status.counter st + 1)
                      else Status.counter st)
                     (Status.timestamp st))
          (set_target (<[Z.to_nat index := t]> (ld2450_target s)) s)).
Proof.
  intros Hr Hi. unfold decode_target. rewrite Hr. simpl.
  rewrite array_store_ok by assumption. simpl.
  destruct (Target.zone t); [reflexivity|].
  destruct (ld2450_status s); reflexivity.
Qed.

(** What the decoding of one complete message does to the state. *)
Lemma decode_message_ok clk s :
  length (Received.arr_body (ld2450_received s)) = 32%nat →
  Received.idx_body (ld2450_received s) = 30 →
  length (ld2450_target s) = 3%nat →
  let r := ld2450_received s in
  let st := ld2450_status s in
  ∃ t0 t1 t2,
    read_target (ld2450_config s) (Received.arr_body r) 0 = Some t0
    ∧ read_target (ld2450_config s) (Received.arr_body r) 1 = Some t1
    ∧ read_target (ld2450_config s) (Received.arr_body r) 2 = Some t2
    ∧ decode_message clk s =
      Some (mkState
              (Received.mk (Received.timestamp r) 0 (Received.arr_body r)
                           (Received.arr_last r))
              (ld2450_config s)
              (Status.mk (Status.pserial st) (Status.enabled st)
                         (active_targets [t0; t1; t2])
                         (if 0 <? active_targets [t0; t1; t2]
                          then uint32 (LocalTime clk) else Status.timestamp st))
              [t0; t1; t2]
              (Settings s)
              (message r :: log s)).
Proof.
  intros Hlen Hidx Htgt r st.
  destruct (read_target_total (ld2450_config s) (Received.arr_body r) 0 Hlen)
    as [t0 H0]; [unfold LD2450_TARGET_MAX; lia|].
  destruct (read_target_total (ld2450_config s) (Received.arr_body r) 1 Hlen)
    as [t1 H1]; [unfold LD2450_TARGET_MAX; lia|].
  destruct (read_target_total (ld2450_config s) (Received.arr_body r) 2 Hlen)
    as [t2 H2]; [unfold LD2450_TARGET_MAX; lia|].
  exists t0, t1, t2. repeat split; try assumption.
  unfold decode_message.
  rewrite LD2450LogMessage_ok by assumption.
  destruct s as [r0 c st0 tg f lg]. simpl in *. subst r st.
  destruct tg as [|u0 [|u1 [|u2 [|]]]]; try discriminate.
  change (seqZ 0 LD2450_TARGET_MAX) with [0; 1; 2]. unfold for_loop.
  rewrite (decode_target_ok 0 _ t0) by (simpl; assumption || lia). simpl.
  rewrite (decode_target_ok 1 _ t1) by (simpl; assumption || lia). simpl.
  rewrite (decode_target_ok 2 _ t2) by (simpl; assumption || lia). simpl.
  clear H0 H1 H2.
  destruct t0 as [? ? ? ? []], t1 as [? ? ? ? []], t2 as [? ? ? ? []];
    reflexivity.
Qed.

End Decoder.

(** ** The decoded fields, in the words of the specification *)

Section DecodedFields.

Lemma int16_le16 lo hi :
  0 ≤ lo < 256 → 0 ≤ hi < 256 → int16 (le16 lo hi) = signed_le16 lo hi.
Proof.
  intros Hlo Hhi. rewrite le16_add by assumption.
  unfold int16, signed_le16. cbv zeta.
  destruct (lo + 256 * hi <? 32768) eqn:E.
  - rewrite Z.mod_small; lia.
  - replace (lo + 256 * hi + 32768) with (lo + 256 * hi - 32768 + 1 * 65536) by lia.
    rewrite Z_mod_plus_full, Z.mod_small; lia.
Qed.

Lemma signed_le16_range lo hi :
  0 ≤ lo < 256 → 0 ≤ hi < 256 → -32768 ≤ signed_le16 lo hi < 32768.
Proof.
  intros Hlo Hhi. unfold signed_le16. cbv zeta.
  destruct (lo + 256 * hi <? 32768) eqn:E; lia.
Qed.

Lemma spec_recover_range v :
  -32768 ≤ v < 32768 → -32767 ≤ spec_recover v ≤ 32767.
Proof.
  intros H. unfold spec_recover. destruct (v <? 0) eqn:E; lia.
Qed.

(** The [int16_t] arithmetic of the correction never wraps. *)
Lemma correction_exact v :
  -32768 ≤ v < 32768 →
  (if v <? 0 then int16 (0 - v - 32768) else v) = spec_recover v.
Proof.
  intros H. unfold spec_recover. destruct (v <? 0) eqn:E; [|reflexivity].
  rewrite int16_id; lia.
Qed.

Lemma dist_exact x y :
  -32767 ≤ x ≤ 32767 → -32767 ≤ y ≤ 32767 →
  uint16 (Z.sqrt (x * x + y * y)) = Z.sqrt (x * x + y * y).
Proof.
  intros Hx Hy. unfold uint16. apply Z.mod_small. split; [apply Z.sqrt_nonneg|].
  apply Z.le_lt_trans with (Z.sqrt (2 * (32767 * 32767))); [|reflexivity].
  apply Z.sqrt_le_mono. nia.
Qed.

(** The record computed for one slot, field by field. *)
Lemma read_target_spec c (body : list Z) index t :
  Forall (λ b, 0 ≤ b < 256) body →
  0 ≤ index →
  read_target c body index = Some t →
  ∃ xl xh yl yh sl sh,
    body !! Z.to_nat (4 + index * 8) = Some xl
    ∧ body !! Z.to_nat (4 + index * 8 + 1) = Some xh
    ∧ body !! Z.to_nat (4 + index * 8 + 2) = Some yl
    ∧ body !! Z.to_nat (4 + index * 8 + 3) = Some yh
    ∧ body !! Z.to_nat (4 + index * 8 + 4) = Some sl
    ∧ body !! Z.to_nat (4 + index * 8 + 5) = Some sh
    ∧ Target.x t = spec_recover (signed_le16 xl xh)
    ∧ Target.y t = - spec_recover (signed_le16 yl yh)
    ∧ Target.speed t = spec_recover (signed_le16 sl sh)
    ∧ Target.dist t = Z.sqrt (Target.x t * Target.x t + Target.y t * Target.y t)
    ∧ Target.zone t = in_zone c (Target.x t) (Target.y t) (Target.dist t).
Proof.
  intros Hbytes Hidx. unfold read_target, read_coordinate, load_int16.
  intros H.
  destruct (array_load body (4 + index * 8)) as [xl|] eqn:Exl; [|discriminate].
  destruct (array_load body (4 + index * 8 + 1)) as [xh|] eqn:Exh; [|discriminate].
  destruct (array_load body (4 + index * 8 + 2)) as [yl|] eqn:Eyl; [|discriminate].
  destruct (array_load body (4 + index * 8 + 2 + 1)) as [yh|] eqn:Eyh; [|discriminate].
  destruct (array_load body (4 + index * 8 + 4)) as [sl|] eqn:Esl; [|discriminate].
  destruct (array_load body (4 + index * 8 + 4 + 1)) as [sh|] eqn:Esh; [|discriminate].
  simpl in H. injection H as <-.
  apply array_load_inv in Exl as [_ Exl], Exh as [_ Exh], Eyl as [_ Eyl],
        Eyh as [_ Eyh], Esl as [_ Esl], Esh as [_ Esh].
  replace (4 + index * 8 + 2 + 1) with (4 + index * 8 + 3) in Eyh by lia.
  replace (4 + index * 8 + 4 + 1) with (4 + index * 8 + 5) in Esh by lia.
  rewrite Forall_lookup in Hbytes.
  pose proof (Hbytes _ _ Exl). pose proof (Hbytes _ _ Exh).
  pose proof (Hbytes _ _ Eyl). pose proof (Hbytes _ _ Eyh).
  pose proof (Hbytes _ _ Esl). pose proof (Hbytes _ _ Esh).
  exists xl, xh, yl, yh, sl, sh. simpl.
  rewrite !int16_le16 by assumption.
  rewrite !correction_exact by (apply signed_le16_range; assumption).
  pose proof (spec_recover_range _ (signed_le16_range xl xh ltac:(assumption) ltac:(assumption))).
  pose proof (spec_recover_range _ (signed_le16_range yl yh ltac:(assumption) ltac:(assumption))).
  rewrite (int16_id (0 - _)) by lia.
  rewrite dist_exact by lia.
  replace (0 - spec_recover (signed_le16 yl yh)) with (- spec_recover (signed_le16 yl yh)) by lia.
  repeat split; assumption || reflexivity.
Qed.

End DecodedFields.

(** ** Turns that complete a message *)

Section CompleteMessage.

Lemma message_appended_length r d :
  length (Received.arr_body r) = 32%nat → appended_idx r = 30 →
  length (take 30 (appended_body r d)) = 30%nat.
Proof.
  intros Hlen _. rewrite length_take, appended_body_length. lia.
Qed.

(** The bytes of the buffer after an append: the message, then the
    character. *)
Lemma appended_body_take r d :
  length (Received.arr_body r) = 32%nat →
  0 ≤ Received.idx_body r < 32 →
  take (Z.to_nat (Received.idx_body r + 1)) (appended_body r d)
  = take (Z.to_nat (Received.idx_body r)) (Received.arr_body r) ++ [uint8 d].
Proof.
  intros Hlen Hidx. unfold appended_body, LD2450_MSG_SIZE_MAX.
  destruct (Received.idx_body r <? 32) eqn:E; [|lia].
  replace (Z.to_nat (Received.idx_body r + 1)) with (S (Z.to_nat (Received.idx_body r))) by lia.
  rewrite (take_S_r _ _ (uint8 d)).
  - rewrite take_insert_ge by lia. reflexivity.
  - apply list_lookup_insert_eq. lia.
Qed.

(** A turn that sees the footer with 30 bytes in the buffer decodes them. *)
Lemma LD2450ReceiveByte_frame clk d s :
  wf_state s = true →
  LD2450_START_DELAY < uptime clk →
  appended_idx (ld2450_received s) = 30 →
  footer_seen (push (Received.arr_last (ld2450_received s)) d) = true →
  let r := ld2450_received s in
  let st := ld2450_status s in
  ∃ t0 t1 t2,
    read_target (ld2450_config s) (appended_body r d) 0 = Some t0
    ∧ read_target (ld2450_config s) (appended_body r d) 1 = Some t1
    ∧ read_target (ld2450_config s) (appended_body r d) 2 = Some t2
    ∧ LD2450ReceiveByte clk d s =
      Some (mkState
              (Received.mk (uint32 (millis clk)) 0 (appended_body r d)
                           (push (Received.arr_last r) d))
              (ld2450_config s)
              (Status.mk (Status.pserial st) (Status.enabled st)
                         (active_targets [t0; t1; t2])
                         (if 0 <? active_targets [t0; t1; t2]
                          then uint32 (LocalTime clk) else Status.timestamp st))
              [t0; t1; t2]
              (Settings s)
              (take 30 (appended_body r d) :: log s)).
Proof.
  intros Hwf Hup Hidx Hfoot r st. subst r st.
  rewrite (LD2450ReceiveByte_unfold clk d s Hwf Hup). cbv zeta.
  set (r := ld2450_received s) in *.
  destruct (header_seen (push (Received.arr_last r) d)) eqn:Eh.
  { apply header_footer_exclusive in Eh. congruence. }
  rewrite Hidx, Hfoot. simpl.
  apply wf_state_spec in Hwf. cbv zeta in Hwf.
  destruct Hwf as (Hlen & Hbytes & Hlast & Hi & Htgt).
  destruct (decode_message_ok clk
              (set_received (Received.mk (uint32 (millis clk)) 30 (appended_body r d)
                                         (push (Received.arr_last r) d)) s))
    as (t0 & t1 & t2 & H0 & H1 & H2 & Hd).
  - simpl. rewrite appended_body_length. exact Hlen.
  - reflexivity.
  - exact Htgt.
  - exists t0, t1, t2. repeat split; try assumption.
Qed.

End CompleteMessage.

(** ** Every turn succeeds and keeps the state well formed *)

Section Totality.

Lemma push_bytes last d :
  (let '(l0, l1, l2, l3) := last in
   0 ≤ l0 < 256 ∧ 0 ≤ l1 < 256 ∧ 0 ≤ l2 < 256 ∧ 0 ≤ l3 < 256) →
  let '(l0, l1, l2, l3) := push last d in
  0 ≤ l0 < 256 ∧ 0 ≤ l1 < 256 ∧ 0 ≤ l2 < 256 ∧ 0 ≤ l3 < 256.
Proof.
  destruct last as [[[l0 l1] l2] l3]. simpl. pose proof (uint8_byte d). tauto.
Qed.

(** A turn that neither sees the header nor completes a message. *)
Lemma LD2450ReceiveByte_other clk d s :
  wf_state s = true →
  LD2450_START_DELAY < uptime clk →
  header_seen (push (Received.arr_last (ld2450_received s)) d) = false →
  (appended_idx (ld2450_received s) =? 30)
    && footer_seen (push (Received.arr_last (ld2450_received s)) d) = false →
  LD2450ReceiveByte clk d s =
  Some (set_received
          (Received.mk (uint32 (millis clk)) (appended_idx (ld2450_received s))
                       (appended_body (ld2450_received s) d)
                       (push (Received.arr_last (ld2450_received s)) d)) s).
Proof.
  intros Hwf Hup Hh Hf.
  rewrite (LD2450ReceiveByte_unfold clk d s Hwf Hup). cbv zeta.
  rewrite Hh, Hf. reflexivity.
Qed.

(** A turn that sees the header. *)
Lemma LD2450ReceiveByte_header clk d s :
  wf_state s = true →
  LD2450_START_DELAY < uptime clk →
  header_seen (push (Received.arr_last (ld2450_received s)) d) = true →
  LD2450ReceiveByte clk d s =
  Some (set_received
          (Received.mk (uint32 (millis clk)) 4
                       (0xAA :: 0xFF :: 0x03 :: 0x00
                          :: drop 4 (appended_body (ld2450_received s) d))
                       HEADER) s).
Proof.
  intros Hwf Hup Hh.
  rewrite (LD2450ReceiveByte_unfold clk d s Hwf Hup). cbv zeta.
  rewrite Hh. reflexivity.
Qed.

Lemma LD2450ReceiveByte_total clk d s :
  wf_state s = true →
  ∃ s', LD2450ReceiveByte clk d s = Some s'
        ∧ wf_state s' = true
        ∧ ld2450_config s' = ld2450_config s
        ∧ Settings s' = Settings s
        ∧ Status.pserial (ld2450_status s') = Status.pserial (ld2450_status s).
Proof.
  intros Hwf.
  destruct (Z.le_gt_cases (uptime clk) LD2450_START_DELAY) as [Hup | Hup].
  { exists s. rewrite LD2450ReceiveByte_startup by assumption. auto. }
  pose proof Hwf as Hwf'. apply wf_state_spec in Hwf'. cbv zeta in Hwf'.
  destruct Hwf' as (Hlen & Hbytes & Hlast & Hidx & Htgt).
  destruct (header_seen (push (Received.arr_last (ld2450_received s)) d)) eqn:Eh.
  - rewrite (LD2450ReceiveByte_header clk d s Hwf Hup Eh).
    eexists. split; [reflexivity|]. repeat split.
    apply wf_set_received; simpl; try assumption; try lia.
    + rewrite length_drop, appended_body_length. lia.
    + do 4 (constructor; [lia|]).
      apply Forall_drop, appended_body_bytes, Hbytes.
  - destruct ((appended_idx (ld2450_received s) =? 30)
              && footer_seen (push (Received.arr_last (ld2450_received s)) d)) eqn:Ef.
    + apply andb_true_iff in Ef as [Ei Ef]. apply Z.eqb_eq in Ei.
      destruct (LD2450ReceiveByte_frame clk d s Hwf Hup Ei Ef)
        as (t0 & t1 & t2 & _ & _ & _ & ->).
      eexists. split; [reflexivity|]. repeat split.
      apply wf_state_spec. simpl. repeat split; try lia.
      * rewrite appended_body_length. exact Hlen.
      * apply appended_body_bytes, Hbytes.
      * apply push_bytes, Hlast.
    + rewrite (LD2450ReceiveByte_other clk d s Hwf Hup Eh Ef).
      eexists. split; [reflexivity|]. repeat split.
      apply wf_set_received; simpl; try assumption.
      * rewrite appended_body_length. exact Hlen.
      * apply appended_body_bytes, Hbytes.
      * apply push_bytes, Hlast.
      * apply appended_idx_range, Hidx.
Qed.


Lemma receive_loop_app input1 input2 s :
  receive_loop (input1 ++ input2) s = receive_loop input1 s ≫= receive_loop input2.
Proof.
  revert s. induction input1 as [|[clk d] rest IH]; intros s; [reflexivity|].
  simpl. destruct (LD2450ReceiveByte clk d s) as [s1|]; [|reflexivity].
  simpl. apply IH.
Qed.

(** The window after a turn, once the startup delay is over. *)
Lemma LD2450ReceiveByte_window clk d s s' :
  wf_state s = true →
  LD2450_START_DELAY < uptime clk →
  LD2450ReceiveByte clk d s = Some s' →
  Received.arr_last (ld2450_received s')
  = push (Received.arr_last (ld2450_received s)) d.
Proof.
  intros Hwf Hup Hs.
  destruct (header_seen (push (Received.arr_last (ld2450_received s)) d)) eqn:Eh.
  - rewrite (LD2450ReceiveByte_header clk d s Hwf Hup Eh) in Hs.
    injection Hs as <-. apply header_seen_spec in Eh. rewrite Eh. reflexivity.
  - destruct ((appended_idx (ld2450_received s) =? 30)
              && footer_seen (push (Received.arr_last (ld2450_received s)) d)) eqn:Ef.
    + apply andb_true_iff in Ef as [Ei Ef]. apply Z.eqb_eq in Ei.
      destruct (LD2450ReceiveByte_frame clk d s Hwf Hup Ei Ef)
        as (t0 & t1 & t2 & _ & _ & _ & Hstep).
      rewrite Hstep in Hs. injection Hs as <-. reflexivity.
    + rewrite (LD2450ReceiveByte_other clk d s Hwf Hup Eh Ef) in Hs.
      injection Hs as <-. reflexivity.
Qed.

(** A window that shows the header goes with a buffer that holds the
    header only; the receive loop keeps this, whatever the uptime. *)
Lemma header_window_invariant input s :
  wf_state s = true →
  (Received.arr_last (ld2450_received s) = HEADER →
   message (ld2450_received s) = [0xAA; 0xFF; 0x03; 0x00]
   ∧ Received.idx_body (ld2450_received s) = 4) →
  ∃ s', receive_loop input s = Some s'
        ∧ (Received.arr_last (ld2450_received s') = HEADER →
           message (ld2450_received s') = [0xAA; 0xFF; 0x03; 0x00]
           ∧ Received.idx_body (ld2450_received s') = 4).
Proof.
  revert s. induction input as [|[clk d] rest IH]; intros s Hwf Hinv.
  { exists s. auto. }
  destruct (LD2450ReceiveByte_total clk d s Hwf) as (s1 & Hs1 & Hwf1 & _).
  simpl. rewrite Hs1. simpl. apply (IH s1 Hwf1).
  destruct (Z.le_gt_cases (uptime clk) LD2450_START_DELAY) as [Hup | Hup].
  { rewrite LD2450ReceiveByte_startup in Hs1 by assumption.
    injection Hs1 as <-. exact Hinv. }
  intros Hw. rewrite (LD2450ReceiveByte_window clk d s s1 Hwf Hup Hs1) in Hw.
  apply header_seen_spec in Hw.
  rewrite (LD2450ReceiveByte_header clk d s Hwf Hup Hw) in Hs1.
  injection Hs1 as <-. split; reflexivity.
Qed.

End Totality.

(** ** Configuration store *)

Section ConfigStore.

Lemma load_field b :
  0 ≤ b < 256 → int16 ((int16 b - 128) * 100) = (b - 128) * 100.
Proof.
  intros H. rewrite (int16_id b) by lia. apply int16_id. lia.
Qed.

(** The configuration that [LD2450LoadConfig] builds from flash bytes. *)
Lemma LD2450LoadConfig_bytes s :
  let f := Settings s in
  0 ≤ Flash.ea6_25 f < 256 → 0 ≤ Flash.ea6_26 f < 256 → 0 ≤ Flash.ea6_27 f < 256 →
  0 ≤ Flash.ea6_28 f < 256 → 0 ≤ Flash.ea6_29 f < 256 →
  let c := ld2450_config (LD2450LoadConfig s) in
  Config.timeout c = (if Flash.ea6_25 f =? 0 then 5 else Flash.ea6_25 f)
  ∧ Config.x1 c = Z.max (-6000) ((Flash.ea6_26 f - 128) * 100)
  ∧ Config.x2 c = (if Z.min 6000 ((Flash.ea6_27 f - 128) * 100) <=? Config.x1 c
                   then 6000 else Z.min 6000 ((Flash.ea6_27 f - 128) * 100))
  ∧ Config.y1 c = Z.max 0 ((Flash.ea6_28 f - 128) * 100)
  ∧ Config.y2 c = (if Z.min 6000 ((Flash.ea6_29 f - 128) * 100) <=? Config.y1 c
                   then 6000 else Z.min 6000 ((Flash.ea6_29 f - 128) * 100)).
Proof.
  intros f H25 H26 H27 H28 H29. unfold LD2450LoadConfig. fold f. simpl.
  rewrite !load_field, uint8_id by assumption.
  unfold LD2450_DEFAULT_TIMEOUT, LD2450_DIST_MAX.
  repeat split; case_ifs; lia.
Qed.

(** The zone is ordered after a load exactly when the stored lower bounds
    are below the maximum. *)
Lemma LD2450LoadConfig_ordered_iff s :
  let f := Settings s in
  0 ≤ Flash.ea6_25 f < 256 → 0 ≤ Flash.ea6_26 f < 256 → 0 ≤ Flash.ea6_27 f < 256 →
  0 ≤ Flash.ea6_28 f < 256 → 0 ≤ Flash.ea6_29 f < 256 →
  let c := ld2450_config (LD2450LoadConfig s) in
  (Config.x1 c < Config.x2 c ∧ Config.y1 c < Config.y2 c)
  ↔ (Flash.ea6_26 f < 188 ∧ Flash.ea6_28 f < 188).
Proof.
  intros f H25 H26 H27 H28 H29 c.
  destruct (LD2450LoadConfig_bytes s H25 H26 H27 H28 H29) as (_ & Hx1 & Hx2 & Hy1 & Hy2).
  fold f c in Hx1, Hx2, Hy1, Hy2.
  rewrite Hx2, Hy2. case_ifs; lia.
Qed.

(** A stored [x2] that is not above the stored [x1] is replaced by the
    maximum. *)
Lemma LD2450LoadConfig_degenerate_x2 s :
  let f := Settings s in
  0 ≤ Flash.ea6_25 f < 256 → 0 ≤ Flash.ea6_26 f < 256 → 0 ≤ Flash.ea6_27 f < 256 →
  0 ≤ Flash.ea6_28 f < 256 → 0 ≤ Flash.ea6_29 f < 256 →
  Flash.ea6_27 f ≤ Flash.ea6_26 f →
  Config.x2 (ld2450_config (LD2450LoadConfig s)) = 6000.
Proof.
  intros f H25 H26 H27 H28 H29 Hle.
  destruct (LD2450LoadConfig_bytes s H25 H26 H27 H28 H29) as (_ & Hx1 & Hx2 & _).
  fold f in Hx1, Hx2. rewrite Hx2. case_ifs; lia.
Qed.

End ConfigStore.

(** ** Presence *)

Section Presence.

Lemma requested_timeout_range delay s :
  0 ≤ Config.timeout (ld2450_config s) < 256 →
  0 ≤ requested_timeout delay s ≤ UINT32_MAX.
Proof.
  intros H. unfold requested_timeout, UINT32_MAX.
  pose proof (Z.mod_pos_bound delay 4294967296 ltac:(lia)).
  unfold uint32. case_ifs; lia.
Qed.

(** A frame with a target inside the zone stamps the detection with the
    local time. *)
Lemma detection_sets_timestamp clk d s s' :
  wf_state s = true →
  LD2450ReceiveByte clk d s = Some s' →
  log s' ≠ log s →
  0 < active_targets (ld2450_target s') →
  Status.timestamp (ld2450_status s') = uint32 (LocalTime clk).
Proof.
  intros Hwf Hs Hlog Hact.
  destruct (Z.le_gt_cases (uptime clk) LD2450_START_DELAY) as [Hup | Hup].
  { rewrite LD2450ReceiveByte_startup in Hs by assumption. congruence. }
  rewrite (LD2450ReceiveByte_unfold clk d s Hwf Hup) in Hs. cbv zeta in Hs.
  destruct (header_seen _) eqn:Eh; [injection Hs as <-; contradiction|].
  destruct (_ && _) eqn:Ef; [|injection Hs as <-; contradiction].
  apply andb_true_iff in Ef as [Ei Ef]. apply Z.eqb_eq in Ei.
  destruct (LD2450ReceiveByte_frame clk d s Hwf Hup Ei Ef)
    as (t0 & t1 & t2 & _ & _ & _ & Hstep).
  rewrite (LD2450ReceiveByte_unfold clk d s Hwf Hup) in Hstep. cbv zeta in Hstep.
  rewrite Eh, Ei, Ef in Hstep. rewrite Ei in Hs. simpl in Hs, Hstep.
  rewrite Hstep in Hs. injection Hs as <-. simpl in *.
  apply Z.ltb_lt in Hact. rewrite Hact. reflexivity.
Qed.

(** Without such a frame the detection timestamp is kept. *)
Lemma quiet_run_keeps_timestamp input s :
  wf_state s = true →
  quiet_run input s →
  ∃ s', receive_loop input s = Some s'
        ∧ Status.timestamp (ld2450_status s') = Status.timestamp (ld2450_status s)
        ∧ ld2450_config s' = ld2450_config s.
Proof.
  revert s. induction input as [|[clk d] rest IH]; intros s Hwf Hq.
  { exists s. auto. }
  simpl in Hq. simpl.
  destruct (LD2450ReceiveByte_total clk d s Hwf) as (s1 & Hs1 & Hwf1 & Hc1 & _).
  rewrite Hs1 in Hq. rewrite Hs1. simpl. destruct Hq as [Hq1 Hq].
  destruct (IH s1 Hwf1 Hq) as (s2 & Hs2 & Ht2 & Hc2).
  exists s2. split; [exact Hs2|]. split; [|congruence].
  rewrite Ht2. clear IH Hs2 Ht2 Hc2 Hq.
  destruct (Z.le_gt_cases (uptime clk) LD2450_START_DELAY) as [Hup | Hup].
  { rewrite LD2450ReceiveByte_startup in Hs1 by assumption. congruence. }
  pose proof Hs1 as Hs.
  rewrite (LD2450ReceiveByte_unfold clk d s Hwf Hup) in Hs. cbv zeta in Hs.
  destruct (header_seen _) eqn:Eh; [injection Hs as <-; reflexivity|].
  destruct (_ && _) eqn:Ef; [|injection Hs as <-; reflexivity].
  apply andb_true_iff in Ef as [Ei Ef]. apply Z.eqb_eq in Ei.
  destruct (LD2450ReceiveByte_frame clk d s Hwf Hup Ei Ef)
    as (t0 & t1 & t2 & _ & _ & _ & Hstep).
  rewrite Hs1 in Hstep. injection Hstep as ->. simpl in *.
  rewrite Hq1; [reflexivity|].
  intros Hl. apply (f_equal length) in Hl. simpl in Hl. lia.
Qed.

End Presence.

(** ** Commands and the configuration store *)

Section Commands.

Lemma LD2450LoadConfig_effective s : config_effective (LD2450LoadConfig s).
Proof. reflexivity. Qed.

(** The zone and distance commands end with a load. *)
Lemma CmndLD2450Zone_effective data s :
  data ≠ EmptyString → config_effective (CmndLD2450Zone data s).
Proof.
  intros Hd. unfold CmndLD2450Zone.
  destruct data as [|c data]; [contradiction|]. apply LD2450LoadConfig_effective.
Qed.

Lemma CmndLD2450Dist_effective data s :
  data ≠ EmptyString → config_effective (CmndLD2450Dist data s).
Proof.
  intros Hd. unfold CmndLD2450Dist.
  destruct data as [|c data]; [contradiction|]. apply LD2450LoadConfig_effective.
Qed.

(** The reset command saves without loading; what it leaves in memory is
    what a load would give as long as the timeout is a non-zero byte. *)
Lemma CmndLD2450Reset_effective s :
  0 < Config.timeout (ld2450_config s) < 256 →
  config_effective (CmndLD2450Reset s).
Proof.
  intros H. unfold config_effective, CmndLD2450Reset, LD2450LoadConfig, LD2450SaveConfig.
  simpl. rewrite !(uint8_id (Config.timeout (ld2450_config s))) by lia.
  destruct (Config.timeout (ld2450_config s) =? 0) eqn:E; [lia|reflexivity].
Qed.

(** The timeout command saves without loading; what it leaves in memory is
    what a load would give for a payload from 1 to 255, when the zone in
    memory came from a load. *)
Lemma CmndLD2450Timeout_effective payload s :
  0 < payload < 256 →
  config_effective s →
  0 ≤ Flash.ea6_26 (Settings s) < 256 → 0 ≤ Flash.ea6_27 (Settings s) < 256 →
  0 ≤ Flash.ea6_28 (Settings s) < 256 → 0 ≤ Flash.ea6_29 (Settings s) < 256 →
  config_effective (CmndLD2450Timeout payload s).
Proof.
  intros Hp Heff H26 H27 H28 H29.
  unfold config_effective in *. unfold CmndLD2450Timeout.
  destruct (0 <? payload) eqn:E; [|lia].
  destruct (ld2450_config s) as [t a1 a2 b1 b2] eqn:Ec.
  unfold LD2450LoadConfig in Heff. simpl in Heff.
  rewrite !load_field in Heff by assumption.
  unfold LD2450_DIST_MAX in Heff.
  injection Heff as Ht Hx1 Hx2 Hy1 Hy2.
  unfold LD2450LoadConfig, LD2450SaveConfig. simpl.
  unfold LD2450_DIST_MAX, LD2450_DEFAULT_TIMEOUT.
  rewrite !(uint8_id payload) by lia.
  assert (∀ v, -12800 ≤ v ≤ 12700 → (100 | v) →
               int16 ((int16 (uint8 (v ÷ 100 + 128)) - 128) * 100) = v) as Hrt.
  { intros v Hv [k ->]. rewrite Z.quot_mul by lia.
    rewrite uint8_id by lia. rewrite load_field; lia. }
  assert (-12800 ≤ a1 ≤ 12700 ∧ (100 | a1)) as [Ha1 Da1].
  { rewrite <- Hx1. case_ifs; split; try lia;
      try (exists (Flash.ea6_26 (Settings s) - 128); lia); exists (-60); lia. }
  assert (-12800 ≤ b1 ≤ 12700 ∧ (100 | b1)) as [Hb1 Db1].
  { rewrite <- Hy1. case_ifs; split; try lia;
      try (exists (Flash.ea6_28 (Settings s) - 128); lia); exists 0; lia. }
  assert (-12800 ≤ a2 ≤ 6000 ∧ (100 | a2)) as [Ha2 Da2].
  { rewrite <- Hx2. case_ifs; split; try lia;
      try (exists (Flash.ea6_27 (Settings s) - 128); lia); exists 60; lia. }
  assert (-12800 ≤ b2 ≤ 6000 ∧ (100 | b2)) as [Hb2 Db2].
  { rewrite <- Hy2. case_ifs; split; try lia;
      try (exists (Flash.ea6_29 (Settings s) - 128); lia); exists 60; lia. }
  rewrite !Hrt by (assumption || lia).
  assert (a2 = 6000 ∨ a1 < a2) as Hxo by (rewrite <- Hx2, <- Hx1; case_ifs; lia).
  assert (b2 = 6000 ∨ b1 < b2) as Hyo by (rewrite <- Hy2, <- Hy1; case_ifs; lia).
  assert (-6000 ≤ a1) by (rewrite <- Hx1; case_ifs; lia).
  assert (0 ≤ b1) by (rewrite <- Hy1; case_ifs; lia).
  clear Hx1 Hx2 Hy1 Hy2 Ht.
  f_equal; case_ifs; lia.
Qed.

End Commands.

(** ** Over-long messages *)

Section Overlong.

(** One more byte on a buffer that already holds 30 bytes or more. *)
Lemma LD2450ReceiveByte_overlong clk d s :
  wf_state s = true →
  LD2450_START_DELAY < uptime clk →
  30 ≤ Received.idx_body (ld2450_received s) →
  header_seen (push (Received.arr_last (ld2450_received s)) d) = false →
  let r := ld2450_received s in
  LD2450ReceiveByte clk d s =
  Some (set_received
          (Received.mk (uint32 (millis clk)) (appended_idx r) (appended_body r d)
                       (push (Received.arr_last r) d)) s)
  ∧ 31 ≤ appended_idx r ≤ 32
  ∧ (Received.idx_body r = 32 →
     appended_idx r = 32 ∧ appended_body r d = Received.arr_body r).
Proof.
  intros Hwf Hup Hidx Hh r. subst r.
  pose proof Hwf as Hwf'. apply wf_state_spec in Hwf'. cbv zeta in Hwf'.
  destruct Hwf' as (_ & _ & _ & Hi & _).
  assert (31 ≤ appended_idx (ld2450_received s) ≤ 32) as Ha.
  { unfold appended_idx, LD2450_MSG_SIZE_MAX. case_ifs; lia. }
  split; [|split; [exact Ha|]].
  - apply LD2450ReceiveByte_other; try assumption.
    apply andb_false_iff. left. lia.
  - intros H32. unfold appended_idx, appended_body, LD2450_MSG_SIZE_MAX.
    rewrite H32. split; reflexivity.
Qed.

End Overlong.

(** * The properties of the specification *)

(** C1. When a turn completes a 30-byte frame, the frame is the 29 bytes
    of the message buffer followed by the character just received, and
    each of the three target records at offset 4 + 8 i of that frame is
    decoded as follows: x, y and speed are read as little-endian signed
    16-bit numbers at offsets +0, +2 and +4; a negative raw value [raw]
    becomes [- raw - 32768] and any other raw value is kept; y is negated
    afterwards. *)
Theorem C1_sign_magnitude_decoding clk d s :
  wf_state s = true →
  LD2450_START_DELAY < uptime clk →
  appended_idx (ld2450_received s) = 30 →
  footer_seen (push (Received.arr_last (ld2450_received s)) d) = true →
  ∃ s' frame,
    LD2450ReceiveByte clk d s = Some s'
    ∧ frame = message (ld2450_received s) ++ [uint8 d]
    ∧ log s' = frame :: log s
    ∧ length frame = 30%nat
    ∧ ∀ i : nat, (i < 3)%nat →
        ∃ t xl xh yl yh sl sh,
          ld2450_target s' !! i = Some t
          ∧ frame !! (4 + i * 8)%nat = Some xl
          ∧ frame !! (4 + i * 8 + 1)%nat = Some xh
          ∧ frame !! (4 + i * 8 + 2)%nat = Some yl
          ∧ frame !! (4 + i * 8 + 3)%nat = Some yh
          ∧ frame !! (4 + i * 8 + 4)%nat = Some sl
          ∧ frame !! (4 + i * 8 + 5)%nat = Some sh
          ∧ Target.x t = spec_recover (signed_le16 xl xh)
          ∧ Target.y t = - spec_recover (signed_le16 yl yh)
          ∧ Target.speed t = spec_recover (signed_le16 sl sh).
Proof.
  intros Hwf Hup Hidx Hfoot.
  destruct (LD2450ReceiveByte_frame clk d s Hwf Hup Hidx Hfoot)
    as (t0 & t1 & t2 & H0 & H1 & H2 & Hstep).
  apply wf_state_spec in Hwf. cbv zeta in Hwf.
  destruct Hwf as (Hlen & Hbytes & _ & Hrange & _).
  pose proof (appended_body_bytes _ d Hbytes) as Hb.
  assert (Received.idx_body (ld2450_received s) = 29) as H29.
  { revert Hidx. unfold appended_idx, LD2450_MSG_SIZE_MAX.
    destruct (Received.idx_body (ld2450_received s) <? 32) eqn:E; lia. }
  assert (take 30 (appended_body (ld2450_received s) d)
          = message (ld2450_received s) ++ [uint8 d]) as Hframe.
  { pose proof (appended_body_take (ld2450_received s) d Hlen ltac:(lia)) as Ht.
    unfold message. rewrite H29 in *. exact Ht. }
  eexists. exists (take 30 (appended_body (ld2450_received s) d)).
  split; [exact Hstep|]. split; [exact Hframe|].
  split; [reflexivity|].
  split; [apply message_appended_length; assumption|].
  intros i Hi. simpl.
  assert (∀ (k : Z) t, 0 ≤ k < 3 →
            read_target (ld2450_config s) (appended_body (ld2450_received s) d) k = Some t →
            ∃ xl xh yl yh sl sh,
              take 30 (appended_body (ld2450_received s) d) !! (4 + Z.to_nat k * 8)%nat = Some xl
              ∧ take 30 (appended_body (ld2450_received s) d) !! (4 + Z.to_nat k * 8 + 1)%nat = Some xh
              ∧ take 30 (appended_body (ld2450_received s) d) !! (4 + Z.to_nat k * 8 + 2)%nat = Some yl
              ∧ take 30 (appended_body (ld2450_received s) d) !! (4 + Z.to_nat k * 8 + 3)%nat = Some yh
              ∧ take 30 (appended_body (ld2450_received s) d) !! (4 + Z.to_nat k * 8 + 4)%nat = Some sl
              ∧ take 30 (appended_body (ld2450_received s) d) !! (4 + Z.to_nat k * 8 + 5)%nat = Some sh
              ∧ Target.x t = spec_recover (signed_le16 xl xh)
              ∧ Target.y t = - spec_recover (signed_le16 yl yh)
              ∧ Target.speed t = spec_recover (signed_le16 sl sh)) as Hslot.
  { intros k t Hk Hr.
    destruct (read_target_spec _ _ k t Hb ltac:(lia) Hr)
      as (xl & xh & yl & yh & sl & sh & Lxl & Lxh & Lyl & Lyh & Lsl & Lsh & Hx & Hy & Hs & _).
    exists xl, xh, yl, yh, sl, sh.
    rewrite !lookup_take_lt by lia.
    replace (4 + Z.to_nat k * 8)%nat with (Z.to_nat (4 + k * 8)) by lia.
    replace (Z.to_nat (4 + k * 8) + 1)%nat with (Z.to_nat (4 + k * 8 + 1)) by lia.
    replace (Z.to_nat (4 + k * 8) + 2)%nat with (Z.to_nat (4 + k * 8 + 2)) by lia.
    replace (Z.to_nat (4 + k * 8) + 3)%nat with (Z.to_nat (4 + k * 8 + 3)) by lia.
    replace (Z.to_nat (4 + k * 8) + 4)%nat with (Z.to_nat (4 + k * 8 + 4)) by lia.
    replace (Z.to_nat (4 + k * 8) + 5)%nat with (Z.to_nat (4 + k * 8 + 5)) by lia.
    tauto. }
  destruct i as [|[|[|i]]]; [| | |lia].
  - destruct (Hslot 0 t0 ltac:(lia) H0) as (xl & xh & yl & yh & sl & sh & H).
    exists t0, xl, xh, yl, yh, sl, sh. split; [reflexivity|exact H].
  - destruct (Hslot 1 t1 ltac:(lia) H1) as (xl & xh & yl & yh & sl & sh & H).
    exists t1, xl, xh, yl, yh, sl, sh. split; [reflexivity|exact H].
  - destruct (Hslot 2 t2 ltac:(lia) H2) as (xl & xh & yl & yh & sl & sh & H).
    exists t2, xl, xh, yl, yh, sl, sh. split; [reflexivity|exact H].
Qed.

Lemma C1_sign_magnitude_decoding_witness :
  ∃ s' frame,
    LD2450ReceiveByte example_clock 0xCC example_state = Some s'
    ∧ frame = message (ld2450_received example_state) ++ [uint8 0xCC]
    ∧ log s' = frame :: log example_state
    ∧ length frame = 30%nat
    ∧ ∀ i : nat, (i < 3)%nat →
        ∃ t xl xh yl yh sl sh,
          ld2450_target s' !! i = Some t
          ∧ frame !! (4 + i * 8)%nat = Some xl
          ∧ frame !! (4 + i * 8 + 1)%nat = Some xh
          ∧ frame !! (4 + i * 8 + 2)%nat = Some yl
          ∧ frame !! (4 + i * 8 + 3)%nat = Some yh
          ∧ frame !! (4 + i * 8 + 4)%nat = Some sl
          ∧ frame !! (4 + i * 8 + 5)%nat = Some sh
          ∧ Target.x t = spec_recover (signed_le16 xl xh)
          ∧ Target.y t = - spec_recover (signed_le16 yl yh)
          ∧ Target.speed t = spec_recover (signed_le16 sl sh).
Proof.
  apply (C1_sign_magnitude_decoding example_clock 0xCC example_state); reflexivity.
Defined.

(** C2. The stored bytes [5, 188, 128, 128, 188] (x1 = 6000 mm) load as a
    zone of zero width, x1 = x2 = 6000, and the stored bytes
    [5, 255, 128, 255, 128] load as an inverted zone, x1 = y1 = 12700 above
    x2 = y2 = 6000: a stored lower bound at or above the maximum is not
    clamped and the ordering x1 < x2, y1 < y2 is lost. The command
    [ld2450_zone 6000], from the default configuration, saves the bytes
    [5, 188, 188, 128, 188] and leaves the same zone of zero width. *)
Theorem C2_load_config_unordered :
  let c := ld2450_config (LD2450LoadConfig (initial_state (Flash.mk 5 188 128 128 188))) in
  let c' := ld2450_config (LD2450LoadConfig (initial_state (Flash.mk 5 255 128 255 128))) in
  let s := CmndLD2450Zone "6000"%string (initial_state (Flash.mk 5 68 188 128 188)) in
  (Config.x1 c = 6000 ∧ Config.x2 c = 6000 ∧ ¬ Config.x1 c < Config.x2 c)
  ∧ (Config.x1 c' = 12700 ∧ Config.x2 c' = 6000 ∧ Config.y1 c' = 12700 ∧ Config.y2 c' = 6000
     ∧ ¬ Config.x1 c' < Config.x2 c' ∧ ¬ Config.y1 c' < Config.y2 c')
  ∧ (Settings s = Flash.mk 5 188 188 128 188
     ∧ Config.x1 (ld2450_config s) = 6000 ∧ Config.x2 (ld2450_config s) = 6000).
Proof.
  vm_compute. repeat split; congruence.
Qed.



(** C4. For a received byte after which the window, the last four bytes,
    is not the header, the message is handed to the decoder (and logged)
    exactly when the buffer length is 30 and the window ends with 55 CC; the
    decoder then gets the 30 bytes of the buffer and the length is reset to
    0. In every other case nothing is decoded and the length stays as it
    is. *)
Theorem C4_footer_detection clk d s :
  wf_state s = true →
  LD2450_START_DELAY < uptime clk →
  header_seen (push (Received.arr_last (ld2450_received s)) d) = false →
  let r := ld2450_received s in
  ∃ s', LD2450ReceiveByte clk d s = Some s'
        ∧ Received.arr_last (ld2450_received s') = push (Received.arr_last r) d
        ∧ ((∃ frame, log s' = frame :: log s)
           ↔ (appended_idx r = 30 ∧ footer_seen (push (Received.arr_last r) d) = true))
        ∧ (appended_idx r = 30 ∧ footer_seen (push (Received.arr_last r) d) = true →
           log s' = take 30 (appended_body r d) :: log s
           ∧ (∃ t0 t1 t2,
                 read_target (ld2450_config s) (appended_body r d) 0 = Some t0
                 ∧ read_target (ld2450_config s) (appended_body r d) 1 = Some t1
                 ∧ read_target (ld2450_config s) (appended_body r d) 2 = Some t2
                 ∧ ld2450_target s' = [t0; t1; t2])
           ∧ Received.idx_body (ld2450_received s') = 0)
        ∧ (¬ (appended_idx r = 30 ∧ footer_seen (push (Received.arr_last r) d) = true) →
           log s' = log s
           ∧ ld2450_target s' = ld2450_target s
           ∧ ld2450_status s' = ld2450_status s
           ∧ Received.idx_body (ld2450_received s') = appended_idx r).
Proof.
  intros Hwf Hup Hh r. subst r.
  destruct ((appended_idx (ld2450_received s) =? 30)
            && footer_seen (push (Received.arr_last (ld2450_received s)) d)) eqn:Ef.
  - apply andb_true_iff in Ef as [Ei Ef]. apply Z.eqb_eq in Ei.
    destruct (LD2450ReceiveByte_frame clk d s Hwf Hup Ei Ef)
      as (t0 & t1 & t2 & H0 & H1 & H2 & Hstep).
    eexists. split; [exact Hstep|]. simpl. split; [reflexivity|].
    split; [split; eauto|].
    split; [intros _; eauto 10|].
    intros Hn. exfalso. apply Hn. auto.
  - rewrite (LD2450ReceiveByte_other clk d s Hwf Hup Hh Ef).
    assert (¬ (appended_idx (ld2450_received s) = 30
               ∧ footer_seen (push (Received.arr_last (ld2450_received s)) d) = true)) as Hn.
    { intros [Hi Hf]. rewrite Hi, Hf in Ef. discriminate. }
    eexists. split; [reflexivity|]. simpl. split; [reflexivity|].
    split; [|tauto].
    split; [|tauto].
    intros [frame Hl]. exfalso.
    apply (f_equal length) in Hl. simpl in Hl. lia.
Qed.

Lemma C4_footer_detection_witness :
  let clk := example_clock in
  let d := 0xCC in
  let s := example_state in
  let r := ld2450_received s in
  ∃ s', LD2450ReceiveByte clk d s = Some s'
        ∧ Received.arr_last (ld2450_received s') = push (Received.arr_last r) d
        ∧ ((∃ frame, log s' = frame :: log s)
           ↔ (appended_idx r = 30 ∧ footer_seen (push (Received.arr_last r) d) = true))
        ∧ (appended_idx r = 30 ∧ footer_seen (push (Received.arr_last r) d) = true →
           log s' = take 30 (appended_body r d) :: log s
           ∧ (∃ t0 t1 t2,
                 read_target (ld2450_config s) (appended_body r d) 0 = Some t0
                 ∧ read_target (ld2450_config s) (appended_body r d) 1 = Some t1
                 ∧ read_target (ld2450_config s) (appended_body r d) 2 = Some t2
                 ∧ ld2450_target s' = [t0; t1; t2])
           ∧ Received.idx_body (ld2450_received s') = 0)
        ∧ (¬ (appended_idx r = 30 ∧ footer_seen (push (Received.arr_last r) d) = true) →
           log s' = log s
           ∧ ld2450_target s' = ld2450_target s
           ∧ ld2450_status s' = ld2450_status s
           ∧ Received.idx_body (ld2450_received s') = appended_idx r).
Proof.
  apply (C4_footer_detection example_clock 0xCC example_state); reflexivity.
Defined.




(** C6, as stated, fails when the sum wraps: with a detection at
    1700000000 and a requested timeout of 3000000000 s, one second later the
    sum is above the current time, and the query answers false. *)
Lemma C6_counterexample :
  let s := set_status (Status.mk true true 1 1700000000) example_state in
  let delay := 3000000000 in
  let now := 1700000001 in
  Status.timestamp (ld2450_status s) ≠ 0
  ∧ now < Status.timestamp (ld2450_status s) + requested_timeout delay s
  ∧ LD2450GetDetectionStatus delay now s = false.
Proof.
  vm_compute. repeat split; congruence.
Qed.

(** C6, amended. When the sum of the detection timestamp and the timeout
    fits in 32 bits, the query answers true exactly when the timestamp is
    not 0 and timestamp + timeout is above the current time, the timeout
    being the requested one, or the configured one for a request of 0 or
    [UINT32_MAX]. A timestamp of 0 always answers false. So with a detection
    stamped [t0], not 0, and kept since, the answer is true from [t0] to
    [t0 + T - 1] and false from [t0 + T] on. *)
Theorem C6_presence_query delay now s :
  let t0 := Status.timestamp (ld2450_status s) in
  let T := requested_timeout delay s in
  0 ≤ t0 → 0 ≤ T → t0 + T ≤ UINT32_MAX →
  (LD2450GetDetectionStatus delay now s = true ↔ t0 ≠ 0 ∧ now < t0 + T)
  ∧ (t0 = 0 → LD2450GetDetectionStatus delay now s = false)
  ∧ (t0 ≠ 0 → t0 ≤ now < t0 + T → LD2450GetDetectionStatus delay now s = true)
  ∧ (t0 + T ≤ now → LD2450GetDetectionStatus delay now s = false).
Proof.
  intros t0 T Ht0 HT Hsum.
  assert (LD2450GetDetectionStatus delay now s
          = negb (t0 =? 0) && (now <? t0 + T)) as Heq.
  { unfold LD2450GetDetectionStatus. fold t0.
    change (if (uint32 delay =? 0) || (uint32 delay =? UINT32_MAX)
            then Config.timeout (ld2450_config s) else uint32 delay)
      with (requested_timeout delay s).
    fold T. destruct (t0 =? 0) eqn:E0; [reflexivity|].
    unfold uint32. rewrite Z.mod_small by (unfold UINT32_MAX in Hsum; lia).
    reflexivity. }
  rewrite Heq. repeat split.
  - apply andb_true_iff in H as [H _]. apply negb_true_iff in H. lia.
  - apply andb_true_iff in H as [_ H]. lia.
  - intros [H1 H2]. apply andb_true_iff. split; [apply negb_true_iff|]; lia.
  - intros ->. reflexivity.
  - intros H1 H2. apply andb_true_iff. split; [apply negb_true_iff|]; lia.
  - intros H. apply andb_false_iff. right. lia.
Qed.

Lemma C6_presence_query_witness :
  let s := set_status (Status.mk true true 1 1700000000) example_state in
  let delay := 0 in
  let now := 1700000004 in
  let t0 := Status.timestamp (ld2450_status s) in
  let T := requested_timeout delay s in
  (LD2450GetDetectionStatus delay now s = true ↔ t0 ≠ 0 ∧ now < t0 + T)
  ∧ (t0 = 0 → LD2450GetDetectionStatus delay now s = false)
  ∧ (t0 ≠ 0 → t0 ≤ now < t0 + T → LD2450GetDetectionStatus delay now s = true)
  ∧ (t0 + T ≤ now → LD2450GetDetectionStatus delay now s = false).
Proof.
  apply (C6_presence_query 0 1700000004
           (set_status (Status.mk true true 1 1700000000) example_state));
    vm_compute; congruence.
Defined.

(** C7. The timeout command with payload 256: the value is cut to the byte
    0, stored in memory and saved, and nothing is loaded back. The timeout
    in memory is 0, where a load of the saved bytes gives the default 5: the
    configuration in memory is not the re-validated one. *)
Theorem C7_timeout_not_revalidated :
  let s := CmndLD2450Timeout 256 (initial_state (Flash.mk 5 68 188 128 188)) in
  Flash.ea6_25 (Settings s) = 0
  ∧ Config.timeout (ld2450_config s) = 0
  ∧ Config.timeout (ld2450_config (LD2450LoadConfig s)) = 5
  ∧ ¬ config_effective s.
Proof.
  vm_compute. repeat split. congruence.
Qed.

(** C8. Whatever bytes are received, every turn of the loop succeeds in a
    well-formed state: every write into the 32-byte buffer is inside it (a
    write outside gives no result in this embedding) and the length never
    exceeds 32. With 30 bytes or more accumulated and no header showing in
    the window, no message is decoded any more, the recorded length being 31
    or 32 at each footer test, never 30; and once the buffer is full the
    bytes received are dropped: content and length stay as they are. *)
Theorem C8_overlong_message_dropped input s :
  wf_state s = true →
  ∃ s', LD2450ReceiveData input s = Some s'
        ∧ wf_state s' = true
        ∧ (30 ≤ Received.idx_body (ld2450_received s) →
           header_free (Received.arr_last (ld2450_received s)) input →
           30 ≤ Received.idx_body (ld2450_received s') ≤ 32
           ∧ log s' = log s
           ∧ ld2450_target s' = ld2450_target s
           ∧ ld2450_status s' = ld2450_status s
           ∧ (Received.idx_body (ld2450_received s) = 32 →
              Received.idx_body (ld2450_received s') = 32
              ∧ Received.arr_body (ld2450_received s')
                = Received.arr_body (ld2450_received s))).
Proof.
  intros Hwf. unfold LD2450ReceiveData.
  destruct (negb (Status.pserial (ld2450_status s))).
  { exists s. split; [reflexivity|]. split; [exact Hwf|]. intros H30 _.
    apply wf_state_spec in Hwf. cbv zeta in Hwf. intuition lia. }
  revert s Hwf. induction input as [|[clk d] rest IH]; intros s Hwf.
  { exists s. split; [reflexivity|]. split; [exact Hwf|]. intros H30 _.
    apply wf_state_spec in Hwf. cbv zeta in Hwf. intuition lia. }
  destruct (LD2450ReceiveByte_total clk d s Hwf) as (s1 & Hs1 & Hwf1 & _).
  destruct (IH s1 Hwf1) as (s2 & Hs2 & Hwf2 & Hdrop).
  exists s2. simpl. rewrite Hs1. simpl. split; [exact Hs2|]. split; [exact Hwf2|].
  intros H30 Hfree. simpl in Hfree.
  destruct (LD2450_START_DELAY <? uptime clk) eqn:Eup.
  - destruct Hfree as [Hh Hfree]. apply Z.ltb_lt in Eup.
    destruct (LD2450ReceiveByte_overlong clk d s Hwf Eup H30 Hh) as (Hstep & Ha & Hfull).
    rewrite Hstep in Hs1. injection Hs1 as <-. simpl in Hdrop.
    destruct (Hdrop ltac:(lia) Hfree) as (Hi & Hl & Ht & Hst & Hb).
    split; [lia|]. do 3 (split; [assumption|]).
    intros H32. destruct (Hfull H32) as [Hai Hab].
    destruct (Hb Hai) as [Hb1 Hb2]. split; [exact Hb1|]. rewrite Hb2. exact Hab.
  - rewrite LD2450ReceiveByte_startup in Hs1 by lia. injection Hs1 as <-.
    apply Hdrop; assumption.
Qed.

Lemma C8_overlong_message_dropped_witness :
  let input := [(example_clock, 0xCC); (example_clock, 0x01); (example_clock, 0x55);
                (example_clock, 0xCC)] in
  let s := example_full_state in
  ∃ s', LD2450ReceiveData input s = Some s'
        ∧ wf_state s' = true
        ∧ Received.idx_body (ld2450_received s') = 32
        ∧ Received.arr_body (ld2450_received s') = Received.arr_body (ld2450_received s)
        ∧ log s' = log s
        ∧ ld2450_target s' = ld2450_target s
        ∧ ld2450_status s' = ld2450_status s.
Proof.
  intros input s.
  destruct (C8_overlong_message_dropped input s) as (s' & Hs & Hwf & H);
    [reflexivity|].
  destruct H as (_ & Hl & Ht & Hst & Hfull).
  - simpl. lia.
  - simpl. repeat split; reflexivity.
  - destruct Hfull as [Hi Hb]; [reflexivity|].
    exists s'. repeat split; assumption.
Defined.

(** C9. A byte that does not complete a frame (the startup delay is not
    over, or the buffer length after the byte is not 30, or the window does
    not end with the footer) leaves the three target records, the counter
    and the detection timestamp as they are. When the target records do
    change, a frame was completed and the three records are the ones decoded
    from that frame. *)
Theorem C9_targets_written_by_frames_only clk d s :
  wf_state s = true →
  let r := ld2450_received s in
  let complete := LD2450_START_DELAY < uptime clk
                  ∧ appended_idx r = 30
                  ∧ footer_seen (push (Received.arr_last r) d) = true in
  ∃ s', LD2450ReceiveByte clk d s = Some s'
        ∧ (¬ complete →
           ld2450_target s' = ld2450_target s
           ∧ ld2450_status s' = ld2450_status s)
        ∧ (ld2450_target s' ≠ ld2450_target s →
           complete
           ∧ ∃ t0 t1 t2,
               read_target (ld2450_config s) (appended_body r d) 0 = Some t0
               ∧ read_target (ld2450_config s) (appended_body r d) 1 = Some t1
               ∧ read_target (ld2450_config s) (appended_body r d) 2 = Some t2
               ∧ ld2450_target s' = [t0; t1; t2]).
Proof.
  intros Hwf r complete. subst r complete.
  destruct (Z.le_gt_cases (uptime clk) LD2450_START_DELAY) as [Hup | Hup].
  { exists s. rewrite LD2450ReceiveByte_startup by assumption.
    split; [reflexivity|]. split; [auto|]. intros Hn. contradiction. }
  destruct (header_seen (push (Received.arr_last (ld2450_received s)) d)) eqn:Eh.
  { rewrite (LD2450ReceiveByte_header clk d s Hwf Hup Eh).
    eexists. split; [reflexivity|]. simpl. split; [auto|]. intros Hn. contradiction. }
  destruct ((appended_idx (ld2450_received s) =? 30)
            && footer_seen (push (Received.arr_last (ld2450_received s)) d)) eqn:Ef.
  - apply andb_true_iff in Ef as [Ei Ef]. apply Z.eqb_eq in Ei.
    destruct (LD2450ReceiveByte_frame clk d s Hwf Hup Ei Ef)
      as (t0 & t1 & t2 & H0 & H1 & H2 & Hstep).
    eexists. split; [exact Hstep|]. simpl. split.
    + intros Hn. exfalso. apply Hn. auto.
    + intros _. split; [auto|]. exists t0, t1, t2. auto.
  - rewrite (LD2450ReceiveByte_other clk d s Hwf Hup Eh Ef).
    eexists. split; [reflexivity|]. simpl. split; [auto|]. intros Hn. contradiction.
Qed.

Lemma C9_targets_written_by_frames_only_witness :
  let clk := example_clock in
  let d := 0x55 in
  let s := example_state in
  let r := ld2450_received s in
  let complete := LD2450_START_DELAY < uptime clk
                  ∧ appended_idx r = 30
                  ∧ footer_seen (push (Received.arr_last r) d) = true in
  ∃ s', LD2450ReceiveByte clk d s = Some s'
        ∧ (¬ complete →
           ld2450_target s' = ld2450_target s
           ∧ ld2450_status s' = ld2450_status s)
        ∧ (ld2450_target s' ≠ ld2450_target s →
           complete
           ∧ ∃ t0 t1 t2,
               read_target (ld2450_config s) (appended_body r d) 0 = Some t0
               ∧ read_target (ld2450_config s) (appended_body r d) 1 = Some t1
               ∧ read_target (ld2450_config s) (appended_body r d) 2 = Some t2
               ∧ ld2450_target s' = [t0; t1; t2]).
Proof.
  apply (C9_targets_written_by_frames_only example_clock 0x55 example_state); reflexivity.
Defined.

(** C10. While the uptime is not above the startup delay of 10 seconds,
    every byte that the serial port delivers is read and ignored: the whole
    input is consumed and the state (window, message buffer and its length,
    targets, counter, timestamps, log) is returned as it was, so nothing is
    decoded. *)
Theorem C10_startup_delay_ignores_input input s :
  Forall (λ turn : clock * Z, uptime turn.1 ≤ LD2450_START_DELAY) input →
  LD2450ReceiveData input s = Some s.
Proof.
  intros Hall. unfold LD2450ReceiveData.
  destruct (negb (Status.pserial (ld2450_status s))); [reflexivity|].
  induction Hall as [|[clk d] rest Hup _ IH]; [reflexivity|].
  simpl in *. rewrite LD2450ReceiveByte_startup by exact Hup. exact IH.
Qed.

Lemma C10_startup_delay_ignores_input_witness :
  LD2450ReceiveData
    [(mkClock 10 9000 1700000000, 0x55); (mkClock 10 9001 1700000000, 0xCC)]
    example_state
  = Some example_state.
Proof.
  apply (C10_startup_delay_ignores_input
           [(mkClock 10 9000 1700000000, 0x55); (mkClock 10 9001 1700000000, 0xCC)]
           example_state).
  repeat constructor; simpl; unfold LD2450_START_DELAY; lia.
Defined.

(** * Worked examples *)

(** The sample message: header, three records, footer. The second record
    has a negative x (raw [0x830E]); the third slot is empty. *)
Example decode_sample_message :
  (s ← LD2450ReceiveByte example_clock 0xCC example_state;
   Some (ld2450_target s, Status.counter (ld2450_status s),
         Status.timestamp (ld2450_status s), Received.idx_body (ld2450_received s)))
  = Some ([Target.mk 50 30 16 58 true; Target.mk (-782) 1713 (-16) 1883 true;
           Target.mk 0 0 0 0 false], 2, 1700000000, 0).
Proof. reflexivity. Qed.

(** Corners of the zone (50, 6000, 30, 6000): the first target sits on
    (x1, y1); one millimetre to the left it is outside. *)
Example zone_corner_inside :
  in_zone (Config.mk 5 50 6000 30 6000) 50 30 58 = true
  ∧ in_zone (Config.mk 5 (-6000) 50 0 30) 50 30 58 = true
  ∧ in_zone (Config.mk 5 51 6000 30 6000) 50 30 58 = false
  ∧ in_zone (Config.mk 5 50 6000 30 6000) 50 30 0 = false.
Proof. repeat split; reflexivity. Qed.

(** The presence query around the end of the timeout of 5 seconds. *)
Example presence_window :
  let s := set_status (Status.mk true true 1 1700000000) example_state in
  LD2450GetDetectionStatus 0 1700000000 s = true
  ∧ LD2450GetDetectionStatus 0 1700000004 s = true
  ∧ LD2450GetDetectionStatus 0 1700000005 s = false
  ∧ LD2450GetDetectionStatus UINT32_MAX 1700000004 s = true
  ∧ LD2450GetDetectionStatus 60 1700000059 s = true
  ∧ LD2450GetDetectionStatus 60 1700000060 s = false
  ∧ LD2450GetDetectionStatus 60 1700000000 example_state = false.
Proof. repeat split; reflexivity. Qed.

(** Four commands from the default configuration. *)
Example commands_from_default :
  let s0 := initial_state (Flash.mk 0 0 0 0 0) in
  ld2450_config (CmndLD2450Zone "-1000,2000,500,3000"%string s0)
  = Config.mk 5 (-1000) 2000 500 3000
  ∧ ld2450_config (CmndLD2450Zone "2000,1000,,500, 300"%string s0)
    = Config.mk 5 2000 6000 500 6000
  ∧ ld2450_config (CmndLD2450Zone ",,-2050"%string s0) = Config.mk 5 (-2000) 6000 0 6000
  ∧ ld2450_config (CmndLD2450Dist "1000,4050"%string s0) = Config.mk 5 (-6000) 6000 1000 4000
  ∧ ld2450_config (CmndLD2450Timeout 30 s0) = Config.mk 30 (-6000) 6000 0 6000
  ∧ ld2450_config (CmndLD2450Reset (CmndLD2450Zone "-1000,2000,500,3000"%string s0))
    = Config.mk 5 (-6000) 6000 0 6000.
Proof. repeat split; reflexivity. Qed.

(** * Further properties of the driver *)

(** ** Accumulation of a message *)

Section Accumulation.

(** Bytes received while the buffer holds fewer than 29 bytes and no header
    shows are appended one after the other; nothing else moves. *)
Lemma receive_loop_accumulate input s :
  wf_state s = true →
  Forall gate_open input →
  header_free (Received.arr_last (ld2450_received s)) input →
  Received.idx_body (ld2450_received s) + Z.of_nat (length input) < 30 →
  ∃ s', receive_loop input s = Some s'
        ∧ wf_state s' = true
        ∧ Received.idx_body (ld2450_received s')
          = Received.idx_body (ld2450_received s) + Z.of_nat (length input)
        ∧ message (ld2450_received s') = message (ld2450_received s) ++ bytes_of input
        ∧ Received.arr_last (ld2450_received s')
          = foldl push (Received.arr_last (ld2450_received s)) (snd <$> input)
        ∧ log s' = log s
        ∧ ld2450_target s' = ld2450_target s
        ∧ ld2450_status s' = ld2450_status s
        ∧ ld2450_config s' = ld2450_config s.
Proof.
  revert s. induction input as [|[clk d] rest IH]; intros s Hwf Hgate Hfree Hlen.
  { exists s. simpl. rewrite Z.add_0_r, app_nil_r. auto 10. }
  apply Forall_cons_1 in Hgate as [Hup Hgate]. unfold gate_open in Hup. simpl in Hup.
  simpl in Hfree. destruct (LD2450_START_DELAY <? uptime clk) eqn:E; [|lia].
  destruct Hfree as [Hh Hfree].
  pose proof Hwf as Hwf'. apply wf_state_spec in Hwf'. cbv zeta in Hwf'.
  destruct Hwf' as (Hl & Hb & Hw & Hi & Ht).
  simpl length in Hlen.
  assert (appended_idx (ld2450_received s) = Received.idx_body (ld2450_received s) + 1) as Hai.
  { unfold appended_idx, LD2450_MSG_SIZE_MAX. case_ifs; lia. }
  assert ((appended_idx (ld2450_received s) =? 30)
          && footer_seen (push (Received.arr_last (ld2450_received s)) d) = false) as Hf.
  { apply andb_false_iff. left. lia. }
  pose proof (LD2450ReceiveByte_other clk d s Hwf Hup Hh Hf) as Hstep.
  destruct (LD2450ReceiveByte_total clk d s Hwf) as (s1 & Hs1 & Hwf1 & _).
  rewrite Hstep in Hs1. injection Hs1 as Hs1.
  destruct (IH s1 Hwf1 Hgate) as (s2 & Hs2 & Hwf2 & Hi2 & Hm2 & Hw2 & Hl2 & Ht2 & Hst2 & Hc2).
  - rewrite <- Hs1. exact Hfree.
  - rewrite <- Hs1. simpl. lia.
  - exists s2. simpl. rewrite Hstep. simpl. rewrite Hs1.
    split; [exact Hs2|]. split; [exact Hwf2|].
    rewrite Hi2, Hm2, Hw2, Hl2, Ht2, Hst2, Hc2. rewrite <- Hs1. simpl.
    repeat split; try lia.
    unfold message. simpl. rewrite Hai.
    rewrite appended_body_take by lia.
    unfold bytes_of. simpl. rewrite <- app_assoc. reflexivity.
Qed.

(** After 29 bytes ending in [0x55], the byte [0xCC] completes a message:
    the 30 bytes are decoded, whatever they are. *)
Lemma receive_loop_completes input clk d s :
  wf_state s = true →
  Forall gate_open input →
  LD2450_START_DELAY < uptime clk →
  header_free (Received.arr_last (ld2450_received s)) input →
  Received.idx_body (ld2450_received s) + Z.of_nat (length input) = 29 →
  (∃ l0 l1 l2, foldl push (Received.arr_last (ld2450_received s)) (snd <$> input)
               = (l0, l1, l2, 0x55)) →
  uint8 d = 0xCC →
  let frame := message (ld2450_received s) ++ bytes_of input ++ [0xCC] in
  ∃ s' t0 t1 t2,
    receive_loop (input ++ [(clk, d)]) s = Some s'
    ∧ read_target (ld2450_config s) frame 0 = Some t0
    ∧ read_target (ld2450_config s) frame 1 = Some t1
    ∧ read_target (ld2450_config s) frame 2 = Some t2
    ∧ ld2450_target s' = [t0; t1; t2]
    ∧ log s' = frame :: log s
    ∧ Received.idx_body (ld2450_received s') = 0
    ∧ Status.counter (ld2450_status s') = active_targets [t0; t1; t2].
Proof.
  intros Hwf Hgate Hup Hfree Hlen (l0 & l1 & l2 & Hwin) Hd frame.
  destruct (receive_loop_accumulate input s Hwf Hgate Hfree ltac:(lia))
    as (s1 & Hs1 & Hwf1 & Hi1 & Hm1 & Hw1 & Hl1 & Ht1 & Hst1 & Hc1).
  rewrite Hwin in Hw1.
  pose proof Hwf1 as Hwf1'. apply wf_state_spec in Hwf1'. cbv zeta in Hwf1'.
  destruct Hwf1' as (Hlen1 & Hb1 & _ & Hidx1 & _).
  assert (appended_idx (ld2450_received s1) = 30) as Hai.
  { unfold appended_idx, LD2450_MSG_SIZE_MAX. case_ifs; lia. }
  assert (footer_seen (push (Received.arr_last (ld2450_received s1)) d) = true) as Hf.
  { rewrite Hw1. simpl. rewrite Hd. reflexivity. }
  destruct (LD2450ReceiveByte_frame clk d s1 Hwf1 Hup Hai Hf)
    as (t0 & t1 & t2 & H0 & H1 & H2 & Hstep).
  assert (take 30 (appended_body (ld2450_received s1) d) = frame) as Hframe.
  { change 30%nat with (Z.to_nat (29 + 1)).
    replace 29 with (Received.idx_body (ld2450_received s1)) by lia.
    rewrite appended_body_take by lia.
    fold (message (ld2450_received s1)). rewrite Hm1, Hd.
    unfold frame. rewrite <- app_assoc. reflexivity. }
  assert (∀ k t, 0 ≤ k < 3 →
            read_target (ld2450_config s1) (appended_body (ld2450_received s1) d) k = Some t →
            read_target (ld2450_config s) frame k = Some t) as Hrd.
  { intros k t Hk Hr. rewrite <- Hframe, <- Hc1.
    unfold read_target, read_coordinate, load_int16, array_load in *.
    rewrite !lookup_take_lt by lia.
    destruct (0 <=? 4 + k * 8) eqn:?, (0 <=? 4 + k * 8 + 1) eqn:?,
             (0 <=? 4 + k * 8 + 2) eqn:?, (0 <=? 4 + k * 8 + 2 + 1) eqn:?,
             (0 <=? 4 + k * 8 + 4) eqn:?, (0 <=? 4 + k * 8 + 4 + 1) eqn:?; try lia.
    exact Hr. }
  eexists. exists t0, t1, t2.
  rewrite receive_loop_app, Hs1. simpl. rewrite Hstep. simpl.
  split; [reflexivity|].
  split; [apply Hrd; [lia|exact H0]|].
  split; [apply Hrd; [lia|exact H1]|].
  split; [apply Hrd; [lia|exact H2]|].
  split; [reflexivity|].
  split; [rewrite Hframe, Hl1; reflexivity|].
  split; reflexivity.
Qed.

End Accumulation.

Section Resynchronisation.

Lemma header_free_app w input1 input2 :
  header_free w (input1 ++ input2) → header_free w input1.
Proof.
  revert w. induction input1 as [|[clk d] rest IH]; intros w H; [exact I|].
  simpl in *. destruct (LD2450_START_DELAY <? uptime clk).
  - destruct H as [H1 H2]. split; [exact H1|]. apply IH. exact H2.
  - apply IH. exact H.
Qed.

(** A turn that shows neither the header nor the footer in the window. *)
Lemma LD2450ReceiveByte_quiet clk d s :
  wf_state s = true →
  LD2450_START_DELAY < uptime clk →
  header_seen (push (Received.arr_last (ld2450_received s)) d) = false →
  footer_seen (push (Received.arr_last (ld2450_received s)) d) = false →
  ∃ s', LD2450ReceiveByte clk d s = Some s'
        ∧ wf_state s' = true
        ∧ Received.arr_last (ld2450_received s') = push (Received.arr_last (ld2450_received s)) d
        ∧ log s' = log s
        ∧ ld2450_target s' = ld2450_target s
        ∧ ld2450_status s' = ld2450_status s
        ∧ ld2450_config s' = ld2450_config s.
Proof.
  intros Hwf Hup Hh Hf.
  destruct (LD2450ReceiveByte_total clk d s Hwf) as (s1 & Hs1 & Hwf1 & _).
  exists s1. split; [exact Hs1|]. split; [exact Hwf1|].
  rewrite LD2450ReceiveByte_other in Hs1; try assumption.
  - injection Hs1 as <-. simpl. auto 10.
  - rewrite Hf. apply andb_false_r.
Qed.

Lemma header_not_seen w d : uint8 d ≠ 0x00 → header_seen (push w d) = false.
Proof.
  intros H. destruct w as [[[l0 l1] l2] l3]. simpl.
  apply andb_false_iff. right. apply Z.eqb_neq. exact H.
Qed.

Lemma footer_not_seen w d : uint8 d ≠ 0xCC → footer_seen (push w d) = false.
Proof.
  intros H. destruct w as [[[l0 l1] l2] l3]. simpl.
  apply andb_false_iff. right. apply Z.eqb_neq. exact H.
Qed.

(** The four bytes of the header, received in any well-formed state. *)
Lemma header_arrives i1 i2 i3 i4 s :
  wf_state s = true →
  Forall gate_open [i1; i2; i3; i4] →
  bytes_of [i1; i2; i3; i4] = [0xAA; 0xFF; 0x03; 0x00] →
  ∃ s', receive_loop [i1; i2; i3; i4] s = Some s'
        ∧ wf_state s' = true
        ∧ Received.idx_body (ld2450_received s') = 4
        ∧ message (ld2450_received s') = [0xAA; 0xFF; 0x03; 0x00]
        ∧ Received.arr_last (ld2450_received s') = HEADER
        ∧ log s' = log s
        ∧ ld2450_target s' = ld2450_target s
        ∧ ld2450_status s' = ld2450_status s
        ∧ ld2450_config s' = ld2450_config s.
Proof.
  intros Hwf Hgate Hbytes.
  destruct i1 as [c1 d1], i2 as [c2 d2], i3 as [c3 d3], i4 as [c4 d4].
  injection Hbytes as Hb1 Hb2 Hb3 Hb4. simpl in *.
  apply Forall_cons_1 in Hgate as [Hg1 Hgate]. apply Forall_cons_1 in Hgate as [Hg2 Hgate].
  apply Forall_cons_1 in Hgate as [Hg3 Hgate]. apply Forall_cons_1 in Hgate as [Hg4 _].
  unfold gate_open in *. simpl in *.
  destruct (Received.arr_last (ld2450_received s)) as [[[a0 a1] a2] a3] eqn:Ew.
  destruct (LD2450ReceiveByte_quiet c1 d1 s Hwf Hg1) as (s1 & -> & Hwf1 & Hw1 & Hl1 & Ht1 & Hst1 & Hc1);
    [(apply header_not_seen || apply footer_not_seen); rewrite Hb1; discriminate..|].
  rewrite Ew in Hw1. simpl in Hw1. rewrite Hb1 in Hw1.
  destruct (LD2450ReceiveByte_quiet c2 d2 s1 Hwf1 Hg2) as (s2 & Hs2 & Hwf2 & Hw2 & Hl2 & Ht2 & Hst2 & Hc2);
    [(apply header_not_seen || apply footer_not_seen); rewrite Hb2; discriminate..|].
  rewrite Hw1 in Hw2. simpl in Hw2. rewrite Hb2 in Hw2.
  destruct (LD2450ReceiveByte_quiet c3 d3 s2 Hwf2 Hg3) as (s3 & Hs3 & Hwf3 & Hw3 & Hl3 & Ht3 & Hst3 & Hc3);
    [(apply header_not_seen || apply footer_not_seen); rewrite Hb3; discriminate..|].
  rewrite Hw2 in Hw3. simpl in Hw3. rewrite Hb3 in Hw3.
  assert (header_seen (push (Received.arr_last (ld2450_received s3)) d4) = true) as Hh.
  { rewrite Hw3. simpl. rewrite Hb4. reflexivity. }
  pose proof (LD2450ReceiveByte_header c4 d4 s3 Hwf3 Hg4 Hh) as Hs4.
  destruct (LD2450ReceiveByte_total c4 d4 s3 Hwf3) as (s4 & Hs4' & Hwf4 & _).
  rewrite Hs4 in Hs4'. injection Hs4' as Hs4'.
  exists s4. simpl. rewrite Hs2. simpl. rewrite Hs3. simpl. rewrite Hs4. simpl.
  rewrite Hs4'. split; [reflexivity|]. split; [exact Hwf4|].
  rewrite <- Hs4'. simpl. repeat split; congruence.
Qed.

End Resynchronisation.

(** X1. Resynchronisation: whatever was received before and whatever the
    buffer holds, a complete frame (the header, 24 bytes, the footer)
    received after the startup delay, in which the header does not show
    again, is decoded: its 30 bytes are the ones given to the decoder, the
    three targets are read from it and the buffer is left empty. *)
Theorem X1_complete_frame_is_decoded input payload s :
  wf_state s = true →
  Status.pserial (ld2450_status s) = true →
  Forall gate_open input →
  bytes_of input = [0xAA; 0xFF; 0x03; 0x00] ++ payload ++ [0x55; 0xCC] →
  length payload = 24%nat →
  header_free HEADER (drop 4 input) →
  ∃ s' t0 t1 t2,
    LD2450ReceiveData input s = Some s'
    ∧ read_target (ld2450_config s) (bytes_of input) 0 = Some t0
    ∧ read_target (ld2450_config s) (bytes_of input) 1 = Some t1
    ∧ read_target (ld2450_config s) (bytes_of input) 2 = Some t2
    ∧ ld2450_target s' = [t0; t1; t2]
    ∧ log s' = bytes_of input :: log s
    ∧ Received.idx_body (ld2450_received s') = 0
    ∧ Status.counter (ld2450_status s') = active_targets [t0; t1; t2].
Proof.
  intros Hwf Hser Hgate Hbytes Hlen Hfree.
  unfold LD2450ReceiveData. rewrite Hser. simpl.
  remember (bytes_of input) as frame eqn:Hfr. rewrite Hbytes in Hfr. symmetry in Hfr.
  assert (length input = 30%nat) as Hlen30.
  { apply (f_equal length) in Hfr. unfold bytes_of in Hfr.
    rewrite length_fmap in Hfr. rewrite Hfr. simpl. rewrite length_app. simpl. lia. }
  destruct input as [|i1 [|i2 [|i3 [|i4 rest]]]]; try (simpl in Hlen30; lia).
  simpl in Hfree. unfold drop in Hfree.
  destruct (exists_last (l := rest)) as (mid & [clk d] & Hrest).
  { intros ->. simpl in Hlen30. lia. }
  subst rest.
  assert (length mid = 25%nat) as Hmid.
  { simpl in Hlen30. rewrite length_app in Hlen30. simpl in Hlen30. lia. }
  assert (bytes_of [i1; i2; i3; i4] = [0xAA; 0xFF; 0x03; 0x00]
          ∧ bytes_of mid ++ [uint8 d] = payload ++ [0x55; 0xCC]) as [Hhead Htail].
  { unfold bytes_of in *. simpl in Hfr. injection Hfr as H1 H2 H3 H4 H5.
    simpl. rewrite H1, H2, H3, H4. split; [reflexivity|].
    rewrite fmap_app in H5. exact H5. }
  assert (bytes_of mid = payload ++ [0x55] ∧ uint8 d = 0xCC) as [Hmidb Hd].
  { change [0x55; 0xCC] with ([0x55] ++ [0xCC]) in Htail. rewrite app_assoc in Htail.
    apply app_inj_tail in Htail. exact Htail. }
  change (i1 :: i2 :: i3 :: i4 :: mid ++ [(clk, d)])
    with ([i1; i2; i3; i4] ++ (mid ++ [(clk, d)])) in *.
  apply Forall_app in Hgate as [Hg4 Hgate]. apply Forall_app in Hgate as [Hgm Hgl].
  apply Forall_cons_1 in Hgl as [Hgl _]. unfold gate_open in Hgl. simpl in Hgl.
  destruct (header_arrives i1 i2 i3 i4 s Hwf Hg4 Hhead)
    as (s4 & Hs4 & Hwf4 & Hi4 & Hm4 & Hw4 & Hl4 & Ht4 & Hst4 & Hc4).
  rewrite receive_loop_app, Hs4. simpl.
  destruct (receive_loop_completes mid clk d s4 Hwf4 Hgm Hgl) as (s' & t0 & t1 & t2 & Hs' & H);
    try assumption.
  - rewrite Hw4. eapply header_free_app. exact Hfree.
  - rewrite Hi4, Hmid. reflexivity.
  - assert (∃ ds x, mid = ds ++ [x] ∧ uint8 x.2 = 0x55) as (ds & x & -> & Hx).
    { destruct (exists_last (l := mid)) as (ds & x & ->); [intros ->; discriminate|].
      exists ds, x. split; [reflexivity|].
      unfold bytes_of in Hmidb. rewrite fmap_app in Hmidb. simpl in Hmidb.
      apply app_inj_tail in Hmidb. tauto. }
    rewrite fmap_app, foldl_app. simpl.
    destruct (foldl push _ _) as [[[b0 b1] b2] b3]. simpl. rewrite Hx. eauto.
  - exists s', t0, t1, t2. split; [exact Hs'|].
    assert (frame = message (ld2450_received s4) ++ bytes_of mid ++ [204]) as ->.
    { rewrite Hm4, Hmidb, Hbytes. simpl. rewrite <- app_assoc. reflexivity. }
    rewrite <- Hc4, <- Hl4. exact H.
Qed.

Lemma X1_complete_frame_is_decoded_witness :
  ∃ s' t0 t1 t2,
    LD2450ReceiveData sample_frame_input example_full_state = Some s'
    ∧ read_target (ld2450_config example_full_state) (bytes_of sample_frame_input) 0 = Some t0
    ∧ read_target (ld2450_config example_full_state) (bytes_of sample_frame_input) 1 = Some t1
    ∧ read_target (ld2450_config example_full_state) (bytes_of sample_frame_input) 2 = Some t2
    ∧ ld2450_target s' = [t0; t1; t2]
    ∧ log s' = bytes_of sample_frame_input :: log example_full_state
    ∧ Received.idx_body (ld2450_received s') = 0
    ∧ Status.counter (ld2450_status s') = active_targets [t0; t1; t2].
Proof.
  apply (X1_complete_frame_is_decoded sample_frame_input
           [0x32; 0x00; 0x1E; 0x80; 0x10; 0x00; 0x68; 0x01;
            0x0E; 0x83; 0xB1; 0x86; 0x10; 0x80; 0x40; 0x01;
            0x00; 0x00; 0x00; 0x00; 0x00; 0x00; 0x00; 0x00]);
    try reflexivity.
  - repeat constructor.
  - simpl. repeat split; reflexivity.
Defined.

(** X2. The header is not needed for a message to be decoded: with an
    empty buffer, any 30 bytes received after the startup delay that end
    with 55 CC, and in which the header does not show, are logged and
    decoded as they are: the three targets are the ones read from these
    bytes, the counter is the number of them inside the zone, and the
    buffer is left empty. *)
Theorem X2_message_decoded_without_header input s :
  wf_state s = true →
  Status.pserial (ld2450_status s) = true →
  Received.idx_body (ld2450_received s) = 0 →
  Forall gate_open input →
  length input = 30%nat →
  drop 28 (bytes_of input) = [0x55; 0xCC] →
  header_free (Received.arr_last (ld2450_received s)) input →
  ∃ s' t0 t1 t2,
    LD2450ReceiveData input s = Some s'
    ∧ read_target (ld2450_config s) (bytes_of input) 0 = Some t0
    ∧ read_target (ld2450_config s) (bytes_of input) 1 = Some t1
    ∧ read_target (ld2450_config s) (bytes_of input) 2 = Some t2
    ∧ ld2450_target s' = [t0; t1; t2]
    ∧ log s' = bytes_of input :: log s
    ∧ Received.idx_body (ld2450_received s') = 0
    ∧ Status.counter (ld2450_status s') = active_targets [t0; t1; t2].
Proof.
  intros Hwf Hser Hidx Hgate Hlen Hfoot Hfree.
  unfold LD2450ReceiveData. rewrite Hser. simpl.
  destruct (exists_last (l := input)) as (mid & [clk d] & ->); [intros ->; discriminate|].
  rewrite length_app in Hlen. simpl in Hlen.
  unfold bytes_of in Hfoot. rewrite fmap_app in Hfoot. fold (bytes_of mid) in Hfoot.
  assert (length (bytes_of mid) = 29%nat) as Hlm by (unfold bytes_of; rewrite length_fmap; lia).
  rewrite drop_app_le in Hfoot by lia. simpl in Hfoot.
  assert (drop 28 (bytes_of mid) = [0x55] ∧ uint8 d = 0xCC) as [Hm55 Hd].
  { change [0x55; 0xCC] with ([0x55] ++ [0xCC]) in Hfoot. apply app_inj_tail in Hfoot. exact Hfoot. }
  apply Forall_app in Hgate as [Hgm Hgl].
  apply Forall_cons_1 in Hgl as [Hgl _]. unfold gate_open in Hgl. simpl in Hgl.
  destruct (receive_loop_completes mid clk d s Hwf Hgm Hgl) as (s' & t0 & t1 & t2 & Hs' & H);
    try assumption.
  - eapply header_free_app. exact Hfree.
  - rewrite Hidx. lia.
  - destruct (exists_last (l := mid)) as (ds & x & ->); [intros ->; discriminate|].
    unfold bytes_of in Hm55, Hlm. rewrite fmap_app in Hm55, Hlm. simpl in Hm55.
    rewrite length_app in Hlm. simpl in Hlm.
    rewrite drop_app_length' in Hm55 by lia. injection Hm55 as Hx.
    rewrite fmap_app, foldl_app. simpl.
    destruct (foldl push _ _) as [[[b0 b1] b2] b3]. simpl. rewrite Hx. eauto.
  - exists s', t0, t1, t2. split; [exact Hs'|].
    assert (message (ld2450_received s) ++ bytes_of mid ++ [0xCC]
            = bytes_of (mid ++ [(clk, d)])) as Hframe.
    { unfold message. rewrite Hidx. simpl.
      unfold bytes_of. rewrite fmap_app. simpl. rewrite Hd. reflexivity. }
    rewrite Hframe in H. exact H.
Qed.

Lemma X2_message_decoded_without_header_witness :
  let input := (λ b, (example_clock, b)) <$> (replicate 28 0x11 ++ [0x55; 0xCC]) in
  let s := set_status (Status.mk true true 0 0) (initial_state (Flash.mk 5 68 188 128 188)) in
  ∃ s' t0 t1 t2,
    LD2450ReceiveData input s = Some s'
    ∧ read_target (ld2450_config s) (bytes_of input) 0 = Some t0
    ∧ read_target (ld2450_config s) (bytes_of input) 1 = Some t1
    ∧ read_target (ld2450_config s) (bytes_of input) 2 = Some t2
    ∧ ld2450_target s' = [t0; t1; t2]
    ∧ log s' = bytes_of input :: log s
    ∧ Received.idx_body (ld2450_received s') = 0
    ∧ Status.counter (ld2450_status s') = active_targets [t0; t1; t2].
Proof.
  apply X2_message_decoded_without_header; try reflexivity.
  - repeat constructor.
  - simpl. repeat split; reflexivity.
Defined.

(** ** The decoded values *)

Section DecodedValues.

Lemma spec_recover_sign_magnitude lo hi :
  0 ≤ lo < 256 → 0 ≤ hi < 256 →
  spec_recover (signed_le16 lo hi) = sign_magnitude lo hi.
Proof.
  intros Hlo Hhi. unfold spec_recover, signed_le16, sign_magnitude. cbv zeta.
  case_ifs; lia.
Qed.

Lemma sign_magnitude_range lo hi :
  0 ≤ lo < 256 → 0 ≤ hi < 256 → -32767 ≤ sign_magnitude lo hi ≤ 32767.
Proof.
  intros Hlo Hhi. unfold sign_magnitude. case_ifs; lia.
Qed.

(** The record read for one slot satisfies [target_decoded]. *)
Lemma read_target_decoded c (body : list Z) index t :
  Forall (λ b, 0 ≤ b < 256) body →
  0 ≤ index →
  read_target c body index = Some t →
  target_decoded t.
Proof.
  intros Hb Hi Hr.
  destruct (read_target_spec c body index t Hb Hi Hr)
    as (xl & xh & yl & yh & sl & sh & Lxl & Lxh & Lyl & Lyh & Lsl & Lsh
        & Hx & Hy & Hs & Hd & Hz).
  rewrite Forall_lookup in Hb.
  pose proof (Hb _ _ Lxl). pose proof (Hb _ _ Lxh). pose proof (Hb _ _ Lyl).
  pose proof (Hb _ _ Lyh). pose proof (Hb _ _ Lsl). pose proof (Hb _ _ Lsh).
  rewrite spec_recover_sign_magnitude in Hx, Hy, Hs by assumption.
  pose proof (sign_magnitude_range xl xh ltac:(assumption) ltac:(assumption)) as Rx.
  pose proof (sign_magnitude_range yl yh ltac:(assumption) ltac:(assumption)) as Ry.
  pose proof (sign_magnitude_range sl sh ltac:(assumption) ltac:(assumption)) as Rs.
  rewrite <- Hx in Rx. rewrite <- Hs in Rs.
  assert (-32767 ≤ Target.y t ≤ 32767) as Ry' by lia.
  assert (0 ≤ Target.x t * Target.x t ≤ 32767 * 32767) as Sx by nia.
  assert (0 ≤ Target.y t * Target.y t ≤ 32767 * 32767) as Sy by nia.
  pose proof (Z.sqrt_spec (Target.x t * Target.x t + Target.y t * Target.y t) ltac:(lia))
    as Hsq.
  rewrite <- Hd in Hsq. cbv zeta in Hsq. unfold Z.succ in Hsq.
  assert (0 ≤ Target.dist t) as Hd0 by (rewrite Hd; apply Z.sqrt_nonneg).
  assert (Target.dist t ≤ 46339) as Hd1.
  { destruct (Z.lt_ge_cases (Target.dist t) 46340) as [Hlt | Hge]; [lia|].
    assert (46340 * 46340 ≤ Target.dist t * Target.dist t)
      by (apply Z.mul_le_mono_nonneg; lia).
    lia. }
  unfold target_decoded.
  split; [lia|]. split; [lia|]. split; [lia|]. split; [lia|]. split; [lia|].
  split; [split|].
  - intros Hz0. rewrite Hz0 in Hsq. simpl in Hsq.
    assert (Target.x t * Target.x t = 0 ∧ Target.y t * Target.y t = 0) as [Hx0 Hy0] by lia.
    split; nia.
  - intros [Hx0 Hy0]. rewrite Hx0, Hy0 in Hsq. simpl in Hsq. nia.
  - intros Hzone. rewrite Hz in Hzone. unfold in_zone in Hzone.
    apply andb_true_iff in Hzone as [Hzone _]. apply andb_true_iff in Hzone as [Hzone _]. lia.
Qed.

(** What one turn of the loop does to the targets and the status. *)
Lemma LD2450ReceiveByte_effect clk d s :
  wf_state s = true →
  ∃ s', LD2450ReceiveByte clk d s = Some s'
        ∧ wf_state s' = true
        ∧ ld2450_config s' = ld2450_config s
        ∧ Settings s' = Settings s
        ∧ Status.pserial (ld2450_status s') = Status.pserial (ld2450_status s)
        ∧ Status.enabled (ld2450_status s') = Status.enabled (ld2450_status s)
        ∧ ((ld2450_target s' = ld2450_target s ∧ ld2450_status s' = ld2450_status s
            ∧ log s' = log s)
           ∨ (∃ body t0 t1 t2,
                 Forall (λ b, 0 ≤ b < 256) body
                 ∧ read_target (ld2450_config s) body 0 = Some t0
                 ∧ read_target (ld2450_config s) body 1 = Some t1
                 ∧ read_target (ld2450_config s) body 2 = Some t2
                 ∧ ld2450_target s' = [t0; t1; t2]
                 ∧ Status.counter (ld2450_status s') = active_targets [t0; t1; t2]
                 ∧ Status.timestamp (ld2450_status s')
                   = (if 0 <? active_targets [t0; t1; t2]
                      then uint32 (LocalTime clk)
                      else Status.timestamp (ld2450_status s)))).
Proof.
  intros Hwf.
  destruct (LD2450ReceiveByte_total clk d s Hwf) as (s1 & Hs1 & Hwf1 & Hc1 & Hf1 & Hp1).
  exists s1. split; [exact Hs1|]. split; [exact Hwf1|]. split; [exact Hc1|].
  split; [exact Hf1|]. split; [exact Hp1|].
  destruct (Z.le_gt_cases (uptime clk) LD2450_START_DELAY) as [Hup | Hup].
  { rewrite LD2450ReceiveByte_startup in Hs1 by assumption. injection Hs1 as <-. auto. }
  destruct (header_seen (push (Received.arr_last (ld2450_received s)) d)) eqn:Eh.
  { rewrite (LD2450ReceiveByte_header clk d s Hwf Hup Eh) in Hs1. injection Hs1 as <-.
    simpl. auto. }
  destruct ((appended_idx (ld2450_received s) =? 30)
            && footer_seen (push (Received.arr_last (ld2450_received s)) d)) eqn:Ef.
  - apply andb_true_iff in Ef as [Ei Ef]. apply Z.eqb_eq in Ei.
    destruct (LD2450ReceiveByte_frame clk d s Hwf Hup Ei Ef)
      as (t0 & t1 & t2 & H0 & H1 & H2 & Hstep).
    rewrite Hstep in Hs1. injection Hs1 as <-. simpl. split; [reflexivity|]. right.
    exists (appended_body (ld2450_received s) d), t0, t1, t2.
    apply wf_state_spec in Hwf. cbv zeta in Hwf. destruct Hwf as (_ & Hb & _).
    split; [apply appended_body_bytes, Hb|]. auto 10.
  - rewrite (LD2450ReceiveByte_other clk d s Hwf Hup Eh Ef) in Hs1. injection Hs1 as <-.
    simpl. auto.
Qed.

Lemma active_targets_range (targets : list Target.t) :
  0 ≤ active_targets targets ≤ Z.of_nat (length targets).
Proof.
  unfold active_targets. pose proof (length_filter (λ t, Target.zone t = true) targets). lia.
Qed.

End DecodedValues.

(** X3. Each coordinate is read as sign and magnitude: the magnitude is
    the low 15 bits of the little-endian pair and the value is negated when
    the top bit of the high byte is set; the result is within
    -32767 .. 32767. *)
Theorem X3_coordinate_sign_magnitude (body : list Z) off lo hi :
  0 ≤ off →
  body !! Z.to_nat off = Some lo →
  body !! Z.to_nat (off + 1) = Some hi →
  0 ≤ lo < 256 → 0 ≤ hi < 256 →
  read_coordinate body off = Some (sign_magnitude lo hi)
  ∧ -32767 ≤ sign_magnitude lo hi ≤ 32767.
Proof.
  intros Hoff Hlo Hhi Rlo Rhi.
  split; [|apply sign_magnitude_range; assumption].
  destruct (read_coordinate_ok body off Hoff) as (b0 & b1 & H0 & H1 & ->).
  { apply lookup_lt_Some in Hhi. lia. }
  rewrite Hlo in H0. rewrite Hhi in H1. injection H0 as <-. injection H1 as <-.
  cbv zeta. rewrite int16_le16 by assumption.
  rewrite correction_exact by (apply signed_le16_range; assumption).
  rewrite spec_recover_sign_magnitude by assumption. reflexivity.
Qed.

Lemma X3_coordinate_sign_magnitude_witness :
  read_coordinate [0xAA; 0xFF; 0x03; 0x00; 0x0E; 0x83] 4 = Some (sign_magnitude 0x0E 0x83)
  ∧ -32767 ≤ sign_magnitude 0x0E 0x83 ≤ 32767.
Proof.
  apply (X3_coordinate_sign_magnitude [0xAA; 0xFF; 0x03; 0x00; 0x0E; 0x83] 4 0x0E 0x83);
    (reflexivity || lia).
Defined.

(** ** What the receive loop keeps *)

Section LoopInvariants.

(** Induction on the turns of the receive loop. *)
Lemma receive_loop_invariant (P : state → Prop) :
  (∀ clk d s s', wf_state s = true → P s → LD2450ReceiveByte clk d s = Some s' → P s') →
  ∀ input s, wf_state s = true → P s →
             ∃ s', receive_loop input s = Some s' ∧ wf_state s' = true ∧ P s'.
Proof.
  intros Hstep input. induction input as [|[clk d] rest IH]; intros s Hwf HP.
  { exists s. auto. }
  destruct (LD2450ReceiveByte_total clk d s Hwf) as (s1 & Hs1 & Hwf1 & _).
  destruct (IH s1 Hwf1 (Hstep clk d s s1 Hwf HP Hs1)) as (s2 & Hs2 & Hwf2 & HP2).
  exists s2. simpl. rewrite Hs1. simpl. auto.
Qed.

Lemma LD2450ReceiveData_invariant (P : state → Prop) :
  (∀ clk d s s', wf_state s = true → P s → LD2450ReceiveByte clk d s = Some s' → P s') →
  ∀ input s, wf_state s = true → P s →
             ∃ s', LD2450ReceiveData input s = Some s' ∧ wf_state s' = true ∧ P s'.
Proof.
  intros Hstep input s Hwf HP. unfold LD2450ReceiveData.
  destruct (negb (Status.pserial (ld2450_status s))); [exists s; auto|].
  apply receive_loop_invariant; assumption.
Qed.

End LoopInvariants.

(** X4. Whatever is received, the target records stay consistent: x, y and
    speed within -32767 .. 32767, the distance at most 46339 and equal to
    the integer square root of x^2 + y^2, a distance of 0 exactly for
    x = y = 0, and no target flagged with a distance of 0. *)
Theorem X4_targets_stay_consistent input s :
  wf_state s = true →
  Forall target_decoded (ld2450_target s) →
  ∃ s', LD2450ReceiveData input s = Some s'
        ∧ Forall target_decoded (ld2450_target s').
Proof.
  intros Hwf Hinv.
  destruct (LD2450ReceiveData_invariant (λ s, Forall target_decoded (ld2450_target s)))
    with (input := input) (s := s) as (s' & Hs' & _ & HP); try assumption.
  - clear. intros clk d s s' Hwf HP Hs.
    destruct (LD2450ReceiveByte_effect clk d s Hwf) as (s1 & Hs1 & _ & _ & _ & _ & _ & Heff).
    rewrite Hs in Hs1. injection Hs1 as <-.
    destruct Heff as [(-> & _) | (body & t0 & t1 & t2 & Hb & H0 & H1 & H2 & -> & _)];
      [exact HP|].
    repeat constructor; eapply read_target_decoded; eauto; lia.
  - exists s'. auto.
Qed.

Lemma X4_targets_stay_consistent_witness :
  ∃ s', LD2450ReceiveData sample_frame_input example_full_state = Some s'
        ∧ Forall target_decoded (ld2450_target s').
Proof.
  apply (X4_targets_stay_consistent sample_frame_input example_full_state);
    [reflexivity|].
  repeat constructor; simpl; try lia; intros; try lia; discriminate.
Defined.

(** X5. Whatever is received, the counter of detected targets stays the
    number of target records flagged as inside the zone, hence between 0
    and 3. *)
Theorem X5_counter_counts_flagged_targets input s :
  wf_state s = true →
  Status.counter (ld2450_status s) = active_targets (ld2450_target s) →
  ∃ s', LD2450ReceiveData input s = Some s'
        ∧ Status.counter (ld2450_status s') = active_targets (ld2450_target s')
        ∧ 0 ≤ Status.counter (ld2450_status s') ≤ 3.
Proof.
  intros Hwf Hinv.
  destruct (LD2450ReceiveData_invariant
              (λ s, Status.counter (ld2450_status s) = active_targets (ld2450_target s)))
    with (input := input) (s := s) as (s' & Hs' & Hwf' & HP); try assumption.
  - clear. intros clk d s s' Hwf HP Hs.
    destruct (LD2450ReceiveByte_effect clk d s Hwf) as (s1 & Hs1 & _ & _ & _ & _ & _ & Heff).
    rewrite Hs in Hs1. injection Hs1 as <-.
    destruct Heff as [(-> & -> & _) | (body & t0 & t1 & t2 & _ & _ & _ & _ & -> & -> & _)];
      [exact HP|reflexivity].
  - exists s'. split; [exact Hs'|]. split; [exact HP|].
    rewrite HP. pose proof (active_targets_range (ld2450_target s')) as Hr.
    apply wf_state_spec in Hwf'. cbv zeta in Hwf'. destruct Hwf' as (_ & _ & _ & _ & Hl).
    rewrite Hl in Hr. lia.
Qed.

Lemma X5_counter_counts_flagged_targets_witness :
  ∃ s', LD2450ReceiveData sample_frame_input example_full_state = Some s'
        ∧ Status.counter (ld2450_status s') = active_targets (ld2450_target s')
        ∧ 0 ≤ Status.counter (ld2450_status s') ≤ 3.
Proof.
  apply (X5_counter_counts_flagged_targets sample_frame_input example_full_state);
    reflexivity.
Defined.

(** X6. The detection timestamp is never cleared: after any input it is
    the one it was, or the local time read in one of the turns of the
    loop. *)
Theorem X6_detection_timestamp_provenance input s :
  wf_state s = true →
  ∃ s', LD2450ReceiveData input s = Some s'
        ∧ (Status.timestamp (ld2450_status s') = Status.timestamp (ld2450_status s)
           ∨ ∃ turn, turn ∈ input
                     ∧ Status.timestamp (ld2450_status s') = uint32 (LocalTime turn.1)).
Proof.
  intros Hwf. unfold LD2450ReceiveData.
  destruct (negb (Status.pserial (ld2450_status s))); [exists s; auto|].
  revert s Hwf. induction input as [|[clk d] rest IH]; intros s Hwf.
  { exists s. auto. }
  destruct (LD2450ReceiveByte_effect clk d s Hwf) as (s1 & Hs1 & Hwf1 & _ & _ & _ & _ & Heff).
  destruct (IH s1 Hwf1) as (s2 & Hs2 & Hts).
  exists s2. simpl. rewrite Hs1. simpl. split; [exact Hs2|].
  destruct Hts as [Hsame | (turn & Hin & Hts)].
  - rewrite Hsame.
    destruct Heff as [(_ & -> & _) | (body & t0 & t1 & t2 & _ & _ & _ & _ & _ & _ & Hts)];
      [left; reflexivity|].
    rewrite Hts. destruct (0 <? active_targets [t0; t1; t2]); [|left; reflexivity].
    right. exists (clk, d). split; [apply elem_of_cons; left; reflexivity|reflexivity].
  - right. exists turn. split; [apply elem_of_cons; right; exact Hin|exact Hts].
Qed.

Lemma X6_detection_timestamp_provenance_witness :
  ∃ s', LD2450ReceiveData sample_frame_input example_full_state = Some s'
        ∧ (Status.timestamp (ld2450_status s')
           = Status.timestamp (ld2450_status example_full_state)
           ∨ ∃ turn, turn ∈ sample_frame_input
                     ∧ Status.timestamp (ld2450_status s') = uint32 (LocalTime turn.1)).
Proof.
  apply (X6_detection_timestamp_provenance sample_frame_input example_full_state).
  reflexivity.
Defined.

(** X7. The receive loop only writes the receive buffer, the targets, the
    counter, the detection timestamp and the log: the configuration, the
    flash settings and the serial and enabled flags are the same after any
    input. *)
Theorem X7_receive_keeps_configuration input s :
  wf_state s = true →
  ∃ s', LD2450ReceiveData input s = Some s'
        ∧ ld2450_config s' = ld2450_config s
        ∧ Settings s' = Settings s
        ∧ Status.pserial (ld2450_status s') = Status.pserial (ld2450_status s)
        ∧ Status.enabled (ld2450_status s') = Status.enabled (ld2450_status s).
Proof.
  intros Hwf.
  destruct (LD2450ReceiveData_invariant
              (λ s', ld2450_config s' = ld2450_config s
                     ∧ Settings s' = Settings s
                     ∧ Status.pserial (ld2450_status s') = Status.pserial (ld2450_status s)
                     ∧ Status.enabled (ld2450_status s') = Status.enabled (ld2450_status s)))
    with (input := input) (s := s) as (s' & Hs' & _ & HP); try assumption.
  - intros clk d s0 s1 Hwf0 (Hc & Hf & Hp & He) Hs.
    destruct (LD2450ReceiveByte_effect clk d s0 Hwf0) as (s2 & Hs2 & _ & Hc2 & Hf2 & Hp2 & He2 & _).
    rewrite Hs in Hs2. injection Hs2 as <-. repeat split; congruence.
  - auto.
  - exists s'. auto.
Qed.

Lemma X7_receive_keeps_configuration_witness :
  ∃ s', LD2450ReceiveData sample_frame_input example_full_state = Some s'
        ∧ ld2450_config s' = ld2450_config example_full_state
        ∧ Settings s' = Settings example_full_state
        ∧ Status.pserial (ld2450_status s')
          = Status.pserial (ld2450_status example_full_state)
        ∧ Status.enabled (ld2450_status s')
          = Status.enabled (ld2450_status example_full_state).
Proof.
  apply (X7_receive_keeps_configuration sample_frame_input example_full_state).
  reflexivity.
Defined.

(** ** Saving and loading the configuration *)

Section SaveLoad.

Lemma LD2450SaveConfig_bytes s : flash_bytes (Settings (LD2450SaveConfig s)).
Proof.
  unfold flash_bytes, LD2450SaveConfig. simpl. repeat split; apply uint8_byte.
Qed.

Lemma saved_bound v :
  -12800 ≤ v ≤ 12799 → (uint8 (v ÷ 100 + 128) - 128) * 100 = round100 v.
Proof.
  intros Hv. unfold round100.
  assert (-128 ≤ v ÷ 100 ≤ 127) as Hq by (Z.quot_rem_to_equations; lia).
  rewrite uint8_id by lia. lia.
Qed.

Lemma round100_multiple v : (100 | v) → round100 v = v.
Proof.
  intros [k ->]. unfold round100. rewrite Z.quot_mul by lia. lia.
Qed.

(** A save followed by a load, on bounds that fit the byte encoding. *)
Lemma save_load_config c s :
  0 ≤ Config.timeout c < 256 →
  -12800 ≤ Config.x1 c ≤ 12799 → -12800 ≤ Config.x2 c ≤ 12799 →
  -12800 ≤ Config.y1 c ≤ 12799 → -12800 ≤ Config.y2 c ≤ 12799 →
  let c' := ld2450_config (LD2450LoadConfig (LD2450SaveConfig (set_config c s))) in
  Config.timeout c' = (if Config.timeout c =? 0 then 5 else Config.timeout c)
  ∧ Config.x1 c' = Z.max (-6000) (round100 (Config.x1 c))
  ∧ Config.x2 c' = (if Z.min 6000 (round100 (Config.x2 c)) <=? Config.x1 c'
                    then 6000 else Z.min 6000 (round100 (Config.x2 c)))
  ∧ Config.y1 c' = Z.max 0 (round100 (Config.y1 c))
  ∧ Config.y2 c' = (if Z.min 6000 (round100 (Config.y2 c)) <=? Config.y1 c'
                    then 6000 else Z.min 6000 (round100 (Config.y2 c))).
Proof.
  intros Ht Hx1 Hx2 Hy1 Hy2 c'.
  pose proof (LD2450SaveConfig_bytes (set_config c s)) as (B25 & B26 & B27 & B28 & B29).
  pose proof (LD2450LoadConfig_bytes (LD2450SaveConfig (set_config c s)) B25 B26 B27 B28 B29)
    as H.
  cbv zeta in H. fold c' in H.
  change (Settings (LD2450SaveConfig (set_config c s)))
    with (Flash.mk (uint8 (Config.timeout c))
                   (uint8 (Config.x1 c ÷ 100 + 128)) (uint8 (Config.x2 c ÷ 100 + 128))
                   (uint8 (Config.y1 c ÷ 100 + 128)) (uint8 (Config.y2 c ÷ 100 + 128))) in H.
  cbn [Flash.ea6_25 Flash.ea6_26 Flash.ea6_27 Flash.ea6_28 Flash.ea6_29] in H.
  rewrite !saved_bound in H by assumption.
  rewrite (uint8_id (Config.timeout c)) in H by lia.
  exact H.
Qed.

Lemma LD2450LoadConfig_loaded s :
  flash_bytes (Settings s) → config_loaded (ld2450_config (LD2450LoadConfig s)).
Proof.
  intros (B25 & B26 & B27 & B28 & B29).
  destruct (LD2450LoadConfig_bytes s B25 B26 B27 B28 B29) as (Et & Ex1 & Ex2 & Ey1 & Ey2).
  cbv zeta in *. unfold config_loaded.
  rewrite Ex2, Ey2, Ex1, Ey1, Et.
  assert (∀ b, (100 | (b - 128) * 100)) as Hdiv by (intros b; exists (b - 128); lia).
  assert (∀ b lo, (100 | lo) → (100 | Z.max lo ((b - 128) * 100))) as Hmax.
  { intros b lo Hlo. destruct (Z.max_spec lo ((b - 128) * 100)) as [[_ ->] | [_ ->]]; auto. }
  assert (∀ b, (100 | Z.min 6000 ((b - 128) * 100))) as Hmin.
  { intros b. destruct (Z.min_spec 6000 ((b - 128) * 100)) as [[_ ->] | [_ ->]]; auto.
    exists 60. lia. }
  assert ((100 | 6000)) as H6000 by (exists 60; lia).
  assert ((100 | -6000)) as Hm6000 by (exists (-60); lia).
  assert ((100 | 0)) as H0 by (exists 0; lia).
  pose proof (Hmin (Flash.ea6_27 (Settings s))) as D27.
  pose proof (Hmin (Flash.ea6_29 (Settings s))) as D29.
  pose proof (Hmax (Flash.ea6_26 (Settings s)) (-6000) Hm6000) as D26.
  pose proof (Hmax (Flash.ea6_28 (Settings s)) 0 H0) as D28.
  repeat split; case_ifs; try lia; try assumption.
Qed.

End SaveLoad.

(** X8. Saving the configuration and loading it back rounds each bound of
    the zone toward zero to a multiple of 100 mm, and then applies the
    checks of the load: for bounds that fit the byte encoding
    (-12800 .. 12799 mm), x1 becomes max (-6000, round x1), x2 becomes
    min (6000, round x2), or 6000 when that is not above x1; likewise for y1
    (at least 0) and y2; a timeout of 0 becomes 5. *)
Theorem X8_save_load_rounds_to_100mm c s :
  0 ≤ Config.timeout c < 256 →
  -12800 ≤ Config.x1 c ≤ 12799 → -12800 ≤ Config.x2 c ≤ 12799 →
  -12800 ≤ Config.y1 c ≤ 12799 → -12800 ≤ Config.y2 c ≤ 12799 →
  let c' := ld2450_config (LD2450LoadConfig (LD2450SaveConfig (set_config c s))) in
  Config.timeout c' = (if Config.timeout c =? 0 then 5 else Config.timeout c)
  ∧ Config.x1 c' = Z.max (-6000) (round100 (Config.x1 c))
  ∧ Config.x2 c' = (if Z.min 6000 (round100 (Config.x2 c)) <=? Config.x1 c'
                    then 6000 else Z.min 6000 (round100 (Config.x2 c)))
  ∧ Config.y1 c' = Z.max 0 (round100 (Config.y1 c))
  ∧ Config.y2 c' = (if Z.min 6000 (round100 (Config.y2 c)) <=? Config.y1 c'
                    then 6000 else Z.min 6000 (round100 (Config.y2 c))).
Proof.
  intros Ht Hx1 Hx2 Hy1 Hy2. apply save_load_config; assumption.
Qed.

Lemma X8_save_load_rounds_to_100mm_witness :
  let c := Config.mk 30 (-1050) 2099 50 149 in
  let c' := ld2450_config (LD2450LoadConfig (LD2450SaveConfig (set_config c example_state))) in
  Config.timeout c' = (if Config.timeout c =? 0 then 5 else Config.timeout c)
  ∧ Config.x1 c' = Z.max (-6000) (round100 (Config.x1 c))
  ∧ Config.x2 c' = (if Z.min 6000 (round100 (Config.x2 c)) <=? Config.x1 c'
                    then 6000 else Z.min 6000 (round100 (Config.x2 c)))
  ∧ Config.y1 c' = Z.max 0 (round100 (Config.y1 c))
  ∧ Config.y2 c' = (if Z.min 6000 (round100 (Config.y2 c)) <=? Config.y1 c'
                    then 6000 else Z.min 6000 (round100 (Config.y2 c))).
Proof.
  apply (X8_save_load_rounds_to_100mm (Config.mk 30 (-1050) 2099 50 149) example_state);
    simpl; lia.
Defined.

(** X9. Round trip: a configuration with a timeout from 1 to 255 and a
    zone -6000 <= x1 < x2 <= 6000, 0 <= y1 < y2 <= 6000 in multiples of
    100 mm is read back from the flash exactly as it was saved. *)
Theorem X9_save_load_round_trip c s :
  0 < Config.timeout c < 256 →
  -6000 ≤ Config.x1 c → Config.x1 c < Config.x2 c → Config.x2 c ≤ 6000 →
  0 ≤ Config.y1 c → Config.y1 c < Config.y2 c → Config.y2 c ≤ 6000 →
  (100 | Config.x1 c) → (100 | Config.x2 c) → (100 | Config.y1 c) → (100 | Config.y2 c) →
  ld2450_config (LD2450LoadConfig (LD2450SaveConfig (set_config c s))) = c.
Proof.
  intros Ht Hx1 Hx Hx2 Hy1 Hy Hy2 D1 D2 D3 D4.
  destruct (save_load_config c s) as (Et & Ex1 & Ex2 & Ey1 & Ey2); try lia.
  rewrite !round100_multiple in * by assumption.
  destruct (ld2450_config (LD2450LoadConfig (LD2450SaveConfig (set_config c s))))
    as [t' a1 a2 b1 b2].
  destruct c as [t x1 x2 y1 y2]. simpl in *.
  f_equal; case_ifs; lia.
Qed.

Lemma X9_save_load_round_trip_witness :
  ld2450_config
    (LD2450LoadConfig
       (LD2450SaveConfig (set_config (Config.mk 30 (-1000) 2000 500 3000) example_state)))
  = Config.mk 30 (-1000) 2000 500 3000.
Proof.
  apply (X9_save_load_round_trip (Config.mk 30 (-1000) 2000 500 3000) example_state);
    simpl; try lia.
  - exists (-10). lia.
  - exists 20. lia.
  - exists 5. lia.
  - exists 30. lia.
Defined.

(** X10. Whatever the five flash bytes hold, the loaded configuration has a
    timeout from 1 to 255, bounds in multiples of 100 mm with
    -6000 <= x1 <= 12700, -5900 <= x2 <= 6000, 0 <= y1 <= 12700 and
    100 <= y2 <= 6000, and an upper bound that is above the lower bound or
    equal to 6000; and saving it and loading it again gives the same
    configuration. *)
Theorem X10_loaded_configuration_is_stable s :
  flash_bytes (Settings s) →
  config_loaded (ld2450_config (LD2450LoadConfig s))
  ∧ ld2450_config (LD2450LoadConfig (LD2450SaveConfig (LD2450LoadConfig s)))
    = ld2450_config (LD2450LoadConfig s).
Proof.
  intros Hf. pose proof (LD2450LoadConfig_loaded s Hf) as Hl. split; [exact Hl|].
  destruct Hl as (Ht & Hx1 & Hx2 & Hy1 & Hy2 & Ox & Oy & D1 & D2 & D3 & D4).
  replace (LD2450SaveConfig (LD2450LoadConfig s))
    with (LD2450SaveConfig (set_config (ld2450_config (LD2450LoadConfig s)) (LD2450LoadConfig s)))
    by (destruct (LD2450LoadConfig s); reflexivity).
  destruct (save_load_config (ld2450_config (LD2450LoadConfig s)) (LD2450LoadConfig s))
    as (Et & Ex1 & Ex2 & Ey1 & Ey2); try lia.
  rewrite !round100_multiple in * by assumption.
  match goal with |- ?l = _ => destruct l as [t' a1 a2 b1 b2] end.
  destruct (ld2450_config (LD2450LoadConfig s)) as [t x1 x2 y1 y2]. simpl in *.
  f_equal; case_ifs; lia.
Qed.

Lemma X10_loaded_configuration_is_stable_witness :
  let s := initial_state (Flash.mk 0 255 3 200 17) in
  config_loaded (ld2450_config (LD2450LoadConfig s))
  ∧ ld2450_config (LD2450LoadConfig (LD2450SaveConfig (LD2450LoadConfig s)))
    = ld2450_config (LD2450LoadConfig s).
Proof.
  apply (X10_loaded_configuration_is_stable (initial_state (Flash.mk 0 255 3 200 17))).
  unfold flash_bytes. simpl. lia.
Defined.

(** X11. Whatever the argument, as long as it is not empty, and whatever
    the configuration was, the zone and distance commands leave a
    configuration that passed the checks of the load (timeout 1 .. 255,
    bounds in multiples of 100 mm within their ranges, upper bounds above
    the lower ones or at 6000); the distance command also leaves the full
    width x1 = -6000, x2 = 6000. *)
Theorem X11_zone_commands_validate data s :
  data ≠ EmptyString →
  config_loaded (ld2450_config (CmndLD2450Zone data s))
  ∧ config_loaded (ld2450_config (CmndLD2450Dist data s))
  ∧ Config.x1 (ld2450_config (CmndLD2450Dist data s)) = -6000
  ∧ Config.x2 (ld2450_config (CmndLD2450Dist data s)) = 6000.
Proof.
  intros Hd. destruct data as [|ch data]; [contradiction|].
  unfold CmndLD2450Zone, CmndLD2450Dist.
  change (0 <? length (strlcpy (String ch data) 24))%nat with true. cbv iota.
  split; [apply LD2450LoadConfig_loaded, LD2450SaveConfig_bytes|].
  split; [apply LD2450LoadConfig_loaded, LD2450SaveConfig_bytes|].
  match goal with
  | |- context [LD2450LoadConfig (LD2450SaveConfig ?st)] => set (s1 := st)
  end.
  pose proof (LD2450SaveConfig_bytes s1) as (B25 & B26 & B27 & B28 & B29).
  destruct (LD2450LoadConfig_bytes (LD2450SaveConfig s1) B25 B26 B27 B28 B29)
    as (_ & Ex1 & Ex2 & _).
  rewrite Ex2, Ex1. split; reflexivity.
Qed.

Lemma X11_zone_commands_validate_witness :
  let data := "700,300"%string in
  let s := set_config (Config.mk 0 50 40 30 20) example_state in
  config_loaded (ld2450_config (CmndLD2450Zone data s))
  ∧ config_loaded (ld2450_config (CmndLD2450Dist data s))
  ∧ Config.x1 (ld2450_config (CmndLD2450Dist data s)) = -6000
  ∧ Config.x2 (ld2450_config (CmndLD2450Dist data s)) = 6000.
Proof.
  apply X11_zone_commands_validate. discriminate.
Defined.

(** X12. The timeout command with a payload from 1 to 255 sets that
    timeout, leaves the zone in memory as it is and stores the timeout in
    the flash, where a later load finds it. *)
Theorem X12_timeout_command payload s :
  0 < payload < 256 →
  let s' := CmndLD2450Timeout payload s in
  Config.timeout (ld2450_config s') = payload
  ∧ Config.x1 (ld2450_config s') = Config.x1 (ld2450_config s)
  ∧ Config.x2 (ld2450_config s') = Config.x2 (ld2450_config s)
  ∧ Config.y1 (ld2450_config s') = Config.y1 (ld2450_config s)
  ∧ Config.y2 (ld2450_config s') = Config.y2 (ld2450_config s)
  ∧ Flash.ea6_25 (Settings s') = payload
  ∧ Config.timeout (ld2450_config (LD2450LoadConfig s')) = payload.
Proof.
  intros Hp. unfold CmndLD2450Timeout. destruct (0 <? payload) eqn:E; [|lia].
  cbv zeta. unfold LD2450LoadConfig, LD2450SaveConfig. simpl.
  rewrite !(uint8_id payload) by lia.
  destruct (payload =? 0) eqn:E0; [lia|]. repeat split; reflexivity.
Qed.

Lemma X12_timeout_command_witness :
  let s' := CmndLD2450Timeout 30 example_state in
  Config.timeout (ld2450_config s') = 30
  ∧ Config.x1 (ld2450_config s') = Config.x1 (ld2450_config example_state)
  ∧ Config.x2 (ld2450_config s') = Config.x2 (ld2450_config example_state)
  ∧ Config.y1 (ld2450_config s') = Config.y1 (ld2450_config example_state)
  ∧ Config.y2 (ld2450_config s') = Config.y2 (ld2450_config example_state)
  ∧ Flash.ea6_25 (Settings s') = 30
  ∧ Config.timeout (ld2450_config (LD2450LoadConfig s')) = 30.
Proof.
  apply (X12_timeout_command 30 example_state). lia.
Defined.

(** ** The sensor line of the main page *)

Section WebLayout.

Local Arguments uint8 : simpl never.

Ltac no_test t :=
  lazymatch t with
  | context [if _ then _ else _] => fail
  | _ => idtac
  end.

(** One comparison of the code at a time, outermost first; a branch that
    the bounds exclude is closed at once. *)
Ltac split_test :=
  match goal with
  | |- context [?a <? ?b] => no_test a; no_test b; destruct (Z.ltb_spec a b)
  | |- context [?a =? ?b] => no_test a; no_test b; destruct (Z.eqb_spec a b)
  end; rewrite ?uint8_id in * by lia; try lia; simpl.

Lemma eqb_agree a b c d : (a = b ↔ c = d) → (a =? b) = (c =? d).
Proof.
  intros H. destruct (Z.eqb_spec a b), (Z.eqb_spec c d); tauto.
Qed.

Lemma web_position_spec d :
  0 ≤ d ≤ 3 * LD2450_DIST_MAX →
  (web_position d = 255 ↔ d = 0)
  ∧ (web_position d = 255 ∨ 25 ≤ web_position d ≤ 241).
Proof.
  unfold LD2450_DIST_MAX. intros Hd. unfold web_position, UINT8_MAX, LD2450_DIST_MAX.
  destruct (Z.eqb_spec d 0) as [->|Hne]; [split; [tauto|left; reflexivity]|].
  assert (Hq : 0 ≤ (d * 72) ÷ 6000 ≤ 216).
  { split; [apply Z.quot_pos; lia|].
    pose proof (Z.quot_rem' (d * 72) 6000) as Hqr.
    pose proof (Z.rem_bound_pos (d * 72) 6000 ltac:(lia) ltac:(lia)). lia. }
  unfold uint32. rewrite (Z.mod_small d) by lia.
  rewrite (Z.mod_small (d * 72)) by lia.
  rewrite (uint8_id (_ ÷ _)) by lia. rewrite uint8_id by lia.
  split; [split; lia | right; lia].
Qed.

Lemma web_adjust_lower_spec p0 p1 p2 :
  (p0 = 255 ∨ 25 ≤ p0 ≤ 241) → (p1 = 255 ∨ 25 ≤ p1 ≤ 241) → (p2 = 255 ∨ 25 ≤ p2 ≤ 241) →
  ∃ l1 l2,
    web_adjust_lower [p0; p1; p2] = Some [p0; l1; l2]
    ∧ (l1 = 255 ↔ p1 = 255) ∧ (l2 = 255 ↔ p2 = 255)
    ∧ (l1 = 255 ∨ 25 ≤ l1 ≤ 251) ∧ (l2 = 255 ∨ 25 ≤ l2 ≤ 251)
    ∧ (p0 ≠ 255 → l1 ≠ 255 → p0 + 5 ≤ l1 ∨ 90 ≤ l1)
    ∧ (l1 ≠ 255 → l2 ≠ 255 → l1 + 5 ≤ l2 ∨ 90 ≤ l2)
    ∧ (p0 ≠ 255 → l1 = 255 → l2 ≠ 255 → p0 + 5 ≤ l2 ∨ 90 ≤ l2).
Proof.
  intros H0 H1 H2.
  unfold web_adjust_lower, UINT8_MAX. simpl.
  repeat split_test;
    (eexists; eexists; split; [reflexivity|lia]).
Qed.

Lemma web_adjust_upper_spec l0 l1 l2 :
  (l0 = 255 ∨ 25 ≤ l0 ≤ 251) → (l1 = 255 ∨ 25 ≤ l1 ≤ 251) → (l2 = 255 ∨ 25 ≤ l2 ≤ 251) →
  (l0 ≠ 255 → l1 ≠ 255 → l0 + 5 ≤ l1 ∨ 90 ≤ l1) →
  (l1 ≠ 255 → l2 ≠ 255 → l1 + 5 ≤ l2 ∨ 90 ≤ l2) →
  (l0 ≠ 255 → l1 = 255 → l2 ≠ 255 → l0 + 5 ≤ l2 ∨ 90 ≤ l2) →
  ∃ q0 q1 q2,
    web_adjust_upper [l0; l1; l2] = Some [q0; q1; q2]
    ∧ (q0 = 255 ↔ l0 = 255) ∧ (q1 = 255 ↔ l1 = 255) ∧ (q2 = 255 ↔ l2 = 255)
    ∧ (q0 = 255 ∨ 25 ≤ q0 ≤ 95) ∧ (q1 = 255 ∨ 25 ≤ q1 ≤ 95) ∧ (q2 = 255 ∨ 25 ≤ q2 ≤ 95)
    ∧ (q0 ≠ 255 → q1 ≠ 255 → q0 + 5 ≤ q1)
    ∧ (q1 ≠ 255 → q2 ≠ 255 → q1 + 5 ≤ q2)
    ∧ (q0 ≠ 255 → q1 = 255 → q2 ≠ 255 → q0 + 5 ≤ q2).
Proof.
  intros H0 H1 H2 H01 H12 H02.
  unfold web_adjust_upper, UINT8_MAX.
  destruct H0 as [->|H0], H1 as [->|H1], H2 as [->|H2]; simpl.
  all: repeat split_test;
    (eexists; eexists; eexists; split; [reflexivity|lia]).
Qed.

Lemma web_display_spec t0 t1 t2 q0 q1 q2 :
  (q0 = 255 ∨ 25 ≤ q0 ≤ 95) → (q1 = 255 ∨ 25 ≤ q1 ≤ 95) → (q2 = 255 ∨ 25 ≤ q2 ≤ 95) →
  (q0 ≠ 255 → q1 ≠ 255 → q0 + 5 ≤ q1) →
  (q1 ≠ 255 → q2 ≠ 255 → q1 + 5 ≤ q2) →
  (q0 ≠ 255 → q1 = 255 → q2 ≠ 255 → q0 + 5 ≤ q2) →
  ∃ cells,
    web_display [t0; t1; t2] [q0; q1; q2] = Some cells
    ∧ row_width cells = 75
    ∧ Forall (λ c, 0 < cell_width c) cells
    ∧ shown_targets cells =
        omap id [ (if q0 =? 255 then None else Some (1, target_color t0));
                  (if q1 =? 255 then None else Some (2, target_color t1));
                  (if q2 =? 255 then None else Some (3, target_color t2)) ].
Proof.
  intros H0 H1 H2 H01 H12 H02.
  unfold web_display, UINT8_MAX.
  destruct H0 as [->|H0], H1 as [->|H1], H2 as [->|H2]; simpl.
  all: repeat split_test;
    (eexists; split; [reflexivity|]; split; [simpl; lia|];
     split; [repeat constructor; simpl; lia | reflexivity]).
Qed.

End WebLayout.

(** X13. The line of the targets on the main page, when no target is
    further than three times the 6 m range (18000 mm): its cells, the label
    included, have positive widths that add up to 100 percent, as those
    of the scale do, and the discs shown are exactly the targets with a
    distance, in the order of their numbers, each with the colour of its
    zone flag. *)
Theorem X13_web_line_layout (s : state) (t0 t1 t2 : Target.t) :
  Status.enabled (ld2450_status s) = true →
  ld2450_target s = [t0; t1; t2] →
  Forall (λ t, 0 ≤ Target.dist t ≤ 3 * LD2450_DIST_MAX) [t0; t1; t2] →
  ∃ scale row,
    LD2450WebSensor s = Some [scale; row]
    ∧ row_width scale = 100
    ∧ row_width row = 100
    ∧ Forall (λ c, 0 < cell_width c) row
    ∧ shown_targets row = present_targets [t0; t1; t2].
Proof.
  intros Hen Ht Hd.
  apply Forall_cons_1 in Hd as [Hd0 Hd].
  apply Forall_cons_1 in Hd as [Hd1 Hd].
  apply Forall_cons_1 in Hd as [Hd2 _].
  unfold LD2450WebSensor. rewrite Hen, Ht. cbn [negb].
  assert (Hpositions : web_positions [t0; t1; t2]
                       = Some [web_position (Target.dist t0);
                               web_position (Target.dist t1);
                               web_position (Target.dist t2)]) by reflexivity.
  rewrite Hpositions. cbn [mbind option_bind]. clear Hpositions.
  destruct (web_position_spec _ Hd0) as [Ha0 Hp0].
  destruct (web_position_spec _ Hd1) as [Ha1 Hp1].
  destruct (web_position_spec _ Hd2) as [Ha2 Hp2].
  generalize dependent (web_position (Target.dist t0)). intros p0 Ha0 Hp0.
  generalize dependent (web_position (Target.dist t1)). intros p1 Ha1 Hp1.
  generalize dependent (web_position (Target.dist t2)). intros p2 Ha2 Hp2.
  destruct (web_adjust_lower_spec _ _ _ Hp0 Hp1 Hp2)
    as (l1 & l2 & Hlow & Hl1 & Hl2 & Hb1 & Hb2 & Hs01 & Hs12 & Hs02).
  assert (Hp0' : p0 = 255 ∨ 25 ≤ p0 ≤ 251) by (clear - Hp0; lia).
  destruct (web_adjust_upper_spec p0 l1 l2 Hp0' Hb1 Hb2 Hs01 Hs12 Hs02)
    as (q0 & q1 & q2 & Hup & Hq0 & Hq1 & Hq2 & Hr0 & Hr1 & Hr2 & Hu01 & Hu12 & Hu02).
  destruct (web_display_spec t0 t1 t2 q0 q1 q2 Hr0 Hr1 Hr2 Hu01 Hu12 Hu02)
    as (cells & Hdisp & Hw & Hpos & Hshown).
  rewrite Hlow. cbn [mbind option_bind].
  rewrite Hup. cbn [mbind option_bind].
  rewrite Hdisp. cbn [mbind option_bind].
  eexists. eexists. split; [reflexivity|].
  split; [reflexivity|].
  split; [cbn [row_width foldr cell_width]; fold (row_width cells); rewrite Hw;
          reflexivity|].
  split; [constructor; [simpl; lia|exact Hpos]|].
  transitivity (shown_targets cells); [reflexivity|]. rewrite Hshown.
  unfold present_targets. cbn [imap omap id Z.of_nat].
  rewrite (eqb_agree q0 255 (Target.dist t0) 0) by (rewrite Hq0; exact Ha0).
  rewrite (eqb_agree q1 255 (Target.dist t1) 0) by (rewrite Hq1, Hl1; exact Ha1).
  rewrite (eqb_agree q2 255 (Target.dist t2) 0) by (rewrite Hq2, Hl2; exact Ha2).
  reflexivity.
Qed.

Lemma X13_web_line_layout_witness :
  let t0 := Target.mk 0 5900 0 5900 true in
  let t1 := Target.mk 100 5900 0 5900 false in
  let t2 := Target.mk 0 6000 0 6000 true in
  let s := set_target [t0; t1; t2]
             (set_status (Status.mk true true 2 0) (initial_state (Flash.mk 5 68 188 128 188))) in
  ∃ scale row,
    LD2450WebSensor s = Some [scale; row]
    ∧ row_width scale = 100
    ∧ row_width row = 100
    ∧ Forall (λ c, 0 < cell_width c) row
    ∧ shown_targets row = present_targets [t0; t1; t2].
Proof.
  apply X13_web_line_layout; [reflexivity|reflexivity|].
  repeat constructor; simpl; unfold LD2450_DIST_MAX; lia.
Defined.

(** ** The radar page *)

Section Radar.

Lemma int32_id z : -2147483648 ≤ z < 2147483648 → int32 z = z.
Proof. intros H. unfold int32. rewrite Z.mod_small by lia. lia. Qed.

(** Without wrap-around, for a 16-bit value. *)
Lemma radar_coordinate_value v offset :
  -32768 ≤ v ≤ 32767 → 0 ≤ offset ≤ 1000 →
  radar_coordinate v offset = (v * 400) ÷ 6000 + offset.
Proof.
  intros Hv Ho. unfold radar_coordinate, LD2450_DIST_MAX.
  assert (-2185 ≤ (v * 400) ÷ 6000 ≤ 2185) by (Z.quot_rem_to_equations; lia).
  rewrite (int32_id v) by lia. rewrite (int32_id (v * 400)) by lia.
  apply int32_id. lia.
Qed.

Lemma radar_coordinate_mono v w offset :
  -32768 ≤ v ≤ 32767 → -32768 ≤ w ≤ 32767 → 0 ≤ offset ≤ 1000 →
  v ≤ w → radar_coordinate v offset ≤ radar_coordinate w offset.
Proof.
  intros Hv Hw Ho Hle. rewrite !radar_coordinate_value by assumption.
  assert ((v * 400) ÷ 6000 ≤ (w * 400) ÷ 6000) by (apply Z.quot_le_mono; lia).
  lia.
Qed.

End Radar.

(** X14. The radar update sends the four corners of the zone and one line
    per target: the class is abs for a distance of 0, else act for a target
    flagged inside the zone and ina otherwise; the point is
    (x * 400 / 6000 + 400, y * 400 / 6000 + 50), computed without
    wrap-around, with its text 5 below; and a target that the zone test
    accepts is drawn within the rectangle drawn for the zone. *)
Theorem X14_radar_target_inside_zone (s : state) (t0 t1 t2 : Target.t) :
  ld2450_target s = [t0; t1; t2] →
  Forall (λ t, -32768 ≤ Target.x t ≤ 32767 ∧ -32768 ≤ Target.y t ≤ 32767) [t0; t1; t2] →
  -32768 ≤ Config.x1 (ld2450_config s) ≤ 32767 →
  -32768 ≤ Config.x2 (ld2450_config s) ≤ 32767 →
  -32768 ≤ Config.y1 (ld2450_config s) ≤ 32767 →
  -32768 ≤ Config.y2 (ld2450_config s) ≤ 32767 →
  ∃ left right top bottom rows,
    LD2450GraphRadarUpdate s
    = Some ([(left, top); (right, top); (right, bottom); (left, bottom)], rows)
    ∧ length rows = 3%nat
    ∧ ∀ i t, [t0; t1; t2] !! i = Some t →
        ∃ row, rows !! i = Some row
          ∧ radar_class row = (if Target.dist t =? 0 then "abs"%string
                               else if Target.zone t then "act"%string
                               else "ina"%string)
          ∧ radar_cx row = (Target.x t * 400) ÷ 6000 + 400
          ∧ radar_cy row = (Target.y t * 400) ÷ 6000 + 50
          ∧ radar_ty row = radar_cy row + 5
          ∧ (in_zone (ld2450_config s) (Target.x t) (Target.y t) (Target.dist t) = true →
             left ≤ radar_cx row ≤ right ∧ top ≤ radar_cy row ≤ bottom).
Proof.
  intros Ht Hr Hx1 Hx2 Hy1 Hy2.
  unfold LD2450GraphRadarUpdate. rewrite Ht. simpl.
  do 5 eexists. split; [reflexivity|]. split; [reflexivity|].
  intros i t Hi.
  assert (Hone : ∀ t, (-32768 ≤ Target.x t ≤ 32767 ∧ -32768 ≤ Target.y t ≤ 32767) →
    radar_class (mkRadarTarget
                   (if Target.dist t =? 0 then "abs"%string
                    else if Target.zone t then "act"%string else "ina"%string)
                   (radar_coordinate (Target.x t) 400) (radar_coordinate (Target.y t) 50)
                   (int32 (radar_coordinate (Target.y t) 50 + 5)))
    = (if Target.dist t =? 0 then "abs"%string
       else if Target.zone t then "act"%string else "ina"%string)
    ∧ radar_coordinate (Target.x t) 400 = (Target.x t * 400) ÷ 6000 + 400
    ∧ radar_coordinate (Target.y t) 50 = (Target.y t * 400) ÷ 6000 + 50
    ∧ int32 (radar_coordinate (Target.y t) 50 + 5) = radar_coordinate (Target.y t) 50 + 5
    ∧ (in_zone (ld2450_config s) (Target.x t) (Target.y t) (Target.dist t) = true →
       radar_coordinate (Config.x1 (ld2450_config s)) 400
       ≤ radar_coordinate (Target.x t) 400
       ≤ radar_coordinate (Config.x2 (ld2450_config s)) 400
       ∧ radar_coordinate (Config.y1 (ld2450_config s)) 50
         ≤ radar_coordinate (Target.y t) 50
         ≤ radar_coordinate (Config.y2 (ld2450_config s)) 50)).
  { clear i t Hi. intros t [Hx Hy].
    split; [reflexivity|].
    split; [apply radar_coordinate_value; lia|].
    split; [apply radar_coordinate_value; lia|].
    split.
    - rewrite radar_coordinate_value by lia.
      assert (-2185 ≤ (Target.y t * 400) ÷ 6000 ≤ 2185) by (Z.quot_rem_to_equations; lia).
      apply int32_id. lia.
    - unfold in_zone. cbv zeta. intros Hz.
      apply andb_true_iff in Hz as [Hz Hzy]. apply andb_true_iff in Hz as [_ Hzx].
      apply andb_true_iff in Hzx as [Hx1' Hx2']. apply andb_true_iff in Hzy as [Hy1' Hy2'].
      apply Z.leb_le in Hx1', Hx2', Hy1', Hy2'.
      repeat split; apply radar_coordinate_mono; lia. }
  apply Forall_cons_1 in Hr as [Hr0 Hr]. apply Forall_cons_1 in Hr as [Hr1 Hr].
  apply Forall_cons_1 in Hr as [Hr2 _].
  destruct i as [|[|[|i]]]; simpl in Hi; try discriminate; injection Hi as <-;
    eexists; (split; [reflexivity|]); cbn [radar_class radar_cx radar_cy radar_ty].
  - destruct (Hone t0 Hr0) as (H1 & H2 & H3 & H4 & H5). rewrite H4. rewrite <- H2, <- H3. auto.
  - destruct (Hone t1 Hr1) as (H1 & H2 & H3 & H4 & H5). rewrite H4. rewrite <- H2, <- H3. auto.
  - destruct (Hone t2 Hr2) as (H1 & H2 & H3 & H4 & H5). rewrite H4. rewrite <- H2, <- H3. auto.
Qed.

Lemma X14_radar_target_inside_zone_witness :
  let t0 := Target.mk (-1050) 2999 0 3177 true in
  let t1 := Target.mk 4000 100 0 4001 false in
  let t2 := Target.mk 0 0 0 0 false in
  let s := set_target [t0; t1; t2]
             (set_config (Config.mk 5 (-2000) 2000 500 3000)
                (initial_state (Flash.mk 5 108 148 133 158))) in
  ∃ left right top bottom rows,
    LD2450GraphRadarUpdate s
    = Some ([(left, top); (right, top); (right, bottom); (left, bottom)], rows)
    ∧ length rows = 3%nat
    ∧ ∀ i t, [t0; t1; t2] !! i = Some t →
        ∃ row, rows !! i = Some row
          ∧ radar_class row = (if Target.dist t =? 0 then "abs"%string
                               else if Target.zone t then "act"%string
                               else "ina"%string)
          ∧ radar_cx row = (Target.x t * 400) ÷ 6000 + 400
          ∧ radar_cy row = (Target.y t * 400) ÷ 6000 + 50
          ∧ radar_ty row = radar_cy row + 5
          ∧ (in_zone (ld2450_config s) (Target.x t) (Target.y t) (Target.dist t) = true →
             left ≤ radar_cx row ≤ right ∧ top ≤ radar_cy row ≤ bottom).
Proof.
  apply X14_radar_target_inside_zone; [reflexivity| |simpl; lia..].
  repeat constructor; simpl; lia.
Defined.

(** ** The interface of the driver *)

Section Interface.

Lemma three_targets s :
  wf_state s = true → ∃ t0 t1 t2, ld2450_target s = [t0; t1; t2].
Proof.
  intros Hwf. apply wf_state_spec in Hwf. cbv zeta in Hwf.
  destruct Hwf as (_ & _ & _ & _ & Hl).
  destruct (ld2450_target s) as [|t0 [|t1 [|t2 [|]]]]; try discriminate. eauto.
Qed.

Lemma LD2450Init_spec s :
  wf_state s = true →
  LD2450Init s
  = Some (LD2450LoadConfig (set_target (replicate 3 (Target.mk 0 0 0 0 false)) s)).
Proof.
  intros Hwf. destruct (three_targets s Hwf) as (t0 & t1 & t2 & Ht).
  unfold LD2450Init. destruct s as [r c st tg f l]. simpl in Ht. subst tg. reflexivity.
Qed.

Lemma web_adjust_lower_total p0 p1 p2 :
  ∃ l1 l2, web_adjust_lower [p0; p1; p2] = Some [p0; l1; l2].
Proof.
  unfold web_adjust_lower. simpl. case_ifs; simpl; case_ifs; eauto.
Qed.

Lemma web_adjust_upper_total l0 l1 l2 :
  ∃ q0 q1 q2, web_adjust_upper [l0; l1; l2] = Some [q0; q1; q2].
Proof.
  unfold web_adjust_upper. simpl.
  destruct (negb (l2 =? UINT8_MAX)); simpl.
  - destruct (95 <? l2); simpl;
      (match goal with |- context [if ?b then _ else _] => destruct b end); simpl;
      destruct (negb (l1 =? UINT8_MAX)); simpl; try (destruct (95 <? l1); simpl);
      try (match goal with |- context [if ?b then _ else _] => destruct b end; simpl);
      destruct (negb (l0 =? UINT8_MAX)); simpl; try (destruct (95 <? l0); simpl);
      try (match goal with |- context [if ?b then _ else _] => destruct b end; simpl);
      eauto.
  - destruct (negb (l1 =? UINT8_MAX)); simpl; try (destruct (95 <? l1); simpl);
      try (match goal with |- context [if ?b then _ else _] => destruct b end; simpl);
      destruct (negb (l0 =? UINT8_MAX)); simpl; try (destruct (95 <? l0); simpl);
      try (match goal with |- context [if ?b then _ else _] => destruct b end; simpl);
      eauto.
Qed.

Lemma web_display_total t0 t1 t2 q0 q1 q2 :
  is_Some (web_display [t0; t1; t2] [q0; q1; q2]).
Proof.
  unfold web_display. simpl.
  destruct (negb (q0 =? UINT8_MAX)); simpl;
    destruct (negb (q1 =? UINT8_MAX)); simpl;
    destruct (negb (q2 =? UINT8_MAX)); simpl; eauto.
Qed.

Lemma LD2450WebSensor_total s :
  wf_state s = true → is_Some (LD2450WebSensor s).
Proof.
  intros Hwf. destruct (three_targets s Hwf) as (t0 & t1 & t2 & Ht).
  unfold LD2450WebSensor. destruct (negb (Status.enabled (ld2450_status s))); [eauto|].
  rewrite Ht.
  change (web_positions [t0; t1; t2])
    with (Some [web_position (Target.dist t0); web_position (Target.dist t1);
                web_position (Target.dist t2)]).
  cbn [mbind option_bind].
  destruct (web_adjust_lower_total (web_position (Target.dist t0))
              (web_position (Target.dist t1)) (web_position (Target.dist t2)))
    as (l1 & l2 & ->).
  cbn [mbind option_bind].
  destruct (web_adjust_upper_total (web_position (Target.dist t0)) l1 l2)
    as (q0 & q1 & q2 & ->).
  cbn [mbind option_bind].
  destruct (web_display_total t0 t1 t2 q0 q1 q2) as [cells ->]. simpl. eauto.
Qed.

Lemma LD2450ShowJSON_total append s :
  wf_state s = true → is_Some (LD2450ShowJSON append s).
Proof.
  intros Hwf. destruct (three_targets s Hwf) as (t0 & t1 & t2 & Ht).
  unfold LD2450ShowJSON. rewrite Ht.
  destruct (negb (Status.pserial (ld2450_status s))); [eauto|].
  destruct append; [|eauto]. simpl. eauto.
Qed.

Lemma append_assoc (a b c : string) : ((a ++ b) ++ c = a ++ (b ++ c))%string.
Proof. induction a as [|ch a IH]; simpl; [reflexivity|]. rewrite IH. reflexivity. Qed.

(** The loop over the targets of [LD2450ShowJSON] and the end of the
    section, after any start. *)
Lemma json_targets_loop t0 t1 t2 (start : string) :
  ∃ tail,
    (response ← for_loop (seqZ 0 LD2450_TARGET_MAX)
                  (λ index response,
                     t ← array_load [t0; t1; t2] index;
                     Some (if 0 <? Target.dist t
                           then (response ++ json_target index t)%string
                           else response))
                  start;
     Some (response ++ "}")%string) = Some (start ++ tail)%string
    ∧ ((Forall (λ t, ¬ 0 < Target.dist t) [t0; t1; t2] ∧ tail = "}"%string)
       ∨ (Exists (λ t, 0 < Target.dist t) [t0; t1; t2]
          ∧ ∃ rest, tail = String ","%char rest)).
Proof.
  assert (Htarget : ∀ index t, ∃ rest, json_target index t = String ","%char rest)
    by (intros; eexists; reflexivity).
  revert Htarget. generalize json_target. intros target Htarget.
  change (seqZ 0 LD2450_TARGET_MAX) with [0; 1; 2].
  destruct (Htarget 0 t0) as [r0 E0], (Htarget 1 t1) as [r1 E1], (Htarget 2 t2) as [r2 E2].
  simpl. rewrite E0, E1, E2.
  destruct (Z.ltb_spec 0 (Target.dist t0)), (Z.ltb_spec 0 (Target.dist t1)),
    (Z.ltb_spec 0 (Target.dist t2)).
  all: eexists; (split; [rewrite ?append_assoc; reflexivity|]).
  all: first
    [ left; split; [repeat constructor; lia|reflexivity]
    | right; split;
      [ first [ apply Exists_cons_hd; assumption
              | apply Exists_cons_tl, Exists_cons_hd; assumption
              | apply Exists_cons_tl, Exists_cons_tl, Exists_cons_hd; assumption ]
      | eexists; reflexivity ] ].
Qed.

Lemma wf_state_ext s s' :
  ld2450_received s' = ld2450_received s → ld2450_target s' = ld2450_target s →
  wf_state s' = wf_state s.
Proof. intros Hr Ht. unfold wf_state. rewrite Hr, Ht. reflexivity. Qed.

Lemma zero_target_decoded : target_decoded (Target.mk 0 0 0 0 false).
Proof. unfold target_decoded. simpl. repeat split; intros; (lia || discriminate). Qed.

(** A configuration that was loaded is within the bounds kept between the
    calls. *)
Lemma loaded_consistent s s' :
  driver_consistent s →
  ld2450_received s' = ld2450_received s → ld2450_target s' = ld2450_target s →
  ld2450_status s' = ld2450_status s →
  flash_bytes (Settings s') →
  0 ≤ Config.timeout (ld2450_config s') ≤ 255 →
  -6000 ≤ Config.x1 (ld2450_config s') ≤ 12700 →
  -5900 ≤ Config.x2 (ld2450_config s') ≤ 6000 →
  0 ≤ Config.y1 (ld2450_config s') ≤ 12700 →
  100 ≤ Config.y2 (ld2450_config s') ≤ 6000 →
  driver_consistent s'.
Proof.
  intros (Hwf & Ht & Hc & _ & _ & _ & _ & _ & _ & He) Er Et Es Hf H1 H2 H3 H4 H5.
  unfold driver_consistent. rewrite (wf_state_ext s s' Er Et), Et, Es. auto 12.
Qed.

Lemma save_load_consistent c s :
  driver_consistent s →
  driver_consistent (LD2450LoadConfig (LD2450SaveConfig (set_config c s))).
Proof.
  intros Hs.
  pose proof (LD2450LoadConfig_loaded (LD2450SaveConfig (set_config c s))
                (LD2450SaveConfig_bytes _)) as (T & X1 & X2 & Y1 & Y2 & _).
  apply (loaded_consistent s); try assumption; try reflexivity; try lia.
  apply (LD2450SaveConfig_bytes (set_config c s)).
Qed.

(** Every function of the command table. *)
Lemma command_consistent index command payload data s :
  HLKLD2450Command !! index = Some command →
  driver_consistent s →
  driver_consistent (command payload data s)
  ∧ ld2450_status (command payload data s) = ld2450_status s
  ∧ ld2450_target (command payload data s) = ld2450_target s.
Proof.
  intros Hc Hs.
  destruct index as [|[|[|[|[|index]]]]]; simpl in Hc; try discriminate;
    injection Hc as <-.
  - auto.
  - unfold CmndLD2450Timeout. destruct (0 <? payload); [|auto].
    split; [|split; reflexivity].
    pose proof Hs as (_ & _ & _ & _ & X1 & X2 & Y1 & Y2 & _).
    apply (loaded_consistent s); try assumption; try reflexivity.
    + apply LD2450SaveConfig_bytes.
    + simpl. pose proof (uint8_byte payload). lia.
  - unfold CmndLD2450Reset. split; [|split; reflexivity].
    pose proof Hs as (_ & _ & _ & T & _).
    apply (loaded_consistent s); try assumption; try reflexivity;
      try (unfold LD2450_DIST_MAX; simpl; lia).
    apply LD2450SaveConfig_bytes.
  - unfold CmndLD2450Dist. destruct (0 <? length (strlcpy data 24))%nat; [|auto].
    split; [apply save_load_consistent, Hs|split; reflexivity].
  - unfold CmndLD2450Zone. destruct (0 <? length (strlcpy data 24))%nat; [|auto].
    split; [apply save_load_consistent, Hs|split; reflexivity].
Qed.

Lemma LD2450Init_consistent s :
  driver_consistent s →
  ∃ s', LD2450Init s = Some s'
        ∧ driver_consistent s'
        ∧ ld2450_status s' = ld2450_status s.
Proof.
  intros Hs. pose proof Hs as (Hwf & _ & Hc & _ & _ & _ & _ & _ & Hf & He).
  eexists. split; [apply LD2450Init_spec, Hwf|]. split; [|reflexivity].
  set (s0 := set_target (replicate 3 (Target.mk 0 0 0 0 false)) s).
  pose proof (LD2450LoadConfig_loaded s0 Hf) as (T & X1 & X2 & Y1 & Y2 & _).
  unfold driver_consistent.
  split.
  { apply wf_state_spec in Hwf. apply wf_state_spec. cbv zeta in *.
    destruct Hwf as (H1 & H2 & H3 & H4 & _). auto. }
  split; [repeat constructor; apply zero_target_decoded|].
  split; [exact Hc|].
  repeat (split; [lia|]). split; [exact Hf|exact He].
Qed.

Lemma LD2450ReceiveData_consistent input s :
  driver_consistent s →
  ∃ s', LD2450ReceiveData input s = Some s'
        ∧ driver_consistent s'
        ∧ Status.pserial (ld2450_status s') = Status.pserial (ld2450_status s)
        ∧ Status.enabled (ld2450_status s') = Status.enabled (ld2450_status s).
Proof.
  intros (Hwf & Ht & Hc & T & X1 & X2 & Y1 & Y2 & Hf & He).
  destruct (LD2450ReceiveData_invariant
              (λ s', Forall target_decoded (ld2450_target s')
                     ∧ 0 ≤ Status.counter (ld2450_status s') ≤ 3
                     ∧ ld2450_config s' = ld2450_config s
                     ∧ Settings s' = Settings s
                     ∧ Status.pserial (ld2450_status s') = Status.pserial (ld2450_status s)
                     ∧ Status.enabled (ld2450_status s') = Status.enabled (ld2450_status s)))
    with (input := input) (s := s) as (s' & Hs' & Hwf' & HP); try assumption.
  - intros clk d s0 s1 Hwf0 (Ht0 & Hc0 & Ec & Ef & Ep & Ee) Hstep.
    destruct (LD2450ReceiveByte_effect clk d s0 Hwf0)
      as (s2 & Hs2 & _ & Ec2 & Ef2 & Ep2 & Ee2 & Heff).
    rewrite Hstep in Hs2. injection Hs2 as <-.
    split; [|split; [|repeat split; congruence]].
    + destruct Heff as [(-> & _) | (body & t0 & t1 & t2 & Hb & H0 & H1 & H2 & -> & _)];
        [exact Ht0|].
      repeat constructor; eapply read_target_decoded; eauto; lia.
    + destruct Heff as [(_ & -> & _) | (body & t0 & t1 & t2 & _ & _ & _ & _ & _ & -> & _)];
        [exact Hc0|].
      pose proof (active_targets_range [t0; t1; t2]). simpl in *. lia.
  - auto 10.
  - destruct HP as (Ht' & Hc' & Ec & Ef & Ep & Ee).
    exists s'. split; [exact Hs'|]. split; [|auto].
    unfold driver_consistent. rewrite Ec, Ef, Ep, Ee. auto 12.
Qed.

Ltac done_call := split; [assumption|split; congruence].

Lemma Xsns124_consistent function m s :
  driver_consistent s →
  ∃ result page s', Xsns124 function m s = Some (result, page, s')
                    ∧ driver_consistent s'
                    ∧ Status.pserial (ld2450_status s') = Status.pserial (ld2450_status s)
                    ∧ Status.enabled (ld2450_status s') = Status.enabled (ld2450_status s).
Proof.
  intros Hs. pose proof Hs as (Hwf & _).
  destruct function; unfold Xsns124.
  - destruct (LD2450Init_consistent s Hs) as (s' & -> & Hs' & Es). simpl.
    simpl. do 3 eexists. split; [reflexivity|]. rewrite Es. done_call.
  - unfold DecodeCommand.
    destruct (found m ≫= (λ index, HLKLD2450Command !! index)) as [command|] eqn:E.
    + destruct (found m) as [index|]; [|discriminate]. simpl in E.
      destruct (command_consistent index command (payload m) (data m) s E Hs)
        as (Hs' & Es & _).
      simpl. do 3 eexists. split; [reflexivity|]. rewrite Es. done_call.
    + simpl. do 3 eexists. split; [reflexivity|]. done_call.
  - destruct (Status.enabled (ld2450_status s)) eqn:Een.
    + destruct (LD2450ShowJSON_total true s Hwf) as [text ->]. simpl. do 3 eexists. split; [reflexivity|]. done_call.
    + simpl. do 3 eexists. split; [reflexivity|]. done_call.
  - destruct (Status.enabled (ld2450_status s)) eqn:Een.
    + destruct (LD2450ReceiveData_consistent (serial m) s Hs) as (s' & -> & Hs' & Ep & Ee).
      simpl. simpl. do 3 eexists. split; [reflexivity|]. done_call.
    + simpl. do 3 eexists. split; [reflexivity|]. done_call.
  - destruct (Status.enabled (ld2450_status s)) eqn:Een.
    + destruct (LD2450WebSensor_total s Hwf) as [rows ->]. simpl. do 3 eexists. split; [reflexivity|]. done_call.
    + simpl. do 3 eexists. split; [reflexivity|]. done_call.
  - simpl. do 3 eexists. split; [reflexivity|]. done_call.
  - simpl. do 3 eexists. split; [reflexivity|]. done_call.
  - simpl. do 3 eexists. split; [reflexivity|]. done_call.
Qed.

Lemma LD2450InitDevice_consistent rx_used tx_used begin_ok d :
  driver_consistent (driver d) →
  driver_consistent (driver (LD2450InitDevice rx_used tx_used begin_ok d).2).
Proof.
  intros Hs. unfold LD2450InitDevice. cbv zeta. cbn [snd].
  destruct (negb (Status.pserial (ld2450_status (driver d))) && rx_used && tx_used);
    [|exact Hs].
  destruct Hs as (Hwf & Ht & Hc & T & X1 & X2 & Y1 & Y2 & Hf & He).
  unfold driver_consistent. cbn [driver].
  rewrite (wf_state_ext (driver d)) by reflexivity.
  split; [exact Hwf|]. split; [exact Ht|]. split; [exact Hc|].
  repeat (split; [assumption|]). intros _. reflexivity.
Qed.

(** Induction on the calls. *)
Lemma do_calls_invariant (P : device → Prop) :
  (∀ c d d', driver_consistent (driver d) → P d → do_call c d = Some d' → P d') →
  ∀ calls d, driver_consistent (driver d) → P d →
             ∃ d', do_calls calls d = Some d' ∧ driver_consistent (driver d') ∧ P d'.
Proof.
  intros Hstep calls. induction calls as [|c rest IH]; intros d Hd HP.
  { exists d. auto. }
  assert (∃ d1, do_call c d = Some d1 ∧ driver_consistent (driver d1)) as (d1 & Hd1 & Hc1).
  { destruct c as [rx_used tx_used begin_ok | function m]; simpl.
    - eexists. split; [reflexivity|]. apply LD2450InitDevice_consistent, Hd.
    - destruct (Xsns124_consistent function m (driver d) Hd)
        as (result & page & s' & -> & Hs' & _).
      simpl. eauto. }
  destruct (IH d1 Hc1 (Hstep c d d1 Hd HP Hd1)) as (d2 & Hd2 & Hc2 & HP2).
  exists d2. simpl. rewrite Hd1. simpl. auto.
Qed.

End Interface.

(** X15. Whatever calls are made, in any order and with any arguments
    (initialisation of the device, and the driver called for any function,
    with any command, payload, argument and serial input), no call reads or
    writes outside an array, and between the calls: the receive buffer is
    well formed, the three target records are consistent, the counter is
    at most 3, the timeout is within 0 .. 255 and the zone within
    -6000 <= x1 <= 12700, -5900 <= x2 <= 6000, 0 <= y1 <= 12700,
    100 <= y2 <= 6000, the five flash bytes are bytes, and the driver is
    enabled only with a serial port. *)
Theorem X15_driver_stays_consistent calls d :
  driver_consistent (driver d) →
  ∃ d', do_calls calls d = Some d' ∧ driver_consistent (driver d').
Proof.
  intros Hd.
  destruct (do_calls_invariant (λ _, True)) with (calls := calls) (d := d)
    as (d' & Hd' & Hc' & _); auto.
  exists d'. auto.
Qed.

Lemma X15_driver_stays_consistent_witness :
  let d := mkDevice (initial_state (Flash.mk 0 255 3 200 17)) 115200 in
  let calls :=
    [ CallXsns124 FUNC_INIT (mkMailbox None 0 EmptyString []);
      CallInitDevice true true true;
      CallXsns124 FUNC_LOOP (mkMailbox None 0 EmptyString sample_frame_input);
      CallXsns124 FUNC_COMMAND (mkMailbox (Some 4%nat) 0 "7000,-300,50"%string []);
      CallXsns124 FUNC_COMMAND (mkMailbox (Some 1%nat) 256 EmptyString []);
      CallXsns124 FUNC_WEB_SENSOR (mkMailbox None 0 EmptyString []);
      CallXsns124 FUNC_JSON_APPEND (mkMailbox None 0 EmptyString []) ] in
  ∃ d', do_calls calls d = Some d' ∧ driver_consistent (driver d').
Proof.
  apply X15_driver_stays_consistent.
  unfold driver_consistent, flash_bytes. simpl.
  split; [reflexivity|].
  split; [repeat constructor; simpl; try lia; intros; try lia; discriminate|].
  repeat split; (lia || discriminate).
Defined.

(** X16. The serial port is started once: when the serial port object
    exists, no later call, of the initialisation of the device or of the
    driver, changes the enabled flag or the baud rate setting. A start that
    failed is not tried again, and the driver stays disabled. *)
Theorem X16_serial_start_is_tried_once calls d :
  driver_consistent (driver d) →
  Status.pserial (ld2450_status (driver d)) = true →
  ∃ d', do_calls calls d = Some d'
        ∧ Status.pserial (ld2450_status (driver d')) = true
        ∧ Status.enabled (ld2450_status (driver d'))
          = Status.enabled (ld2450_status (driver d))
        ∧ baudrate d' = baudrate d.
Proof.
  intros Hd Hp.
  destruct (do_calls_invariant
              (λ d', Status.pserial (ld2450_status (driver d')) = true
                     ∧ Status.enabled (ld2450_status (driver d'))
                       = Status.enabled (ld2450_status (driver d))
                     ∧ baudrate d' = baudrate d))
    with (calls := calls) (d := d) as (d' & Hd' & _ & HP); auto.
  - clear. intros c d0 d1 Hc (Hp & He & Hb) Hstep.
    destruct c as [rx_used tx_used begin_ok | function m]; simpl in Hstep.
    + injection Hstep as <-. unfold LD2450InitDevice. rewrite Hp. simpl. auto.
    + destruct (Xsns124_consistent function m (driver d0) Hc)
        as (result & page & s' & Hx & _ & Ep & Ee).
      rewrite Hx in Hstep. simpl in Hstep. injection Hstep as <-. simpl.
      repeat split; congruence.
  - exists d'. auto.
Qed.

Lemma X16_serial_start_is_tried_once_witness :
  let d := mkDevice (set_status (Status.mk true false 0 0)
                       (initial_state (Flash.mk 5 68 188 128 188))) 853 in
  let calls :=
    [ CallInitDevice true true true;
      CallXsns124 FUNC_INIT (mkMailbox None 0 EmptyString []);
      CallXsns124 FUNC_LOOP (mkMailbox None 0 EmptyString sample_frame_input);
      CallInitDevice true true true ] in
  ∃ d', do_calls calls d = Some d'
        ∧ Status.pserial (ld2450_status (driver d')) = true
        ∧ Status.enabled (ld2450_status (driver d'))
          = Status.enabled (ld2450_status (driver d))
        ∧ baudrate d' = baudrate d.
Proof.
  apply X16_serial_start_is_tried_once; [|reflexivity].
  unfold driver_consistent, flash_bytes. simpl.
  split; [reflexivity|].
  split; [repeat constructor; simpl; try lia; intros; try lia; discriminate|].
  repeat split; (lia || discriminate).
Defined.

(** X17. In the JSON section, the comma written after the value of detect
    is directly followed by the closing brace when no target has a
    distance, and by a second comma, the one that starts the first target
    member, when some target has. *)
Theorem X17_json_section_shape s :
  wf_state s = true →
  Status.pserial (ld2450_status s) = true →
  ∃ head tail,
    LD2450ShowJSON true s = Some (head ++ "," ++ tail)%string
    ∧ json_start (Status.counter (ld2450_status s)) = (head ++ ",")%string
    ∧ ((Forall (λ t, ¬ 0 < Target.dist t) (ld2450_target s) ∧ tail = "}"%string)
       ∨ (Exists (λ t, 0 < Target.dist t) (ld2450_target s)
          ∧ ∃ rest, tail = String ","%char rest)).
Proof.
  intros Hwf Hp. destruct (three_targets s Hwf) as (t0 & t1 & t2 & Ht).
  set (head := ("," ++ quote ++ "ld2450" ++ quote ++ ":{" ++ quote ++ "detect" ++ quote ++ ":"
                ++ sprintf_d (Status.counter (ld2450_status s)))%string).
  assert (Hstart : json_start (Status.counter (ld2450_status s)) = (head ++ ",")%string).
  { unfold json_start, head. rewrite !append_assoc. reflexivity. }
  destruct (json_targets_loop t0 t1 t2 (json_start (Status.counter (ld2450_status s))))
    as (tail & Hloop & Hshape).
  exists head, tail. rewrite Ht. split; [|split; [exact Hstart|exact Hshape]].
  unfold LD2450ShowJSON. rewrite Hp, Ht. cbn [negb].
  etransitivity; [exact Hloop|]. rewrite Hstart, append_assoc. reflexivity.
Qed.

Lemma X17_json_section_shape_witness :
  ∃ head tail,
    LD2450ShowJSON true example_full_state = Some (head ++ "," ++ tail)%string
    ∧ json_start (Status.counter (ld2450_status example_full_state)) = (head ++ ",")%string
    ∧ ((Forall (λ t, ¬ 0 < Target.dist t) (ld2450_target example_full_state)
        ∧ tail = "}"%string)
       ∨ (Exists (λ t, 0 < Target.dist t) (ld2450_target example_full_state)
          ∧ ∃ rest, tail = String ","%char rest)).
Proof.
  apply X17_json_section_shape; reflexivity.
Defined.

(** * Properties of the TCP server *)

Section TcpSend.

Lemma mapM_array_load_take {A} (l : list A) (n : nat) :
  (n ≤ length l)%nat →
  mapM (array_load l) (seqZ 0 (Z.of_nat n)) = Some (take n l).
Proof.
  intros Hn. apply mapM_Some_2. apply Forall2_same_length_lookup_2.
  - rewrite length_seqZ, length_take. lia.
  - intros i x y Hx Hy. apply lookup_seqZ in Hx as [-> Hi].
    apply lookup_take_Some in Hy as [Hy _].
    apply array_load_ok; [lia|]. rewrite Z.add_0_l, Nat2Z.id. exact Hy.
Qed.

(** What a call of [send] does, while the server runs. *)
Lemma send_running c srv p :
  wf_server srv →
  TCPServer.server srv = Some p →
  let chunk := pending srv ++ [c] in
  let buf := <[Z.to_nat (TCPServer.buffer_index srv) := c]> (TCPServer.buffer srv) in
  TCPServer.send c srv =
  Some (if (TCPServer.buffer_index srv + 1 =? 64) || (c =? 13)
        then TCPServer.mk (Some p)
               ((λ cl, if WiFiClient.connected cl then WiFiClient.write chunk cl else cl)
                  <$> TCPServer.client srv)
               (TCPServer.client_next srv) buf 0
        else TCPServer.mk (Some p) (TCPServer.client srv) (TCPServer.client_next srv) buf
               (TCPServer.buffer_index srv + 1)).
Proof.
  intros (Hb & Hc & Hi & Hn & H13) Hsrv chunk buf.
  unfold TCPServer.send. rewrite Hsrv.
  rewrite array_store_ok by lia. simpl.
  rewrite uint8_id by lia. fold buf. unfold TCP_DATA_MAX.
  destruct ((TCPServer.buffer_index srv + 1 =? 64) || (c =? 13)) eqn:E; [|reflexivity].
  assert (mapM (array_load buf) (seqZ 0 (TCPServer.buffer_index srv + 1)) = Some chunk) as Hchunk.
  { replace (TCPServer.buffer_index srv + 1)
      with (Z.of_nat (S (Z.to_nat (TCPServer.buffer_index srv)))) by lia.
    rewrite mapM_array_load_take by (unfold buf; rewrite length_insert; lia).
    f_equal. unfold chunk, pending, buf.
    rewrite (take_S_r _ _ c) by (apply list_lookup_insert_eq; lia).
    rewrite take_insert_ge by lia. reflexivity. }
  destruct (TCPServer.client srv) as [|c0 [|c1 [|]]] eqn:Ecl; try discriminate.
  change (seqZ 0 TCP_CLIENT_MAX) with [0; 1]. unfold for_loop.
  simpl.
  destruct (WiFiClient.connected c0) eqn:E0;
    simpl; rewrite ?Hchunk; simpl;
    destruct (WiFiClient.connected c1) eqn:E1;
    simpl; rewrite ?Hchunk; simpl; reflexivity.
Qed.

Lemma send_stopped c srv :
  TCPServer.server srv = None → TCPServer.send c srv = Some srv.
Proof. intros H. unfold TCPServer.send. rewrite H. reflexivity. Qed.

(** What a sequence of calls of [send] does, while the server runs. *)
Lemma send_all_running chars srv p :
  wf_server srv →
  TCPServer.server srv = Some p →
  ∃ srv' chunks,
    send_all chars srv = Some srv'
    ∧ wf_server srv'
    ∧ TCPServer.server srv' = Some p
    ∧ TCPServer.client_next srv' = TCPServer.client_next srv
    ∧ TCPServer.client srv'
      = (λ cl, if WiFiClient.connected cl
               then WiFiClient.mk true (WiFiClient.written cl ++ chunks) else cl)
          <$> TCPServer.client srv
    ∧ concat chunks ++ pending srv' = pending srv ++ chars
    ∧ Forall chunk_shape chunks.
Proof.
  revert srv. induction chars as [|c rest IH]; intros srv Hwf Hsrv.
  { exists srv, []. simpl. rewrite app_nil_r.
    split; [reflexivity|]. split; [exact Hwf|]. split; [exact Hsrv|].
    split; [reflexivity|]. split; [|split; [reflexivity|constructor]].
    transitivity (id <$> TCPServer.client srv); [symmetry; apply list_fmap_id|].
    apply list_fmap_ext.
    intros i [[] w] _; simpl; rewrite ?app_nil_r; reflexivity. }
  pose proof (send_running c srv p Hwf Hsrv) as Hsend. cbv zeta in Hsend.
  destruct Hwf as (Hb & Hc & Hi & Hn & H13).
  assert (length (pending srv) = Z.to_nat (TCPServer.buffer_index srv)) as Hlp.
  { unfold pending. rewrite length_take. lia. }
  destruct ((TCPServer.buffer_index srv + 1 =? 64) || (c =? 13)) eqn:E.
  - (* the buffer is flushed *)
    match type of Hsend with _ = Some ?st => set (srv1 := st) in * end.
    assert (pending srv1 = []) as Hp1 by reflexivity.
    destruct (IH srv1) as (srv' & chunks & Hs' & Hwf' & Hsrv' & Hn' & Hcl' & Hcat & Hsh).
    { unfold wf_server. simpl. rewrite length_insert, length_fmap, Hp1.
      repeat split; try assumption; try lia. apply not_elem_of_nil. }
    { reflexivity. }
    exists srv', ((pending srv ++ [c]) :: chunks).
    simpl. rewrite Hsend. simpl. split; [exact Hs'|]. split; [exact Hwf'|].
    split; [exact Hsrv'|]. split; [exact Hn'|]. split; [|split].
    + rewrite Hcl'. simpl. rewrite <- list_fmap_compose. apply list_fmap_ext.
      intros i [[] w] _; simpl; [|reflexivity].
      rewrite <- app_assoc. reflexivity.
    + rewrite Hp1 in Hcat. simpl in Hcat. rewrite <- !app_assoc. simpl.
      rewrite <- Hcat. reflexivity.
    + constructor; [|exact Hsh].
      exists (pending srv), c. split; [reflexivity|]. split; [exact H13|].
      rewrite length_app, Hlp. simpl. split; [lia|].
      apply orb_true_iff in E as [E | E]; [right|left]; lia.
  - (* the character waits in the buffer *)
    apply orb_false_iff in E as [E1 E2].
    match type of Hsend with _ = Some ?st => set (srv1 := st) in * end.
    assert (pending srv1 = pending srv ++ [c]) as Hp1.
    { unfold pending, srv1. simpl.
      replace (Z.to_nat (TCPServer.buffer_index srv + 1))
        with (S (Z.to_nat (TCPServer.buffer_index srv))) by lia.
      rewrite (take_S_r _ _ c) by (apply list_lookup_insert_eq; lia).
      rewrite take_insert_ge by lia. reflexivity. }
    destruct (IH srv1) as (srv' & chunks & Hs' & Hwf' & Hsrv' & Hn' & Hcl' & Hcat & Hsh).
    { unfold wf_server. rewrite Hp1. simpl. rewrite length_insert.
      repeat split; try assumption; try lia.
      rewrite elem_of_app, list_elem_of_singleton. intros [H | H]; [contradiction|lia]. }
    { reflexivity. }
    exists srv', chunks.
    simpl. rewrite Hsend. simpl. split; [exact Hs'|]. split; [exact Hwf'|].
    split; [exact Hsrv'|]. split; [exact Hn'|]. split; [exact Hcl'|]. split; [|exact Hsh].
    rewrite Hcat, Hp1, <- app_assoc. reflexivity.
Qed.

End TcpSend.

(** X18. While the server runs, the characters given to [send] reach every
    connected client complete and in order: the chunks written to it, put
    end to end, followed by what still waits in the buffer, are what waited
    in the buffer before followed by the characters sent. A client that is
    not connected is left as it is. *)
Theorem X18_send_relays_every_character chars srv p (k : nat) cl :
  wf_server srv →
  TCPServer.server srv = Some p →
  TCPServer.client srv !! k = Some cl →
  ∃ srv' chunks,
    send_all chars srv = Some srv'
    ∧ TCPServer.client srv' !! k
      = Some (if WiFiClient.connected cl
              then WiFiClient.mk true (WiFiClient.written cl ++ chunks) else cl)
    ∧ concat chunks ++ pending srv' = pending srv ++ chars.
Proof.
  intros Hwf Hsrv Hk.
  destruct (send_all_running chars srv p Hwf Hsrv)
    as (srv' & chunks & Hs & _ & _ & _ & Hcl & Hcat & _).
  exists srv', chunks. split; [exact Hs|]. split; [|exact Hcat].
  rewrite Hcl, list_lookup_fmap, Hk. reflexivity.
Qed.

Lemma X18_send_relays_every_character_witness :
  ∃ srv' chunks,
    send_all [0x44; 13; 0x45] example_server = Some srv'
    ∧ TCPServer.client srv' !! 0%nat
      = Some (WiFiClient.mk true ([[0x41; 13]] ++ chunks))
    ∧ concat chunks ++ pending srv' = pending example_server ++ [0x44; 13; 0x45].
Proof.
  apply (X18_send_relays_every_character [0x44; 13; 0x45] example_server 8888 0
           (WiFiClient.mk true [[0x41; 13]])).
  - unfold wf_server, pending. simpl. repeat split; try lia.
    rewrite !elem_of_cons, elem_of_nil. intros [H | [H | [H | H]]]; (lia || exact H).
  - reflexivity.
  - reflexivity.
Defined.

(** X19. Every call of [send] stays inside the 64-byte buffer and keeps
    fewer than 64 characters waiting, none of them a carriage return. Each
    chunk written to a client has at most 64 characters, ends with a
    carriage return or is a full buffer of 64, and has no carriage return
    before its end. While the server is stopped, [send] changes nothing. *)
Theorem X19_send_buffer_and_chunks chars srv :
  wf_server srv →
  ∃ srv',
    send_all chars srv = Some srv'
    ∧ wf_server srv'
    ∧ (TCPServer.server srv = None → srv' = srv)
    ∧ ∀ (k : nat) cl,
        TCPServer.client srv !! k = Some cl →
        ∃ chunks, TCPServer.client srv' !! k
                  = Some (WiFiClient.mk (WiFiClient.connected cl)
                                        (WiFiClient.written cl ++ chunks))
                  ∧ Forall chunk_shape chunks.
Proof.
  intros Hwf. destruct (TCPServer.server srv) as [p|] eqn:Hsrv.
  - destruct (send_all_running chars srv p Hwf Hsrv)
      as (srv' & chunks & Hs & Hwf' & _ & _ & Hcl & _ & Hsh).
    exists srv'. split; [exact Hs|]. split; [exact Hwf'|]. split; [discriminate|].
    intros k cl Hk. rewrite Hcl, list_lookup_fmap, Hk. simpl.
    destruct cl as [[] w]; simpl.
    + exists chunks. auto.
    + exists []. rewrite app_nil_r. split; [reflexivity|constructor].
  - exists srv. split.
    + clear Hwf. induction chars as [|c rest IH]; [reflexivity|].
      simpl. rewrite send_stopped by exact Hsrv. exact IH.
    + split; [exact Hwf|]. split; [reflexivity|].
      intros k cl Hk. exists []. rewrite app_nil_r, Hk. destruct cl. split; [reflexivity|constructor].
Qed.

Lemma X19_send_buffer_and_chunks_witness :
  ∃ srv',
    send_all [0x44; 13; 0x45] example_server = Some srv'
    ∧ wf_server srv'
    ∧ (TCPServer.server example_server = None → srv' = example_server)
    ∧ ∀ (k : nat) cl,
        TCPServer.client example_server !! k = Some cl →
        ∃ chunks, TCPServer.client srv' !! k
                  = Some (WiFiClient.mk (WiFiClient.connected cl)
                                        (WiFiClient.written cl ++ chunks))
                  ∧ Forall chunk_shape chunks.
Proof.
  apply (X19_send_buffer_and_chunks [0x44; 13; 0x45] example_server).
  unfold wf_server, pending. simpl. repeat split; try lia.
  rewrite !elem_of_cons, elem_of_nil. intros [H | [H | [H | H]]]; (lia || exact H).
Defined.

Section TcpClients.

Lemma two_clients (l : list WiFiClient.t) :
  length l = 2%nat → ∃ c0 c1, l = [c0; c1].
Proof.
  destruct l as [|c0 [|c1 [|]]]; try discriminate. eauto.
Qed.

Lemma rem_2_cases n : 0 ≤ n → Z.rem n 2 = 0 ∨ Z.rem n 2 = 1.
Proof. intros H. Z.quot_rem_to_equations. lia. Qed.

Lemma rem_2_next n :
  0 ≤ n < 256 → Z.rem (uint8 (n + 1)) 2 = 1 - Z.rem n 2.
Proof.
  intros H. unfold uint8.
  destruct (Z.eq_dec n 255) as [-> | Hn]; [reflexivity|].
  rewrite Z.mod_small by lia. Z.quot_rem_to_equations. lia.
Qed.

(** [manage_client] with a connection coming in, while the server runs. *)
Lemma manage_client_running new_client srv p c0 c1 :
  TCPServer.server srv = Some p →
  TCPServer.client srv = [c0; c1] →
  0 ≤ TCPServer.client_next srv →
  TCPServer.manage_client (Some new_client) srv =
  Some (if negb (WiFiClient.connected c0)
        then (None, TCPServer.set_client [new_client; c1] srv)
        else if negb (WiFiClient.connected c1)
        then (None, TCPServer.set_client [c0; new_client] srv)
        else let srv' := TCPServer.mk (Some p) [c0; c1]
                           (uint8 (TCPServer.client_next srv + 1))
                           (TCPServer.buffer srv) (TCPServer.buffer_index srv) in
             if Z.rem (TCPServer.client_next srv) 2 =? 0
             then (Some (WiFiClient.stop c0), TCPServer.set_client [new_client; c1] srv')
             else (Some (WiFiClient.stop c1), TCPServer.set_client [c0; new_client] srv')).
Proof.
  intros Hsrv Hcl Hn. unfold TCPServer.manage_client. rewrite Hsrv, Hcl.
  change (seqZ 0 TCP_CLIENT_MAX) with [0; 1]. simpl.
  destruct (WiFiClient.connected c0); simpl; [|reflexivity].
  destruct (WiFiClient.connected c1); simpl; [|reflexivity].
  unfold TCP_CLIENT_MAX.
  destruct (rem_2_cases (TCPServer.client_next srv) Hn) as [-> | ->]; reflexivity.
Qed.

End TcpClients.

(** X20. While the server runs, a connection that comes in always gets a
    slot, and the other slot, the buffer and the listening socket are left
    as they are. If a slot is free, the first free one is taken and no
    client is stopped; if both are taken, the client in slot
    [client_next mod 2] is stopped and replaced, and [client_next]
    advances. *)
Theorem X20_incoming_connection_gets_a_slot new_client srv p :
  wf_server srv →
  TCPServer.server srv = Some p →
  ∃ stopped srv' (k : nat),
    TCPServer.manage_client (Some new_client) srv = Some (stopped, srv')
    ∧ wf_server srv'
    ∧ (k < 2)%nat
    ∧ TCPServer.client srv' = <[k := new_client]> (TCPServer.client srv)
    ∧ TCPServer.server srv' = Some p
    ∧ TCPServer.buffer srv' = TCPServer.buffer srv
    ∧ TCPServer.buffer_index srv' = TCPServer.buffer_index srv
    ∧ ((∃ cl, TCPServer.client srv !! k = Some cl ∧ WiFiClient.connected cl = false
              ∧ (∀ (j : nat) cl', (j < k)%nat → TCPServer.client srv !! j = Some cl' →
                                  WiFiClient.connected cl' = true)
              ∧ stopped = None
              ∧ TCPServer.client_next srv' = TCPServer.client_next srv)
       ∨ (Forall (λ cl, WiFiClient.connected cl = true) (TCPServer.client srv)
          ∧ Z.of_nat k = TCPServer.client_next srv `mod` 2
          ∧ (∃ old, TCPServer.client srv !! k = Some old
                    ∧ stopped = Some (WiFiClient.stop old))
          ∧ TCPServer.client_next srv' = uint8 (TCPServer.client_next srv + 1))).
Proof.
  intros (Hb & Hc & Hi & Hn & H13) Hsrv.
  destruct (two_clients _ Hc) as (c0 & c1 & Hcl).
  rewrite (manage_client_running new_client srv p c0 c1 Hsrv Hcl) by lia.
  destruct srv as [sv cls nxt buf idx]. simpl in *. subst sv cls.
  assert (∀ cls' nxt', length cls' = 2%nat → 0 ≤ nxt' < 256 →
            wf_server (TCPServer.mk (Some p) cls' nxt' buf idx)) as Hwf.
  { intros cls' nxt' Hl Hx. unfold wf_server, pending. simpl. auto. }
  unfold TCPServer.set_client. simpl.
  destruct (WiFiClient.connected c0) eqn:E0; simpl.
  - destruct (WiFiClient.connected c1) eqn:E1; simpl.
    + pose proof (uint8_byte (nxt + 1)) as Hu.
      destruct (rem_2_cases nxt ltac:(lia)) as [Hr | Hr]; rewrite Hr; simpl.
      * eexists _, _, 0%nat. split; [reflexivity|]. split; [apply Hwf; [reflexivity|lia]|].
        split; [lia|]. simpl. do 4 (split; [reflexivity|]). right.
        split; [repeat constructor; assumption|].
        split; [rewrite <- Z.rem_mod_nonneg by lia; rewrite Hr; reflexivity|].
        split; [eauto|reflexivity].
      * eexists _, _, 1%nat. split; [reflexivity|]. split; [apply Hwf; [reflexivity|lia]|].
        split; [lia|]. simpl. do 4 (split; [reflexivity|]). right.
        split; [repeat constructor; assumption|].
        split; [rewrite <- Z.rem_mod_nonneg by lia; rewrite Hr; reflexivity|].
        split; [eauto|reflexivity].
    + eexists _, _, 1%nat. split; [reflexivity|]. split; [apply Hwf; [reflexivity|lia]|].
      split; [lia|]. simpl. do 4 (split; [reflexivity|]). left.
      exists c1. split; [reflexivity|]. split; [exact E1|]. split; [|auto].
      intros [|j] cl' Hj Hl; [|lia]. injection Hl as <-. exact E0.
  - eexists _, _, 0%nat. split; [reflexivity|]. split; [apply Hwf; [reflexivity|lia]|].
    split; [lia|]. simpl. do 4 (split; [reflexivity|]). left.
    exists c0. split; [reflexivity|]. split; [exact E0|]. split; [|auto].
    intros j cl' Hj. lia.
Qed.

Lemma X20_incoming_connection_gets_a_slot_witness :
  ∃ stopped srv' (k : nat),
    TCPServer.manage_client (Some (WiFiClient.mk true [])) example_server
    = Some (stopped, srv')
    ∧ (k < 2)%nat
    ∧ TCPServer.client srv'
      = <[k := WiFiClient.mk true []]> (TCPServer.client example_server).
Proof.
  destruct (X20_incoming_connection_gets_a_slot (WiFiClient.mk true []) example_server 8888)
    as (stopped & srv' & k & Hm & _ & Hk & Hcl & _).
  - unfold wf_server, pending. simpl. repeat split; try lia.
    rewrite !elem_of_cons, elem_of_nil. intros [H | [H | [H | H]]]; (lia || exact H).
  - reflexivity.
  - exists stopped, srv', k. auto.
Defined.

(** X21. With both slots taken, two connections coming in one after the
    other: the first replaces the client in slot [client_next mod 2]. If it
    is still connected when the second comes in, the second replaces the
    other old client, never the one just accepted, also when [client_next]
    wraps from 255 to 0. If it is no longer connected, the second takes its
    slot, no client is stopped and the other old client is kept. *)
Theorem X21_replacements_alternate new1 new2 srv p c0 c1 :
  wf_server srv →
  TCPServer.server srv = Some p →
  TCPServer.client srv = [c0; c1] →
  WiFiClient.connected c0 = true → WiFiClient.connected c1 = true →
  ∃ st1 srv1 st2 srv2,
    TCPServer.manage_client (Some new1) srv = Some (Some st1, srv1)
    ∧ TCPServer.manage_client (Some new2) srv1 = Some (st2, srv2)
    ∧ ((TCPServer.client_next srv `mod` 2 = 0
        ∧ TCPServer.client srv1 = [new1; c1] ∧ st1 = WiFiClient.stop c0
        ∧ (if WiFiClient.connected new1
           then TCPServer.client srv2 = [new1; new2] ∧ st2 = Some (WiFiClient.stop c1)
           else TCPServer.client srv2 = [new2; c1] ∧ st2 = None))
       ∨ (TCPServer.client_next srv `mod` 2 = 1
          ∧ TCPServer.client srv1 = [c0; new1] ∧ st1 = WiFiClient.stop c1
          ∧ (if WiFiClient.connected new1
             then TCPServer.client srv2 = [new2; new1] ∧ st2 = Some (WiFiClient.stop c0)
             else TCPServer.client srv2 = [c0; new2] ∧ st2 = None))).
Proof.
  intros (Hb & Hc & Hi & Hn & H13) Hsrv Hcl E0 E1.
  rewrite (manage_client_running new1 srv p c0 c1 Hsrv Hcl) by lia.
  destruct srv as [sv cls nxt buf idx]. simpl in *. subst sv cls.
  rewrite E0, E1. simpl.
  pose proof (uint8_byte (nxt + 1)) as Hu.
  pose proof (rem_2_next nxt Hn) as Hnext.
  assert (Z.rem nxt 2 = nxt `mod` 2) as Hmod by (apply Z.rem_mod_nonneg; lia).
  destruct (rem_2_cases nxt ltac:(lia)) as [Hr | Hr]; rewrite Hr in *; simpl;
    destruct (WiFiClient.connected new1) eqn:En.
  - eexists _, _, _, _. split; [reflexivity|].
    rewrite (manage_client_running new2 _ p new1 c1) by (reflexivity || (simpl; lia)).
    rewrite En, E1. simpl. rewrite Hnext. simpl.
    split; [reflexivity|]. left. auto.
  - eexists _, _, _, _. split; [reflexivity|].
    rewrite (manage_client_running new2 _ p new1 c1) by (reflexivity || (simpl; lia)).
    rewrite En. simpl.
    split; [reflexivity|]. left. auto.
  - eexists _, _, _, _. split; [reflexivity|].
    rewrite (manage_client_running new2 _ p c0 new1) by (reflexivity || (simpl; lia)).
    rewrite En, E0. simpl. rewrite Hnext. simpl.
    split; [reflexivity|]. right. auto.
  - eexists _, _, _, _. split; [reflexivity|].
    rewrite (manage_client_running new2 _ p c0 new1) by (reflexivity || (simpl; lia)).
    rewrite En, E0. simpl.
    split; [reflexivity|]. right. auto.
Qed.

Lemma X21_replacements_alternate_witness :
  let new1 := WiFiClient.mk true [[1]] in
  let new2 := WiFiClient.mk true [[2]] in
  let c0 := WiFiClient.mk true [[0x41; 13]] in
  let c1 := WiFiClient.mk true [] in
  let srv := example_full_server in
  ∃ st1 srv1 st2 srv2,
    TCPServer.manage_client (Some new1) srv = Some (Some st1, srv1)
    ∧ TCPServer.manage_client (Some new2) srv1 = Some (st2, srv2)
    ∧ ((TCPServer.client_next srv `mod` 2 = 0
        ∧ TCPServer.client srv1 = [new1; c1] ∧ st1 = WiFiClient.stop c0
        ∧ (if WiFiClient.connected new1
           then TCPServer.client srv2 = [new1; new2] ∧ st2 = Some (WiFiClient.stop c1)
           else TCPServer.client srv2 = [new2; c1] ∧ st2 = None))
       ∨ (TCPServer.client_next srv `mod` 2 = 1
          ∧ TCPServer.client srv1 = [c0; new1] ∧ st1 = WiFiClient.stop c1
          ∧ (if WiFiClient.connected new1
             then TCPServer.client srv2 = [new2; new1] ∧ st2 = Some (WiFiClient.stop c0)
             else TCPServer.client srv2 = [c0; new2] ∧ st2 = None))).
Proof.
  apply (X21_replacements_alternate _ _ example_full_server 8888); try reflexivity.
  unfold wf_server, pending. simpl. repeat split; try lia.
  rewrite !elem_of_cons, elem_of_nil. intros [H | [H | [H | H]]]; (lia || exact H).
Defined.

Section TcpStartStop.

Lemma stop_spec srv :
  length (TCPServer.client srv) = 2%nat →
  TCPServer.stop srv =
  Some (match TCPServer.server srv with
        | Some _ => (true, TCPServer.mk None (WiFiClient.stop <$> TCPServer.client srv)
                             (TCPServer.client_next srv) (TCPServer.buffer srv)
                             (TCPServer.buffer_index srv))
        | None => (false, srv)
        end).
Proof.
  intros Hc. destruct (two_clients _ Hc) as (c0 & c1 & Hcl).
  unfold TCPServer.stop. destruct (TCPServer.server srv); [|reflexivity].
  rewrite Hcl. reflexivity.
Qed.

Lemma send_all_stopped chars srv :
  TCPServer.server srv = None → send_all chars srv = Some srv.
Proof.
  intros H. induction chars as [|c rest IH]; [reflexivity|].
  simpl. rewrite send_stopped by exact H. exact IH.
Qed.

End TcpStartStop.

(** X22. [start] with a port above 0 always succeeds and leaves the server
    listening on that port (taken as a 16-bit number) with an empty buffer:
    characters that were waiting are dropped. If the server was running,
    every client has been stopped; if not, the clients are left as they
    are. *)
Theorem X22_start_restarts port srv :
  wf_server srv →
  0 < port →
  ∃ srv',
    TCPServer.start port srv = Some (true, srv')
    ∧ wf_server srv'
    ∧ TCPServer.server srv' = Some (uint16 port)
    ∧ pending srv' = []
    ∧ TCPServer.client srv'
      = (match TCPServer.server srv with
         | Some _ => WiFiClient.stop <$> TCPServer.client srv
         | None => TCPServer.client srv
         end).
Proof.
  intros (Hb & Hc & Hi & Hn & H13) Hport.
  unfold TCPServer.start. destruct (0 <? port) eqn:E; [|lia].
  destruct (TCPServer.server srv) eqn:Hsrv.
  - rewrite stop_spec by exact Hc. rewrite Hsrv. simpl.
    eexists. split; [reflexivity|]. unfold wf_server, pending. simpl.
    rewrite length_fmap. repeat split; try assumption; try lia. apply not_elem_of_nil.
  - simpl. eexists. split; [reflexivity|]. unfold wf_server, pending. simpl.
    repeat split; try assumption; try lia. apply not_elem_of_nil.
Qed.

Lemma X22_start_restarts_witness :
  ∃ srv',
    TCPServer.start 70000 example_server = Some (true, srv')
    ∧ wf_server srv'
    ∧ TCPServer.server srv' = Some (uint16 70000)
    ∧ pending srv' = []
    ∧ TCPServer.client srv' = WiFiClient.stop <$> TCPServer.client example_server.
Proof.
  apply (X22_start_restarts 70000 example_server); [|lia].
  unfold wf_server, pending. simpl. repeat split; try lia.
  rewrite !elem_of_cons, elem_of_nil. intros [H | [H | [H | H]]]; (lia || exact H).
Defined.

(** X23. [stop] answers whether the server was running, and leaves no
    listening socket and, if it was running, every client stopped. After
    that the server is inert until the next [start]: another [stop] answers
    false, [send] relays and buffers nothing, and [manage_client] accepts
    no connection. *)
Theorem X23_stop_leaves_server_inert srv :
  wf_server srv →
  ∃ was_running srv',
    TCPServer.stop srv = Some (was_running, srv')
    ∧ (was_running = true ↔ TCPServer.server srv ≠ None)
    ∧ TCPServer.server srv' = None
    ∧ (was_running = true → TCPServer.client srv' = WiFiClient.stop <$> TCPServer.client srv)
    ∧ (was_running = false → srv' = srv)
    ∧ TCPServer.stop srv' = Some (false, srv')
    ∧ (∀ chars, send_all chars srv' = Some srv')
    ∧ (∀ incoming, TCPServer.manage_client incoming srv' = Some (None, srv')).
Proof.
  intros (Hb & Hc & Hi & Hn & H13).
  rewrite stop_spec by exact Hc.
  destruct (TCPServer.server srv) eqn:Hsrv.
  - eexists _, _. split; [reflexivity|]. simpl.
    split; [split; [discriminate|reflexivity]|].
    split; [reflexivity|]. split; [reflexivity|]. split; [discriminate|].
    split; [reflexivity|]. split; [intros chars; apply send_all_stopped; reflexivity|].
    intros [c|]; reflexivity.
  - exists false, srv. split; [reflexivity|].
    split; [split; [discriminate|congruence]|].
    split; [exact Hsrv|]. split; [discriminate|]. split; [reflexivity|].
    split; [unfold TCPServer.stop; rewrite Hsrv; reflexivity|].
    split; [intros chars; apply send_all_stopped; exact Hsrv|].
    intros [c|]; unfold TCPServer.manage_client; rewrite Hsrv; reflexivity.
Qed.

Lemma X23_stop_leaves_server_inert_witness :
  ∃ was_running srv',
    TCPServer.stop example_server = Some (was_running, srv')
    ∧ (was_running = true ↔ TCPServer.server example_server ≠ None)
    ∧ TCPServer.server srv' = None
    ∧ (was_running = true
       → TCPServer.client srv' = WiFiClient.stop <$> TCPServer.client example_server)
    ∧ (was_running = false → srv' = example_server)
    ∧ TCPServer.stop srv' = Some (false, srv')
    ∧ (∀ chars, send_all chars srv' = Some srv')
    ∧ (∀ incoming, TCPServer.manage_client incoming srv' = Some (None, srv')).
Proof.
  apply (X23_stop_leaves_server_inert example_server).
  unfold wf_server, pending. simpl. repeat split; try lia.
  rewrite !elem_of_cons, elem_of_nil. intros [H | [H | [H | H]]]; (lia || exact H).
Defined.
